(** * Plot-structure pipeline of the writing application

    A shallow embedding of the server side of the plot-structure feature:
    the relational schema ([shared/schema.ts]), the [DatabaseStorage] class
    ([server/storage.ts]), the seeding routine [initPlotTemplates] with
    the built-in templates ([server/data/plot-templates.ts]) and the HTTP
    layer ([server/routes.ts]): the [isAuthenticated] middleware and the
    plot-structure endpoints.

    Conventions of the embedding.
    - JavaScript numbers that hold ids, orders and timestamps are integers
      of [Z].  Where the code adds such numbers, the sum is rounded as a
      double is ([Js.round_double]).  An [integer] column and an [integer]
      placeholder of a query take the numbers of [Db.int4]; a statement
      that is given another number throws.
    - Strings are byte strings.  HTTP header values reach the handlers one
      byte per character, so the string operations of the middleware are
      exact on them; a text column holds its value in UTF-8.  A route
      parameter is decoded from UTF-8 before [parseInt] reads it: on a
      parameter of ASCII characters ([Js.is_ascii]) [Js.parseInt] is
      exact, and whenever it reads a number from the bytes the decoded
      parameter gives the same number; only a parameter that starts with
      white space beyond ASCII is read by the code where the bytes give
      [NaN].
    - The methods of [DatabaseStorage] that take an id are the queries they
      run on an id of the [integer] range; outside it the query throws,
      which is modelled where the plot-structure handlers catch it
      ([Routes.with_id]); the project endpoints are modelled on ids of
      that range.
    - [new Date()] and [defaultNow()] read a clock; every operation that
      reads it takes the reading as its argument [now].
    - A PostgreSQL table is the list of its rows in storage order together
      with the next value of its [serial] sequence.  A query without
      [orderBy] returns the rows in storage order. *)

From stdpp Require Import base tactics option list strings sorting.
From Stdlib Require Import ZArith Lia Ascii.

Local Open Scope Z_scope.

(** ** JavaScript values and string primitives *)

Module Js.

(** A JSON value, as held by a [jsonb] column or a request body. *)
#[local] Set Warnings "-register-all".
Inductive json : Type :=
| JNull
| JBool (b : bool)
| JNum (z : Z)
| JStr (s : string)
| JArr (items : list json)
| JObj (fields : list (string * json)).

(** [typeof v === 'string'] *)
Definition is_string (v : json) : bool :=
  match v with JStr _ => true | _ => false end.

(** Property access [o.k] on an object literal: the last binding of a
    repeated key wins, a missing key gives [undefined] ([None]). *)
Fixpoint get_field (k : string) (fields : list (string * json)) : option json :=
  match fields with
  | [] => None
  | (k', v) :: rest =>
      match get_field k rest with
      | Some w => Some w
      | None => if decide (k' = k) then Some v else None
      end
  end.

(** The double-quote character, code 34. *)
Definition dquote : ascii := Ascii false true false false false true false false.
Definition dq : string := String dquote EmptyString.

(** [s.startsWith(p)] *)
Fixpoint startsWith (p s : string) : bool :=
  match p, s with
  | EmptyString, _ => true
  | String a p', String b s' => if decide (a = b) then startsWith p' s' else false
  | String _ _, EmptyString => false
  end.

(** [s.substring(n)] for a natural [n]: the string without its first [n]
    characters. *)
Fixpoint substring (n : nat) (s : string) : string :=
  match n, s with
  | O, _ => s
  | S n', String _ s' => substring n' s'
  | S _, EmptyString => EmptyString
  end.

(** [s.split(sep)] for a one-character separator: never the empty list. *)
Fixpoint split (sep : ascii) (s : string) : list string :=
  match s with
  | EmptyString => [EmptyString]
  | String c s' =>
      if decide (c = sep) then EmptyString :: split sep s'
      else match split sep s' with
           | p :: ps => String c p :: ps
           | [] => [String c EmptyString]
           end
  end.

(** [s.includes(c)] for a character [c]. *)
Fixpoint includes (c : ascii) (s : string) : bool :=
  match s with
  | EmptyString => false
  | String b s' => if decide (b = c) then true else includes c s'
  end.

(** [s.repeat(n)] *)
Fixpoint repeat (s : string) (n : nat) : string :=
  match n with
  | O => EmptyString
  | S n' => s +:+ repeat s n'
  end.

(** [parts[i]] *)
Definition at_index (parts : list string) (i : nat) : option string := parts !! i.

(** White space that [parseInt] skips, among the characters 0..255:
    TAB, LF, VT, FF, CR, SP and NBSP. *)
Definition is_white (c : ascii) : bool :=
  let n := nat_of_ascii c in
  (Nat.eqb n 9 || Nat.eqb n 10 || Nat.eqb n 11 || Nat.eqb n 12
   || Nat.eqb n 13 || Nat.eqb n 32 || Nat.eqb n 160)%bool.

Fixpoint skip_white (s : string) : string :=
  match s with
  | String c s' => if is_white c then skip_white s' else s
  | EmptyString => EmptyString
  end.

(** The value of a digit in the given radix (10 or 16). *)
Definition digit_value (radix : Z) (c : ascii) : option Z :=
  let n := Z.of_nat (nat_of_ascii c) in
  let v :=
    if (48 <=? n) && (n <=? 57) then Some (n - 48)
    else if (97 <=? n) && (n <=? 102) then Some (n - 87)
    else if (65 <=? n) && (n <=? 70) then Some (n - 55)
    else None in
  match v with
  | Some d => if d <? radix then Some d else None
  | None => None
  end.

(** Reads the longest prefix of digits; [acc] is [None] until a digit
    has been seen. *)
Fixpoint read_digits (radix : Z) (acc : option Z) (s : string) : option Z :=
  match s with
  | EmptyString => acc
  | String c s' =>
      match digit_value radix c with
      | Some d => read_digits radix (Some (default 0 acc * radix + d)) s'
      | None => acc
      end
  end.

(** [parseInt(s)] with no radix argument; [None] stands for [NaN]. *)
Definition parseInt (s : string) : option Z :=
  let s1 := skip_white s in
  let '(sign, s2) :=
    match s1 with
    | String c r =>
        if decide (c = "-"%char) then (-1, r)
        else if decide (c = "+"%char) then (1, r)
        else (1, s1)
    | EmptyString => (1, s1)
    end in
  let '(radix, s3) :=
    if startsWith "0x" s2 || startsWith "0X" s2 then (16, substring 2 s2)
    else (10, s2) in
  match read_digits radix None s3 with
  | Some m => Some (sign * m)
  | None => None
  end.

(** The double nearest to an integer, ties to the even significand: an
    integer of at most 53 bits is a double; of a longer one the bits below
    the first 53 are rounded away.  (No integer that the code adds reaches
    the largest double.) *)
Definition round_double (z : Z) : Z :=
  let a := Z.abs z in
  let bits := Z.log2 a + 1 in
  if bits <=? 53 then z
  else
    let shift := bits - 53 in
    let q := Z.shiftr a shift in
    let r := Z.land a (Z.ones shift) in
    let half := Z.shiftl 1 (shift - 1) in
    let q' := if (half <? r) || ((r =? half) && Z.odd q) then q + 1 else q in
    Z.sgn z * Z.shiftl q' shift.

(** [a + b] on numbers that hold integers. *)
Definition plus (a b : Z) : Z := round_double (a + b).

(** A string of ASCII characters only: its bytes are its characters,
    whatever the encoding it arrived in. *)
Fixpoint is_ascii (s : string) : bool :=
  match s with
  | EmptyString => true
  | String c s' => (nat_of_ascii c <? 128)%nat && is_ascii s'
  end.

(** Truthiness of the values that the storage layer negates twice. *)
Inductive value : Type :=
| VUndefined
| VBoolean (b : bool)
| VObject.

Definition truthy (v : value) : bool :=
  match v with
  | VUndefined => false
  | VBoolean b => b
  | VObject => true
  end.

End Js.


(** ** The relational schema ([shared/schema.ts]) *)

(** Milliseconds since the epoch. *)
Definition timestamp : Type := Z.

(** [plotStructureTemplates.$inferSelect] *)
Module PlotStructureTemplate.
Record t : Type := mk {
  id : Z;
  templateType : string;
  name : string;
  description : option string;
  sections : Js.json;
  createdAt : option timestamp;
  updatedAt : option timestamp;
  isDefault : option bool
}.
End PlotStructureTemplate.

(** [insertPlotStructureTemplateSchema]: the picked columns; an optional
    column is [None] when the key is left out and [Some None] when it is
    given as [null]. *)
Module InsertPlotStructureTemplate.
Record t : Type := mk {
  templateType : string;
  name : string;
  description : option (option string);
  sections : Js.json;
  isDefault : option (option bool)
}.
End InsertPlotStructureTemplate.

(** [plotStructures.$inferSelect] *)
Module PlotStructure.
Record t : Type := mk {
  id : Z;
  projectId : Z;
  templateId : Z;
  name : string;
  description : option string;
  parentId : option Z;
  order : option Z;
  createdAt : option timestamp;
  updatedAt : option timestamp
}.
End PlotStructure.

Module InsertPlotStructure.
Record t : Type := mk {
  projectId : Z;
  templateId : Z;
  name : string;
  description : option (option string);
  parentId : option (option Z);
  order : option (option Z)
}.
End InsertPlotStructure.

(** [Partial<PlotStructure>]: a field is [Some v] when the payload has the
    key. *)
Module PartialPlotStructure.
Record t : Type := mk {
  id : option Z;
  projectId : option Z;
  templateId : option Z;
  name : option string;
  description : option (option string);
  parentId : option (option Z);
  order : option (option Z);
  createdAt : option (option timestamp);
  updatedAt : option (option timestamp)
}.
Definition empty : t := mk None None None None None None None None None.
End PartialPlotStructure.

(** [plotStructureSections.$inferSelect] *)
Module PlotStructureSection.
Record t : Type := mk {
  id : Z;
  plotStructureId : Z;
  sectionKey : string;
  title : string;
  content : option string;
  order : Z;
  createdAt : option timestamp;
  updatedAt : option timestamp
}.
End PlotStructureSection.

Module InsertPlotStructureSection.
Record t : Type := mk {
  plotStructureId : Z;
  sectionKey : string;
  title : string;
  content : option (option string);
  order : Z
}.
End InsertPlotStructureSection.

(** [Partial<PlotStructureSection>] *)
Module PartialPlotStructureSection.
Record t : Type := mk {
  id : option Z;
  plotStructureId : option Z;
  sectionKey : option string;
  title : option string;
  content : option (option string);
  order : option Z;
  createdAt : option (option timestamp);
  updatedAt : option (option timestamp)
}.
Definition empty : t := mk None None None None None None None None.
End PartialPlotStructureSection.

(** ** The store: tables, sequences and the queries the code issues

    The handle [db] of [server/db.ts] is a drizzle-orm connection to
    PostgreSQL.  Its statements are modelled on tables held as lists:
    [select] filters the rows, [insert] appends a row keyed by the
    sequence, [update] rewrites the rows it matches in place, [delete]
    drops them.  A statement that PostgreSQL rejects throws. *)

Module Db.

(** What an operation can fail with: the errors the schema makes
    PostgreSQL raise (a duplicate primary key, a value too long for its
    [varchar(n)] column, a number outside the range of [integer]) and the
    two failures of the materializer. *)
Inductive error : Type :=
| UniqueViolation
| ValueTooLong
| OutOfRange
| NotFound
| InvalidTemplate.

Inductive result (A : Type) : Type :=
| Ok (a : A)
| Throw (e : error).
Arguments Ok {A} a.
Arguments Throw {A} e.

Record table (R : Type) : Type := mkTable {
  rows : list R;
  nextId : Z
}.
Arguments mkTable {R} rows nextId.
Arguments rows {R} t.
Arguments nextId {R} t.

(** A [serial] sequence starts at 1. *)
Definition empty_table {R : Type} : table R := mkTable [] 1.

(** The result object of a statement without [returning()]. *)
Record QueryResult : Type := mkQueryResult { rowCount : nat }.

(** The driver's result is an object, whatever its row count. *)
Definition js_value (q : QueryResult) : Js.value := Js.VObject.

(** Number of characters of a text held in UTF-8: the bytes that are not
    continuation bytes. *)
Fixpoint char_length (s : string) : Z :=
  match s with
  | EmptyString => 0
  | String c s' =>
      let n := Z.of_nat (nat_of_ascii c) in
      (if (128 <=? n) && (n <? 192) then 0 else 1) + char_length s'
  end.

(** A value that [varchar(n)] holds: at most [n] characters. *)
Definition fits_varchar (n : Z) (s : string) : bool := char_length s <=? n.

(** A byte that continues a UTF-8 character. *)
Definition continuation (c : ascii) : bool :=
  let n := Z.of_nat (nat_of_ascii c) in (128 <=? n) && (n <? 192).

(** The first [n] characters of a text, and what follows them. *)
Fixpoint take_chars (n : nat) (s : string) : string :=
  match s with
  | EmptyString => EmptyString
  | String c s' =>
      if continuation c then String c (take_chars n s')
      else match n with
           | O => EmptyString
           | S n' => String c (take_chars n' s')
           end
  end.

Fixpoint drop_chars (n : nat) (s : string) : string :=
  match s with
  | EmptyString => EmptyString
  | String c s' =>
      if continuation c then drop_chars n s'
      else match n with
           | O => s
           | S n' => drop_chars n' s'
           end
  end.

Fixpoint all_spaces (s : string) : bool :=
  match s with
  | EmptyString => true
  | String c s' => bool_decide (c = " "%char) && all_spaces s'
  end.

(** What a [varchar(n)] column stores of a value: the value when it fits,
    its first [n] characters when what exceeds them is spaces only;
    otherwise the statement is rejected ([None]). *)
Definition varchar (n : Z) (s : string) : option string :=
  if fits_varchar n s then Some s
  else if all_spaces (drop_chars (Z.to_nat n) s) then Some (take_chars (Z.to_nat n) s)
  else None.

(** The range of an [integer] column and of an [integer] placeholder. *)
Definition int4 (n : Z) : bool := (-2147483648 <=? n) && (n <=? 2147483647).

(** A nullable [integer] value. *)
Definition int4_null (o : option Z) : bool :=
  match o with
  | Some n => int4 n
  | None => true
  end.

Section Table.
Context {R : Type}.
(** The primary key column, the values the column types hold, and the row
    as the column types store it: a statement whose values the columns
    do not take is rejected before it runs. *)
Variable row_id : R -> Z.
Variable row_ok : R -> bool.
Variable stored : R -> result R.

(** Every stored row holds values of its column types. *)
Definition checked (t : table R) : Prop :=
  Forall (fun r => row_ok r = true) (rows t).

Definition id_taken (i : Z) (t : table R) : bool :=
  bool_decide (i ∈ map row_id (rows t)).

(** [db.select().from(t).where(eq(t.id, i))] *)
Definition select_by_id (i : Z) (t : table R) : list R :=
  filter (fun r => row_id r = i) (rows t).

(** [db.insert(t).values(v).returning()]: [mk] builds the row from the
    id, with the column defaults filled in.  Values that the columns do
    not take are rejected before the sequence is asked; otherwise the
    sequence gives the id and is advanced, whether or not the key is
    free. *)
Definition insert (mk : Z -> R) (t : table R) : result R * table R :=
  let i := nextId t in
  match stored (mk i) with
  | Throw e => (Throw e, t)
  | Ok r =>
      if id_taken i t then (Throw UniqueViolation, mkTable (rows t) (i + 1))
      else (Ok r, mkTable (rows t ++ [r]) (i + 1))
  end.

(** A row with primary key [i] is given a new key that another row has. *)
Definition key_conflict (i : Z) (set : R -> R) (t : table R) : bool :=
  existsb (fun r => bool_decide (row_id r = i)
                    && negb (bool_decide (row_id (set r) = i))
                    && id_taken (row_id (set r)) t) (rows t).

(** [db.update(t).set(v).where(eq(t.id, i)).returning()], for values [v]
    that the columns take: the rows with primary key [i] are replaced by
    their updates, which are returned; a rejected statement changes
    nothing. *)
Definition update (i : Z) (set : R -> R) (t : table R) : result (list R) * table R :=
  let updated := map set (select_by_id i t) in
  if key_conflict i set t then (Throw UniqueViolation, t)
  else (Ok updated,
        mkTable (map (fun r => if decide (row_id r = i) then set r else r) (rows t))
                (nextId t)).

(** [db.delete(t).where(eq(t.id, i))] *)
Definition delete (i : Z) (t : table R) : QueryResult * table R :=
  (mkQueryResult (length (select_by_id i t)),
   mkTable (filter (fun r => row_id r <> i) (rows t)) (nextId t)).

End Table.

(** The three tables of the plot-structure feature. *)
Record store : Type := mkStore {
  plotStructureTemplates : table PlotStructureTemplate.t;
  plotStructures : table PlotStructure.t;
  plotStructureSections : table PlotStructureSection.t
}.

Definition empty_store : store := mkStore empty_table empty_table empty_table.

(** The values the columns hold: [template_type varchar(50)],
    [section_key varchar(100)] and the [integer] columns beside the
    [serial] keys; the other columns are [text], [boolean], [jsonb] and
    [timestamp]. *)
Definition template_ok (r : PlotStructureTemplate.t) : bool :=
  fits_varchar 50 (PlotStructureTemplate.templateType r).
Definition structure_ok (r : PlotStructure.t) : bool :=
  int4 (PlotStructure.projectId r) && int4 (PlotStructure.templateId r)
  && int4_null (PlotStructure.parentId r) && int4_null (PlotStructure.order r).
Definition section_ok (r : PlotStructureSection.t) : bool :=
  fits_varchar 100 (PlotStructureSection.sectionKey r)
  && int4 (PlotStructureSection.plotStructureId r)
  && int4 (PlotStructureSection.order r).

(** The rows as the columns store them. *)
Definition stored_template (r : PlotStructureTemplate.t)
  : result PlotStructureTemplate.t :=
  match varchar 50 (PlotStructureTemplate.templateType r) with
  | Some templateType =>
      Ok (PlotStructureTemplate.mk (PlotStructureTemplate.id r) templateType
            (PlotStructureTemplate.name r) (PlotStructureTemplate.description r)
            (PlotStructureTemplate.sections r) (PlotStructureTemplate.createdAt r)
            (PlotStructureTemplate.updatedAt r) (PlotStructureTemplate.isDefault r))
  | None => Throw ValueTooLong
  end.

Definition stored_structure (r : PlotStructure.t) : result PlotStructure.t :=
  if structure_ok r then Ok r else Throw OutOfRange.

Definition stored_section (r : PlotStructureSection.t)
  : result PlotStructureSection.t :=
  if int4 (PlotStructureSection.plotStructureId r) && int4 (PlotStructureSection.order r)
  then
    match varchar 100 (PlotStructureSection.sectionKey r) with
    | Some sectionKey =>
        Ok (PlotStructureSection.mk (PlotStructureSection.id r)
              (PlotStructureSection.plotStructureId r) sectionKey
              (PlotStructureSection.title r) (PlotStructureSection.content r)
              (PlotStructureSection.order r) (PlotStructureSection.createdAt r)
              (PlotStructureSection.updatedAt r))
    | None => Throw ValueTooLong
    end
  else Throw OutOfRange.

(** The values of an update as the columns store them. *)
Definition int4_set (o : option Z) : bool :=
  match o with
  | Some n => int4 n
  | None => true
  end.

Definition int4_set_null (o : option (option Z)) : bool :=
  match o with
  | Some o => int4_null o
  | None => true
  end.

Definition stored_structure_update (p : PartialPlotStructure.t)
  : result PartialPlotStructure.t :=
  if int4_set (PartialPlotStructure.id p) && int4_set (PartialPlotStructure.projectId p)
     && int4_set (PartialPlotStructure.templateId p)
     && int4_set_null (PartialPlotStructure.parentId p)
     && int4_set_null (PartialPlotStructure.order p)
  then Ok p else Throw OutOfRange.

Definition stored_section_update (p : PartialPlotStructureSection.t)
  : result PartialPlotStructureSection.t :=
  if int4_set (PartialPlotStructureSection.id p)
     && int4_set (PartialPlotStructureSection.plotStructureId p)
     && int4_set (PartialPlotStructureSection.order p)
  then
    match PartialPlotStructureSection.sectionKey p with
    | None => Ok p
    | Some sectionKey =>
        match varchar 100 sectionKey with
        | Some sectionKey =>
            Ok (PartialPlotStructureSection.mk (PartialPlotStructureSection.id p)
                  (PartialPlotStructureSection.plotStructureId p) (Some sectionKey)
                  (PartialPlotStructureSection.title p)
                  (PartialPlotStructureSection.content p)
                  (PartialPlotStructureSection.order p)
                  (PartialPlotStructureSection.createdAt p)
                  (PartialPlotStructureSection.updatedAt p))
        | None => Throw ValueTooLong
        end
    end
  else Throw OutOfRange.

End Db.

Import Db (Ok, Throw).

(** ** [DatabaseStorage] ([server/storage.ts]) *)

Module DatabaseStorage.
Import Db.

(** *** Row builders: the inserted values with the column defaults *)

Definition template_row (v : InsertPlotStructureTemplate.t) (now : timestamp) (i : Z)
  : PlotStructureTemplate.t :=
  PlotStructureTemplate.mk i
    (InsertPlotStructureTemplate.templateType v)
    (InsertPlotStructureTemplate.name v)
    (default None (InsertPlotStructureTemplate.description v))
    (InsertPlotStructureTemplate.sections v)
    (Some now) (Some now)
    (default (Some false) (InsertPlotStructureTemplate.isDefault v)).

Definition structure_row (v : InsertPlotStructure.t) (now : timestamp) (i : Z)
  : PlotStructure.t :=
  PlotStructure.mk i
    (InsertPlotStructure.projectId v)
    (InsertPlotStructure.templateId v)
    (InsertPlotStructure.name v)
    (default None (InsertPlotStructure.description v))
    (default None (InsertPlotStructure.parentId v))
    (default (Some 0) (InsertPlotStructure.order v))
    (Some now) (Some now).

Definition section_row (v : InsertPlotStructureSection.t) (now : timestamp) (i : Z)
  : PlotStructureSection.t :=
  PlotStructureSection.mk i
    (InsertPlotStructureSection.plotStructureId v)
    (InsertPlotStructureSection.sectionKey v)
    (InsertPlotStructureSection.title v)
    (default (Some EmptyString) (InsertPlotStructureSection.content v))
    (InsertPlotStructureSection.order v)
    (Some now) (Some now).

(** *** [.set({ ...update, updatedAt: new Date() })] *)

Definition set_structure (p : PartialPlotStructure.t) (now : timestamp)
  (r : PlotStructure.t) : PlotStructure.t :=
  PlotStructure.mk
    (default (PlotStructure.id r) (PartialPlotStructure.id p))
    (default (PlotStructure.projectId r) (PartialPlotStructure.projectId p))
    (default (PlotStructure.templateId r) (PartialPlotStructure.templateId p))
    (default (PlotStructure.name r) (PartialPlotStructure.name p))
    (default (PlotStructure.description r) (PartialPlotStructure.description p))
    (default (PlotStructure.parentId r) (PartialPlotStructure.parentId p))
    (default (PlotStructure.order r) (PartialPlotStructure.order p))
    (default (PlotStructure.createdAt r) (PartialPlotStructure.createdAt p))
    (Some now).

Definition set_section (p : PartialPlotStructureSection.t) (now : timestamp)
  (r : PlotStructureSection.t) : PlotStructureSection.t :=
  PlotStructureSection.mk
    (default (PlotStructureSection.id r) (PartialPlotStructureSection.id p))
    (default (PlotStructureSection.plotStructureId r)
             (PartialPlotStructureSection.plotStructureId p))
    (default (PlotStructureSection.sectionKey r) (PartialPlotStructureSection.sectionKey p))
    (default (PlotStructureSection.title r) (PartialPlotStructureSection.title p))
    (default (PlotStructureSection.content r) (PartialPlotStructureSection.content p))
    (default (PlotStructureSection.order r) (PartialPlotStructureSection.order p))
    (default (PlotStructureSection.createdAt r) (PartialPlotStructureSection.createdAt p))
    (Some now).

(** *** Store updates, one table at a time *)

Definition with_templates (st : store) (t : table PlotStructureTemplate.t) : store :=
  mkStore t (plotStructures st) (plotStructureSections st).
Definition with_structures (st : store) (t : table PlotStructure.t) : store :=
  mkStore (plotStructureTemplates st) t (plotStructureSections st).
Definition with_sections (st : store) (t : table PlotStructureSection.t) : store :=
  mkStore (plotStructureTemplates st) (plotStructures st) t.

(** *** Plot structure template methods *)

Definition getPlotStructureTemplate (st : store) (id : Z) : option PlotStructureTemplate.t :=
  head (select_by_id PlotStructureTemplate.id id (plotStructureTemplates st)).

Definition getAllPlotStructureTemplates (st : store) : list PlotStructureTemplate.t :=
  rows (plotStructureTemplates st).

Definition createPlotStructureTemplate (v : InsertPlotStructureTemplate.t)
  (now : timestamp) (st : store) : result PlotStructureTemplate.t * store :=
  let '(r, t) := insert PlotStructureTemplate.id stored_template (template_row v now)
                        (plotStructureTemplates st) in
  (r, with_templates st t).

(** *** Plot structure methods *)

Definition getPlotStructure (st : store) (id : Z) : option PlotStructure.t :=
  head (select_by_id PlotStructure.id id (plotStructures st)).

(** No [orderBy]. *)
Definition getProjectPlotStructures (st : store) (projectId : Z) : list PlotStructure.t :=
  filter (fun r => PlotStructure.projectId r = projectId) (rows (plotStructures st)).

Definition createPlotStructure (v : InsertPlotStructure.t)
  (now : timestamp) (st : store) : result PlotStructure.t * store :=
  let '(r, t) := insert PlotStructure.id stored_structure (structure_row v now)
                        (plotStructures st) in
  (r, with_structures st t).

Definition updatePlotStructure (id : Z) (structureUpdate : PartialPlotStructure.t)
  (now : timestamp) (st : store) : result (option PlotStructure.t) * store :=
  match stored_structure_update structureUpdate with
  | Throw e => (Throw e, st)
  | Ok structureUpdate =>
      match update PlotStructure.id id (set_structure structureUpdate now)
                   (plotStructures st) with
      | (Ok updated, t) => (Ok (head updated), with_structures st t)
      | (Throw e, t) => (Throw e, with_structures st t)
      end
  end.

(** [return !!result] *)
Definition deletePlotStructure (id : Z) (st : store) : bool * store :=
  let '(result, t) := delete PlotStructure.id id (plotStructures st) in
  (negb (negb (Js.truthy (js_value result))), with_structures st t).

(** *** Plot structure section methods *)

Definition getPlotStructureSection (st : store) (id : Z) : option PlotStructureSection.t :=
  head (select_by_id PlotStructureSection.id id (plotStructureSections st)).

Definition section_order_le (a b : PlotStructureSection.t) : Prop :=
  PlotStructureSection.order a <= PlotStructureSection.order b.

#[global] Instance section_order_le_dec : RelDecision section_order_le :=
  fun a b => decide (PlotStructureSection.order a <= PlotStructureSection.order b).

(** [.where(eq(plotStructureId, id)).orderBy(order)] *)
Definition getPlotStructureSections (st : store) (plotStructureId : Z)
  : list PlotStructureSection.t :=
  merge_sort section_order_le
    (filter (fun r => PlotStructureSection.plotStructureId r = plotStructureId)
            (rows (plotStructureSections st))).

Definition createPlotStructureSection (v : InsertPlotStructureSection.t)
  (now : timestamp) (st : store) : result PlotStructureSection.t * store :=
  let '(r, t) := insert PlotStructureSection.id stored_section (section_row v now)
                        (plotStructureSections st) in
  (r, with_sections st t).

Definition updatePlotStructureSection (id : Z) (sectionUpdate : PartialPlotStructureSection.t)
  (now : timestamp) (st : store) : result (option PlotStructureSection.t) * store :=
  match stored_section_update sectionUpdate with
  | Throw e => (Throw e, st)
  | Ok sectionUpdate =>
      match update PlotStructureSection.id id (set_section sectionUpdate now)
                   (plotStructureSections st) with
      | (Ok updated, t) => (Ok (head updated), with_sections st t)
      | (Throw e, t) => (Throw e, with_sections st t)
      end
  end.

(** [return !!result] *)
Definition deletePlotStructureSection (id : Z) (st : store) : bool * store :=
  let '(result, t) := delete PlotStructureSection.id id (plotStructureSections st) in
  (negb (negb (Js.truthy (js_value result))), with_sections st t).

End DatabaseStorage.

(** ** The HTTP layer ([server/routes.ts]) *)

Module Routes.
Import Db.

(** [Express.User]; the object the token branch builds has only [id] and
    [username]. *)
Record User : Type := mkUser {
  id : Z;
  username : string;
  email : option string;
  password : option string;
  createdAt : option timestamp
}.

(** What the middleware reads of a request: [req.isAuthenticated()],
    [req.user] and [req.headers.authorization].  Passport answers
    [req.isAuthenticated()] from [req.user]. *)
Record Request : Type := mkRequest {
  sessionAuthenticated : bool;
  user : option User;
  authorization : option string
}.

(** [req.user = u]: from then on [req.isAuthenticated()] is [true]. *)
Definition set_user (req : Request) (u : User) : Request :=
  mkRequest true (Some u) (authorization req).

Inductive body : Type :=
| NoBody
| Message (message : string)
| Structure (s : PlotStructure.t)
| Structures (l : list PlotStructure.t)
| Section_ (s : PlotStructureSection.t)
| Sections (l : list PlotStructureSection.t).

Record Response : Type := mkResponse {
  status : Z;
  payload : body
}.

(** [res.json(b)] answers 200. *)
Definition json (b : body) : Response := mkResponse 200 b.

(** What a middleware does: call [next()] with the request as it left it,
    or answer. *)
Inductive outcome : Type :=
| Next (req : Request)
| Respond (res : Response).

(** A non-empty string is truthy. *)
Definition truthy_string (s : string) : bool :=
  match s with EmptyString => false | String _ _ => true end.

(** The token branch: the user the header authenticates, if any. *)
Definition token_user (authHeader : string) : option User :=
  if truthy_string authHeader && Js.startsWith "Bearer " authHeader then
    let token := Js.substring 7 authHeader in
    if truthy_string token && Js.startsWith "user-" token then
      let parts := Js.split "-" token in
      if bool_decide (2 <= length parts)%nat then
        match Js.parseInt (default EmptyString (Js.at_index parts 1)) with
        | Some userId => Some (mkUser userId "TokenUser" None None None)
        | None => None
        end
      else None
    else None
  else None.

Definition isAuthenticated (req : Request) : outcome :=
  let isSessionAuth := sessionAuthenticated req && bool_decide (is_Some (user req)) in
  let '(req, isSessionAuth) :=
    if negb isSessionAuth then
      match authorization req with
      | Some authHeader =>
          match token_user authHeader with
          | Some u => (set_user req u, true)
          | None => (req, isSessionAuth)
          end
      | None => (req, isSessionAuth)
      end
    else (req, isSessionAuth) in
  if isSessionAuth then Next req
  else Respond (mkResponse 401 (Message "Unauthorized")).

(** [app.METHOD(path, isAuthenticated, handler)] *)
Definition protected {A : Type} (handler : Request -> A -> Response * A)
  (req : Request) (st : A) : Response * A :=
  match isAuthenticated req with
  | Next req' => handler req' st
  | Respond res => (res, st)
  end.

(** A route parameter that [parseInt] turns into [NaN] or into a number
    outside the [integer] range reaches the query as such; the statement
    is rejected and the [catch] block answers 500. *)
Definition with_id (param : string) (failure : string)
  (k : Z -> store -> Response * store) (st : store) : Response * store :=
  match Js.parseInt param with
  | Some id =>
      if int4 id then k id st else (mkResponse 500 (Message failure), st)
  | None => (mkResponse 500 (Message failure), st)
  end.


(** [GET /api/projects/:projectId/plot-structures] *)
Definition get_project_plot_structures (projectId : string) (st : store)
  : Response * store :=
  with_id projectId "Failed to fetch plot structures"
    (fun id st => (json (Structures (DatabaseStorage.getProjectPlotStructures st id)), st)) st.


(** [DELETE /api/plot-structures/:id] *)
Definition delete_plot_structure (id : string) (st : store) : Response * store :=
  with_id id "Failed to delete plot structure"
    (fun id st =>
       let '(success, st') := DatabaseStorage.deletePlotStructure id st in
       if negb success then (mkResponse 404 (Message "Plot structure not found"), st')
       else (mkResponse 204 NoBody, st')) st.

(** [GET /api/plot-structures/:structureId/sections] *)
Definition get_plot_structure_sections (structureId : string) (st : store)
  : Response * store :=
  with_id structureId "Failed to fetch plot structure sections"
    (fun id st => (json (Sections (DatabaseStorage.getPlotStructureSections st id)), st)) st.


End Routes.

(** ** The built-in templates ([server/data/plot-templates.ts]) *)

Module PlotTemplates.

Section Data.
(** [JSON.stringify], the serializer of the host language. *)
Variable JSON_stringify : Js.json -> string.

(** One entry of a template's section list:
    [{ key, title, description, order }]. *)
Definition section_def (key title description : string) (order : Z) : Js.json :=
  Js.JObj [("key", Js.JStr key); ("title", Js.JStr title);
           ("description", Js.JStr description); ("order", Js.JNum order)].

(** Freytag's Pyramid *)
Definition freytag_sections : list Js.json := [
  section_def "exposition" "Exposition"
    "Introduce the setting, characters, and the basic conflict. Set the stage for what follows." 1;
  section_def "rising_action" "Rising Action"
    "Series of events that build up tension and complications, leading toward the climax." 2;
  section_def "climax" "Climax"
    "The turning point and moment of highest tension in the story. The protagonist faces the central conflict directly." 3;
  section_def "falling_action" "Falling Action"
    "Events following the climax that show the consequences of decisions made during the climactic moment." 4;
  section_def "resolution" "Resolution (Dénouement)"
    "Final resolution of the story's conflicts. Loose ends are tied up and a new normal is established." 5
].

Definition freytag : InsertPlotStructureTemplate.t :=
  InsertPlotStructureTemplate.mk "freytag" "Freytag's Pyramid"
    (Some (Some "A five-act dramatic structure that includes exposition, rising action, climax, falling action, and resolution."))
    (Js.JStr (JSON_stringify (Js.JArr freytag_sections)))
    (Some (Some true)).

(** The Hero's Journey *)
Definition hero_journey_sections : list Js.json := [
  section_def "ordinary_world" "Ordinary World"
    "The hero's normal world before the adventure begins. Establishes the character's normal life and limitations." 1;
  section_def "call_to_adventure" "Call to Adventure"
    "The hero is presented with a challenge, problem, or adventure to undertake." 2;
  section_def "refusal_of_call" "Refusal of the Call"
    "The hero initially refuses the call due to fear, insecurity, or other obligations." 3;
  section_def "meeting_the_mentor" "Meeting the Mentor"
    "The hero encounters a mentor figure who provides guidance, wisdom, or magical aid." 4;
  section_def "crossing_threshold" "Crossing the First Threshold"
    "The hero commits to the adventure and crosses into the special world where the rules are different." 5;
  section_def "tests_allies_enemies" "Tests, Allies, and Enemies"
    "The hero faces tests, makes allies, and confronts enemies in the special world." 6;
  section_def "approach_inmost_cave" "Approach to the Inmost Cave"
    "The hero prepares for the major challenge ahead, often involving introspection or preparation." 7;
  section_def "ordeal" "The Ordeal"
    ("The hero faces their greatest fear or challenge, a moment of " +:+ Js.dq +:+ "death and rebirth." +:+ Js.dq) 8;
  section_def "reward" "Reward (Seizing the Sword)"
    "The hero obtains what they sought, be it a physical object, knowledge, or reconciliation." 9;
  section_def "road_back" "The Road Back"
    "The hero begins the journey back to the ordinary world, often pursued by remaining threats." 10;
  section_def "resurrection" "Resurrection"
    "The hero faces a final test, using all they've learned to overcome the ultimate challenge." 11;
  section_def "return_with_elixir" "Return with the Elixir"
    "The hero returns to the ordinary world with something that can benefit others (insight, treasure, or love)." 12
].

Definition hero_journey : InsertPlotStructureTemplate.t :=
  InsertPlotStructureTemplate.mk "hero_journey" "The Hero's Journey"
    (Some (Some "Joseph Campbell's monomyth structure featuring a hero who goes on an adventure, faces challenges, wins victory, and returns transformed."))
    (Js.JStr (JSON_stringify (Js.JArr hero_journey_sections)))
    (Some (Some true)).

(** Three Act Structure *)
Definition three_act_sections : list Js.json := [
  section_def "act1_setup" "Act 1: Setup"
    "Introduce the main characters, setting, and the central conflict. Ends with an inciting incident that launches the main storyline." 1;
  section_def "act1_inciting_incident" "Inciting Incident"
    "The event that sets the story in motion and disrupts the protagonist's normal life." 2;
  section_def "act1_turning_point" "First Plot Point"
    "The protagonist commits to addressing the central conflict, transitioning into Act 2." 3;
  section_def "act2_confrontation" "Act 2: Confrontation"
    "The protagonist faces obstacles while trying to resolve the central problem. Tension escalates." 4;
  section_def "act2_midpoint" "Midpoint"
    "A significant event that changes the protagonist's perspective or approach to their goal." 5;
  section_def "act2_turning_point" "Second Plot Point"
    "A major setback or revelation that propels the story into the final act." 6;
  section_def "act3_resolution" "Act 3: Resolution"
    "The central conflict reaches its climax and is resolved. The story concludes with a new equilibrium." 7;
  section_def "act3_climax" "Climax"
    "The final confrontation where the protagonist faces the antagonist or main challenge." 8;
  section_def "act3_denouement" "Denouement"
    "Loose ends are tied up and we see how characters have changed. The new normal is established." 9
].

Definition three_act : InsertPlotStructureTemplate.t :=
  InsertPlotStructureTemplate.mk "three_act" "Three Act Structure"
    (Some (Some "A traditional storytelling approach divided into beginning (setup), middle (confrontation), and end (resolution)."))
    (Js.JStr (JSON_stringify (Js.JArr three_act_sections)))
    (Some (Some true)).

(** Dan Harmon's Story Circle *)
Definition story_circle_sections : list Js.json := [
  section_def "you" "1. You (A character is in a zone of comfort)"
    "Establish the protagonist in their familiar environment and normal life." 1;
  section_def "need" "2. Need (But they want something)"
    "The protagonist develops a conscious or unconscious desire for something." 2;
  section_def "go" "3. Go (They enter an unfamiliar situation)"
    "The protagonist leaves their comfort zone and enters a new, unfamiliar situation." 3;
  section_def "search" "4. Search (Adapt to it)"
    "The protagonist searches for what they need while adapting to the new situation." 4;
  section_def "find" "5. Find (Find what they wanted)"
    "The protagonist gets what they were looking for, but it comes with complications." 5;
  section_def "take" "6. Take (Pay a heavy price for it)"
    "The protagonist pays a price for getting what they wanted and faces consequences." 6;
  section_def "return" "7. Return (And go back to where they started)"
    "The protagonist returns to their familiar situation, bringing with them new knowledge or power." 7;
  section_def "change" "8. Change (Having changed)"
    "The protagonist has fundamentally changed as a result of their journey." 8
].

Definition story_circle : InsertPlotStructureTemplate.t :=
  InsertPlotStructureTemplate.mk "story_circle" "Dan Harmon's Story Circle"
    (Some (Some "An eight-step storytelling structure derived from Joseph Campbell's Hero's Journey but simplified for modern storytelling."))
    (Js.JStr (JSON_stringify (Js.JArr story_circle_sections)))
    (Some (Some true)).

(** Fichtean Curve *)
Definition fichtean_curve_sections : list Js.json := [
  section_def "introduction" "Introduction"
    "Brief introduction of the character and situation, immediately leading into action." 1;
  section_def "crisis_1" "First Crisis"
    "The first major obstacle or challenge the protagonist faces." 2;
  section_def "crisis_2" "Second Crisis"
    "A more significant challenge that builds on the first crisis." 3;
  section_def "crisis_3" "Third Crisis"
    "An even more significant challenge that continues to raise the stakes." 4;
  section_def "crisis_4" "Fourth Crisis"
    "The tension continues to build with increasingly difficult obstacles." 5;
  section_def "final_crisis" "Final Crisis"
    "The ultimate challenge where the protagonist must use everything they've learned." 6;
  section_def "climax" "Climax"
    "The highest point of tension and the moment of truth where the main conflict is resolved." 7;
  section_def "brief_resolution" "Brief Resolution"
    "A very brief conclusion showing the aftermath of the climactic moment." 8
].

Definition fichtean_curve : InsertPlotStructureTemplate.t :=
  InsertPlotStructureTemplate.mk "fichtean_curve" "Fichtean Curve"
    (Some (Some "A story structure focused on a series of rising crises that build to a major climax, with little to no falling action or resolution."))
    (Js.JStr (JSON_stringify (Js.JArr fichtean_curve_sections)))
    (Some (Some true)).

(** Save the Cat Beat Sheet *)
Definition save_the_cat_sections : list Js.json := [
  section_def "opening_image" "1. Opening Image"
    "A snapshot of the main character and their world before the story begins. Sets the tone and mood." 1;
  section_def "theme_stated" "2. Theme Stated"
    "Someone states (often indirectly) what the story is thematically about." 2;
  section_def "setup" "3. Setup"
    "Introduce the main characters and their world, showing what needs fixing in the hero's life." 3;
  section_def "catalyst" "4. Catalyst"
    "The inciting incident that sets the story in motion and disrupts the status quo." 4;
  section_def "debate" "5. Debate"
    "The hero initially resists the call to change, weighing options and considering risks." 5;
  section_def "break_into_two" "6. Break into Two"
    "The hero decides to accept the challenge and enters a new world or situation." 6;
  section_def "b_story" "7. B Story"
    "A secondary story (often a love story) that carries the theme and helps the hero solve the main problem." 7;
  section_def "fun_and_games" "8. Fun and Games"
    ("The " +:+ Js.dq +:+ "promise of the premise" +:+ Js.dq +:+ " where we see the hero in their new world, exploring the concept.") 8;
  section_def "midpoint" "9. Midpoint"
    "A false victory (or false defeat) that raises the stakes and pushes the hero in a new direction." 9;
  section_def "bad_guys_close_in" "10. Bad Guys Close In"
    "External pressures mount and internal doubts increase as enemies regroup after the midpoint." 10;
  section_def "all_is_lost" "11. All Is Lost"
    "The opposite of the midpoint: a false defeat (or false victory) where things are at their worst." 11;
  section_def "dark_night_of_soul" "12. Dark Night of the Soul"
    "The hero's darkest moment where they must dig deep to find a solution." 12;
  section_def "break_into_three" "13. Break into Three"
    "The hero figures out a solution, often by combining A and B stories, and heads to the finale." 13;
  section_def "finale" "14. Finale"
    "The hero executes their plan, overcomes obstacles, and resolves the central problem." 14;
  section_def "final_image" "15. Final Image"
    "A mirror to the opening image, showing how the world and character have changed." 15
].

Definition save_the_cat : InsertPlotStructureTemplate.t :=
  InsertPlotStructureTemplate.mk "save_the_cat" "Save the Cat Beat Sheet"
    (Some (Some "Blake Snyder's 15-beat story structure popularly used in screenwriting but applicable to novels as well."))
    (Js.JStr (JSON_stringify (Js.JArr save_the_cat_sections)))
    (Some (Some true)).

(** Seven-Point Story Structure *)
Definition seven_point_sections : list Js.json := [
  section_def "hook" "1. Hook"
    "The starting point that draws readers in. Establishes the character in their normal world." 1;
  section_def "plot_turn_1" "2. Plot Turn 1"
    "The event that sets the story in motion. The protagonist leaves their comfort zone." 2;
  section_def "pinch_1" "3. Pinch 1"
    "The first major obstacle that applies pressure to the protagonist and raises the stakes." 3;
  section_def "midpoint" "4. Midpoint"
    "The protagonist moves from reaction to action. A turning point where they change their approach." 4;
  section_def "pinch_2" "5. Pinch 2"
    "A second, more significant obstacle that forces the protagonist to commit fully to their goal." 5;
  section_def "plot_turn_2" "6. Plot Turn 2"
    "The protagonist obtains the final piece of information or tool needed to resolve the central conflict." 6;
  section_def "resolution" "7. Resolution"
    "The protagonist confronts the antagonist or problem and resolves the central conflict." 7
].

Definition seven_point : InsertPlotStructureTemplate.t :=
  InsertPlotStructureTemplate.mk "seven_point" "Seven-Point Story Structure"
    (Some (Some "A story framework with seven key story points: hook, plot turn 1, pinch 1, midpoint, pinch 2, plot turn 2, and resolution."))
    (Js.JStr (JSON_stringify (Js.JArr seven_point_sections)))
    (Some (Some true)).

(** Freeform Structure *)
Definition freeform_sections : list Js.json := [
  section_def "section_1" "Section 1"
    "Define your own structure and organization here." 1;
  section_def "section_2" "Section 2"
    "Add as many sections as needed for your story." 2;
  section_def "section_3" "Section 3"
    "Customize titles and descriptions to fit your specific storytelling needs." 3
].

Definition freeform : InsertPlotStructureTemplate.t :=
  InsertPlotStructureTemplate.mk "freeform" "Freeform Structure"
    (Some (Some "A completely customizable story structure where you define your own sections and organization."))
    (Js.JStr (JSON_stringify (Js.JArr freeform_sections)))
    (Some (Some true)).

Definition plotTemplates : list InsertPlotStructureTemplate.t :=
  [freytag; hero_journey; three_act; story_circle; fichtean_curve; save_the_cat; seven_point; freeform].

End Data.
End PlotTemplates.

(** ** Seeding ([initPlotTemplates]) *)

Module Seed.
Import Db.

Section Init.
Variable JSON_stringify : Js.json -> string.

(** The [for] loop of inserts; the first rejected insert leaves the loop
    through the [catch] block, the rows inserted before it stay. *)
Fixpoint insert_templates (templates : list InsertPlotStructureTemplate.t)
  (now : timestamp) (t : table PlotStructureTemplate.t)
  : result unit * table PlotStructureTemplate.t :=
  match templates with
  | [] => (Ok tt, t)
  | template :: rest =>
      match insert PlotStructureTemplate.id stored_template
                   (DatabaseStorage.template_row template now) t with
      | (Ok _, t') => insert_templates rest now t'
      | (Throw e, t') => (Throw e, t')
      end
  end.

(** [initPlotTemplates()]; the [catch] block only logs. *)
Definition initPlotTemplates (now : timestamp) (st : store) : store :=
  let existingTemplates := rows (plotStructureTemplates st) in
  if bool_decide (length existingTemplates = 0%nat) then
    let '(_, t) := insert_templates (PlotTemplates.plotTemplates JSON_stringify) now
                                    (plotStructureTemplates st) in
    DatabaseStorage.with_templates st t
  else st.

(** The routine run once per clock reading of [clock], in order. *)
Definition run_seed (clock : list timestamp) (st : store) : store :=
  foldl (fun st now => initPlotTemplates now st) st clock.

End Init.

(** The rows that the loop of inserts writes when every insert is
    accepted: the templates in order, keyed from [first] on. *)
Fixpoint seeded_rows (templates : list InsertPlotStructureTemplate.t)
  (now : timestamp) (first : Z) : list PlotStructureTemplate.t :=
  match templates with
  | [] => []
  | v :: rest =>
      DatabaseStorage.template_row v now first :: seeded_rows rest now (first + 1)
  end.

(** The values a catalog row was inserted with. *)
Definition inserted_values (r : PlotStructureTemplate.t) : InsertPlotStructureTemplate.t :=
  InsertPlotStructureTemplate.mk
    (PlotStructureTemplate.templateType r)
    (PlotStructureTemplate.name r)
    (Some (PlotStructureTemplate.description r))
    (PlotStructureTemplate.sections r)
    (Some (PlotStructureTemplate.isDefault r)).

(** The rows of the catalog that hold the built-in template [b]. *)
Definition rows_of_builtin (b : InsertPlotStructureTemplate.t) (st : store)
  : list PlotStructureTemplate.t :=
  filter (fun r => PlotStructureTemplate.templateType r
                   = InsertPlotStructureTemplate.templateType b)
         (rows (plotStructureTemplates st)).

End Seed.

(** ** The section materializer *)

Module Materializer.
Import Db.

(** Modelled from the spec: one entry of a template's parsed section list,
    [{key, title, description, order}] (section 3); the type is missing
    from the sources, where the list is untyped JSON. *)
Record TemplateSection : Type := mkTemplateSection {
  key : string;
  title : string;
  description : option string;
  order : Z
}.

Definition entry_order_le (a b : TemplateSection) : Prop := order a <= order b.

#[global] Instance entry_order_le_dec : RelDecision entry_order_le :=
  fun a b => decide (order a <= order b).


(** The section row [s] holds the entry [e] under the instance
    [plotStructureId] as the columns store it: with the key that
    [section_key varchar(100)] stores of the entry's key. *)
Definition stored_entry (plotStructureId : Z) (s : PlotStructureSection.t)
  (e : TemplateSection) : Prop :=
  PlotStructureSection.plotStructureId s = plotStructureId /\
  varchar 100 (key e) = Some (PlotStructureSection.sectionKey s) /\
  PlotStructureSection.title s = title e /\
  PlotStructureSection.content s = Some EmptyString /\
  PlotStructureSection.order s = order e.

Section Parse.
(** [JSON.parse]; [None] when it throws. *)
Variable JSON_parse : string -> option Js.json.

(** [parseTemplateSections] of the template selector
    ([client/src/components/plot-structure/template-selector.tsx]): a
    string is parsed, any other value is returned as it is, and a parse
    error gives the empty list. *)
Definition parseTemplateSections (template : PlotStructureTemplate.t) : Js.json :=
  let sections := PlotStructureTemplate.sections template in
  if Js.is_string sections then
    match sections with
    | Js.JStr text => default (Js.JArr []) (JSON_parse text)
    | _ => sections
    end
  else sections.

(** Modelled from the spec: the check of one entry of the section list,
    missing from the sources (step 2 of the algorithm of section 4.2: an
    entry without [key], [title] or [order] makes the template
    malformed). *)
Definition entry_of_json (v : Js.json) : option TemplateSection :=
  match v with
  | Js.JObj fields =>
      match Js.get_field "key" fields, Js.get_field "title" fields,
            Js.get_field "order" fields with
      | Some (Js.JStr k), Some (Js.JStr t), Some (Js.JNum o) =>
          Some (mkTemplateSection k t
                  (match Js.get_field "description" fields with
                   | Some (Js.JStr d) => Some d
                   | _ => None
                   end) o)
      | _, _, _ => None
      end
  | _ => None
  end.

(** Modelled from the spec: step 2 of the algorithm of section 4.2, missing
    from the sources.  The stored value is parsed into an ordered list;
    [None] is the failure InvalidTemplate (not parseable, not a list, or an
    entry without [key], [title] or [order]). *)
Definition parseSections (sections : Js.json) : option (list TemplateSection) :=
  let parsed :=
    match sections with
    | Js.JStr text => JSON_parse text
    | _ => Some sections
    end in
  match parsed with
  | Some (Js.JArr items) => mapM entry_of_json items
  | _ => None
  end.

(** Modelled from the spec: "order = next available among the project's
    top-level instances" (step 3), missing from the sources: one more than
    the largest order in use, 0 when there is none. *)
Definition next_order (st : store) (projectId : Z) : Z :=
  foldr (fun r acc => Z.max acc (default 0 (PlotStructure.order r) + 1)) 0
        (filter (fun r => PlotStructure.parentId r = None)
                (DatabaseStorage.getProjectPlotStructures st projectId)).

(** Modelled from the spec: the values of the Section row of an entry,
    missing from the sources (step 4: [sectionKey = entry.key],
    [title = entry.title], [content = ""], [order = entry.order]). *)
Definition section_of_entry (plotStructureId : Z) (e : TemplateSection)
  : InsertPlotStructureSection.t :=
  InsertPlotStructureSection.mk plotStructureId (key e) (title e)
    (Some (Some EmptyString)) (order e).

(** Modelled from the spec: the loop of step 4, missing from the sources.
    One Section is created per entry, in the order of the list; the loop
    stops at the first creation that fails.  It returns the rows created
    so far and the failure, if any. *)
Fixpoint create_sections (plotStructureId : Z) (entries : list TemplateSection)
  (now : timestamp) (st : store)
  : list PlotStructureSection.t * option error * store :=
  match entries with
  | [] => ([], None, st)
  | e :: rest =>
      match DatabaseStorage.createPlotStructureSection
              (section_of_entry plotStructureId e) now st with
      | (Ok s, st') =>
          let '(created, failure, st'') := create_sections plotStructureId rest now st' in
          (s :: created, failure, st'')
      | (Throw err, st') => ([], Some err, st')
      end
  end.

(** Modelled from the spec: the explicit roll-back of step 4 ("delete the
    Instance and any created Sections"), missing from the sources. *)
Definition roll_back (instance : PlotStructure.t)
  (created : list PlotStructureSection.t) (st : store) : store :=
  let st' :=
    foldl (fun st s =>
             snd (DatabaseStorage.deletePlotStructureSection (PlotStructureSection.id s) st))
          st created in
  snd (DatabaseStorage.deletePlotStructure (PlotStructure.id instance) st').

(** Modelled from the spec: [instantiate(projectId, templateId)], the
    algorithm of section 4.2, missing from the sources (the client hook
    [createFromTemplate] of [@/hooks/use-plot-structure] that the plot
    structure manager calls).  It runs on the storage methods of
    [DatabaseStorage]. *)
Definition instantiate (projectId templateId : Z) (now : timestamp) (st : store)
  : result PlotStructure.t * store :=
  match DatabaseStorage.getPlotStructureTemplate st templateId with
  | None => (Throw NotFound, st)
  | Some template =>
      match parseSections (PlotStructureTemplate.sections template) with
      | None => (Throw InvalidTemplate, st)
      | Some entries =>
          match DatabaseStorage.createPlotStructure
                  (InsertPlotStructure.mk projectId templateId
                     (PlotStructureTemplate.name template) None None
                     (Some (Some (next_order st projectId)))) now st with
          | (Throw err, st1) => (Throw err, st1)
          | (Ok instance, st1) =>
              match create_sections (PlotStructure.id instance)
                      (merge_sort entry_order_le entries) now st1 with
              | (_, None, st2) => (Ok instance, st2)
              | (created, Some err, st2) => (Throw err, roll_back instance created st2)
              end
          end
      end
  end.

End Parse.
End Materializer.

(** ** Stores used in the examples *)

Module Scenario.
Import Db.

(** Project 42 after two structures were created from template 3, the
    first with order 2 and the second with order 1. *)
Definition two_structures : store :=
  let st := snd (DatabaseStorage.createPlotStructure
                   (InsertPlotStructure.mk 42 3 "Main plot" None None (Some (Some 2)))
                   1000 empty_store) in
  snd (DatabaseStorage.createPlotStructure
         (InsertPlotStructure.mk 42 3 "Subplot" None None (Some (Some 1))) 2000 st).

(** Project 42 with one structure (id 1, template 3) that owns two
    sections. *)
Definition structure_with_sections : store :=
  let st := snd (DatabaseStorage.createPlotStructure
                   (InsertPlotStructure.mk 42 3 "Main plot" None None None)
                   1000 empty_store) in
  let st := snd (DatabaseStorage.createPlotStructureSection
                   (InsertPlotStructureSection.mk 1 "act1_setup" "Setup" None 1)
                   1001 st) in
  snd (DatabaseStorage.createPlotStructureSection
         (InsertPlotStructureSection.mk 1 "act1_inciting_incident" "Inciting Incident"
            None 2) 1002 st).

(** [JSON.parse] is not needed where the section list is stored as a list. *)
Definition no_parse (text : string) : option Js.json := None.

(** A catalog whose template 1 is the Three Act Structure, its section
    list stored as a list. *)
Definition three_act_catalog : store :=
  snd (DatabaseStorage.createPlotStructureTemplate
         (InsertPlotStructureTemplate.mk "three_act" "Three Act Structure" None
            (Js.JArr PlotTemplates.three_act_sections) (Some (Some true)))
         1000 empty_store).

(** A catalog whose template 1 has three sections, the second one with a
    key of 101 characters, one more than [section_key varchar(100)]
    takes. *)
Definition overlong_key_catalog : store :=
  snd (DatabaseStorage.createPlotStructureTemplate
         (InsertPlotStructureTemplate.mk "custom" "Custom" None
            (Js.JArr [PlotTemplates.section_def "opening" "Opening" "First." 1;
                      PlotTemplates.section_def (Js.repeat "k" 101) "Middle" "Second." 2;
                      PlotTemplates.section_def "ending" "Ending" "Third." 3])
            None)
         1000 empty_store).

End Scenario.

(** ** Orderings the listings are compared with *)

(** Ascending [order] of structures; the column is nullable, and an
    ascending sort puts [NULL] last. *)
Definition structure_order_le (a b : PlotStructure.t) : Prop :=
  match PlotStructure.order a, PlotStructure.order b with
  | Some x, Some y => x <= y
  | _, None => True
  | None, Some _ => False
  end.

(** ** More of [DatabaseStorage]: the template catalog *)

Module TemplateCatalog.
Import Db.

(** [Partial<PlotStructureTemplate>] *)
Record Partial : Type := mkPartial {
  id : option Z;
  templateType : option string;
  name : option string;
  description : option (option string);
  sections : option Js.json;
  createdAt : option (option timestamp);
  updatedAt : option (option timestamp);
  isDefault : option (option bool)
}.

(** [.set({ ...templateUpdate, updatedAt: new Date() })] *)
Definition set_template (p : Partial) (now : timestamp) (r : PlotStructureTemplate.t)
  : PlotStructureTemplate.t :=
  PlotStructureTemplate.mk
    (default (PlotStructureTemplate.id r) (id p))
    (default (PlotStructureTemplate.templateType r) (templateType p))
    (default (PlotStructureTemplate.name r) (name p))
    (default (PlotStructureTemplate.description r) (description p))
    (default (PlotStructureTemplate.sections r) (sections p))
    (default (PlotStructureTemplate.createdAt r) (createdAt p))
    (Some now)
    (default (PlotStructureTemplate.isDefault r) (isDefault p)).

(** The values of an update as the columns store them. *)
Definition stored_template_update (p : Partial) : result Partial :=
  if int4_set (id p) then
    match templateType p with
    | None => Ok p
    | Some type =>
        match varchar 50 type with
        | Some type =>
            Ok (mkPartial (id p) (Some type) (name p) (description p) (sections p)
                  (createdAt p) (updatedAt p) (isDefault p))
        | None => Throw ValueTooLong
        end
    end
  else Throw OutOfRange.

(** [DatabaseStorage.updatePlotStructureTemplate] *)
Definition updatePlotStructureTemplate (id : Z) (templateUpdate : Partial)
  (now : timestamp) (st : store) : result (option PlotStructureTemplate.t) * store :=
  match stored_template_update templateUpdate with
  | Throw e => (Throw e, st)
  | Ok templateUpdate =>
      match update PlotStructureTemplate.id id (set_template templateUpdate now)
                   (plotStructureTemplates st) with
      | (Ok updated, t) => (Ok (head updated), DatabaseStorage.with_templates st t)
      | (Throw e, t) => (Throw e, DatabaseStorage.with_templates st t)
      end
  end.

(** [DatabaseStorage.deletePlotStructureTemplate]: [return !!result] *)
Definition deletePlotStructureTemplate (id : Z) (st : store) : bool * store :=
  let '(result, t) := delete PlotStructureTemplate.id id (plotStructureTemplates st) in
  (negb (negb (Js.truthy (js_value result))), DatabaseStorage.with_templates st t).

End TemplateCatalog.

(** ** Request bodies checked by the insert schemas ([shared/schema.ts])

    [createInsertSchema(table).pick({...})] gives an object schema: a
    [notNull] column without default is required, any other picked column
    may be left out or be [null], keys that were not picked are dropped,
    and a value of the wrong type, or a number outside the range of its
    [integer] column, makes [parse] throw a [ZodError] ([None]). *)

Module Zod.

(** A required [text] column. *)
Definition required_string (k : string) (fields : list (string * Js.json))
  : option string :=
  match Js.get_field k fields with
  | Some (Js.JStr s) => Some s
  | _ => None
  end.

(** A required [integer] column. *)
Definition required_number (k : string) (fields : list (string * Js.json))
  : option Z :=
  match Js.get_field k fields with
  | Some (Js.JNum n) => if Db.int4 n then Some n else None
  | _ => None
  end.

(** An optional, nullable [text] column: the outer [None] is the
    [ZodError]. *)
Definition optional_string (k : string) (fields : list (string * Js.json))
  : option (option (option string)) :=
  match Js.get_field k fields with
  | None => Some None
  | Some Js.JNull => Some (Some None)
  | Some (Js.JStr s) => Some (Some (Some s))
  | Some _ => None
  end.

(** An optional, nullable [integer] column. *)
Definition optional_number (k : string) (fields : list (string * Js.json))
  : option (option (option Z)) :=
  match Js.get_field k fields with
  | None => Some None
  | Some Js.JNull => Some (Some None)
  | Some (Js.JNum n) => if Db.int4 n then Some (Some (Some n)) else None
  | Some _ => None
  end.

(** The own properties of a parsed body that the schemas can see: those
    of an object; an array has only index keys. *)
Definition fields_of (body : Js.json) : option (list (string * Js.json)) :=
  match body with
  | Js.JObj fields => Some fields
  | _ => None
  end.

(** [insertPlotStructureSchema.parse(body)] *)
Definition insertPlotStructureSchema (body : Js.json) : option InsertPlotStructure.t :=
  fields ← fields_of body;
  projectId ← required_number "projectId" fields;
  templateId ← required_number "templateId" fields;
  name ← required_string "name" fields;
  description ← optional_string "description" fields;
  parentId ← optional_number "parentId" fields;
  order ← optional_number "order" fields;
  Some (InsertPlotStructure.mk projectId templateId name description parentId order).

End Zod.

(** ** More plot-structure endpoints ([server/routes.ts]) *)

Module PlotRoutes.
Import Db Routes.

(** The bodies these endpoints answer with, beside those of [Routes]. *)
Inductive body : Type :=
| Plain (b : Routes.body)
| Template (t : PlotStructureTemplate.t)
| Templates (l : list PlotStructureTemplate.t)
| Invalid (message : string).

Record Response : Type := mkResponse {
  status : Z;
  payload : body
}.

(** [GET /api/plot-templates] *)
Definition get_plot_templates (st : store) : Response * store :=
  (mkResponse 200 (Templates (DatabaseStorage.getAllPlotStructureTemplates st)), st).

(** [GET /api/plot-templates/:id] *)
Definition get_plot_template (id : string) (st : store) : Response * store :=
  let failed :=
    mkResponse 500 (Plain (Message "Failed to fetch plot structure template")) in
  match Js.parseInt id with
  | Some id =>
      if int4 id then
        match DatabaseStorage.getPlotStructureTemplate st id with
        | None =>
            (mkResponse 404 (Plain (Message "Plot structure template not found")), st)
        | Some template => (mkResponse 200 (Template template), st)
        end
      else (failed, st)
  | None => (failed, st)
  end.

(** [POST /api/plot-structures] *)
Definition post_plot_structure (reqBody : Js.json) (now : timestamp) (st : store)
  : Response * store :=
  match Zod.insertPlotStructureSchema reqBody with
  | Some validatedData =>
      match DatabaseStorage.createPlotStructure validatedData now st with
      | (Ok structure, st') => (mkResponse 201 (Plain (Structure structure)), st')
      | (Throw _, st') =>
          (mkResponse 500 (Plain (Message "Failed to create plot structure")), st')
      end
  | None => (mkResponse 400 (Invalid "Invalid plot structure data"), st)
  end.

(** [GET /api/plot-structures/:id] *)
Definition get_plot_structure (id : string) (st : store) : Routes.Response * store :=
  with_id id "Failed to fetch plot structure"
    (fun id st =>
       match DatabaseStorage.getPlotStructure st id with
       | None => (Routes.mkResponse 404 (Message "Plot structure not found"), st)
       | Some structure => (json (Structure structure), st)
       end) st.

(** [DELETE /api/plot-structure-sections/:id] *)
Definition delete_plot_structure_section (id : string) (st : store)
  : Routes.Response * store :=
  with_id id "Failed to delete plot structure section"
    (fun id st =>
       let '(success, st') := DatabaseStorage.deletePlotStructureSection id st in
       if negb success
       then (Routes.mkResponse 404 (Message "Plot structure section not found"), st')
       else (Routes.mkResponse 204 NoBody, st')) st.

End PlotRoutes.

(** ** Projects: schema, storage methods and endpoints *)

Module Project.
Record t : Type := mk {
  id : Z;
  title : string;
  description : option string;
  userId : Z;
  createdAt : option timestamp;
  updatedAt : option timestamp;
  isArchived : option bool;
  isTrashed : option bool
}.
End Project.

(** [insertProjectSchema]: [title], [description] and [userId]. *)
Module InsertProject.
Record t : Type := mk {
  title : string;
  description : option (option string);
  userId : Z
}.
End InsertProject.

(** [Partial<Project>] *)
Module PartialProject.
Record t : Type := mk {
  id : option Z;
  title : option string;
  description : option (option string);
  userId : option Z;
  createdAt : option (option timestamp);
  updatedAt : option (option timestamp);
  isArchived : option (option bool);
  isTrashed : option (option bool)
}.
Definition empty : t := mk None None None None None None None None.
End PartialProject.

Module Projects.
Import Db.

(** The state of the project endpoints: the table [projects]. *)
Definition projects : Type := table Project.t.

(** The columns of [projects] are [text], [boolean], [timestamp] and,
    beside the [serial] key, the [integer] column [user_id]. *)
Definition project_ok (r : Project.t) : bool := int4 (Project.userId r).

Definition stored_project (r : Project.t) : result Project.t :=
  if project_ok r then Ok r else Throw OutOfRange.

Definition stored_project_update (p : PartialProject.t) : result PartialProject.t :=
  if int4_set (PartialProject.id p) && int4_set (PartialProject.userId p)
  then Ok p else Throw OutOfRange.

Definition project_row (v : InsertProject.t) (now : timestamp) (i : Z) : Project.t :=
  Project.mk i (InsertProject.title v)
    (default None (InsertProject.description v))
    (InsertProject.userId v)
    (Some now) (Some now) (Some false) (Some false).

(** [.set({ ...projectUpdate, updatedAt: new Date() })] *)
Definition set_project (p : PartialProject.t) (now : timestamp) (r : Project.t)
  : Project.t :=
  Project.mk
    (default (Project.id r) (PartialProject.id p))
    (default (Project.title r) (PartialProject.title p))
    (default (Project.description r) (PartialProject.description p))
    (default (Project.userId r) (PartialProject.userId p))
    (default (Project.createdAt r) (PartialProject.createdAt p))
    (Some now)
    (default (Project.isArchived r) (PartialProject.isArchived p))
    (default (Project.isTrashed r) (PartialProject.isTrashed p)).

(** *** [DatabaseStorage], project methods *)

Definition getProject (st : projects) (id : Z) : option Project.t :=
  head (select_by_id Project.id id st).

(** [where(and(eq(userId, userId), eq(isTrashed, false)))]: a row whose
    [isTrashed] is [NULL] does not match. *)
Definition getUserProjects (st : projects) (userId : Z) : list Project.t :=
  filter (fun r => Project.userId r = userId /\ Project.isTrashed r = Some false)
         (rows st).

Definition createProject (project : InsertProject.t) (now : timestamp) (st : projects)
  : result Project.t * projects :=
  insert Project.id stored_project (project_row project now) st.

Definition updateProject (id : Z) (projectUpdate : PartialProject.t)
  (now : timestamp) (st : projects) : result (option Project.t) * projects :=
  match stored_project_update projectUpdate with
  | Throw e => (Throw e, st)
  | Ok projectUpdate =>
      match update Project.id id (set_project projectUpdate now) st with
      | (Ok updated, t) => (Ok (head updated), t)
      | (Throw e, t) => (Throw e, t)
      end
  end.


(** [this.updateProject(id, { isTrashed: true })] *)
Definition trashProject (id : Z) (now : timestamp) (st : projects)
  : result (option Project.t) * projects :=
  updateProject id
    (PartialProject.mk None None None None None None None (Some (Some true))) now st.

(** [this.updateProject(id, { isTrashed: false })] *)
Definition restoreProject (id : Z) (now : timestamp) (st : projects)
  : result (option Project.t) * projects :=
  updateProject id
    (PartialProject.mk None None None None None None None (Some (Some false))) now st.

(** *** The endpoints *)

Inductive body : Type :=
| NoBody
| Message (message : string)
| Invalid (message : string)
| One (p : option Project.t)
| Many (l : list Project.t).

(** What a handler does: it answers, or it fails without answering (a
    thrown error or a rejected query outside a [try] block is left to the
    framework). *)
Inductive answer : Type :=
| Answer (status : Z) (payload : body)
| Fails.

(** [app.METHOD(path, isAuthenticated, handler)] *)
Definition protected (handler : Routes.Request -> projects -> answer * projects)
  (req : Routes.Request) (st : projects) : answer * projects :=
  match Routes.isAuthenticated req with
  | Routes.Next req' => handler req' st
  | Routes.Respond res => (Answer (Routes.status res) (Message "Unauthorized"), st)
  end.











End Projects.

(** ** [MemStorage] ([server/storage.ts]), plot-structure part *)

(** A JavaScript [Map] with number keys: the entries in insertion order;
    [set] on a present key replaces the value where it stands. *)
Module JsMap.
Section Map.
Context {V : Type}.

Definition t : Type := list (Z * V).

Definition empty : t := [].

(** [m.get(k)] *)
Fixpoint get (k : Z) (m : t) : option V :=
  match m with
  | [] => None
  | (k', v) :: rest => if decide (k' = k) then Some v else get k rest
  end.

(** [m.has(k)] *)
Definition has (k : Z) (m : t) : bool := bool_decide (is_Some (get k m)).

(** [m.set(k, v)] *)
Fixpoint set (k : Z) (v : V) (m : t) : t :=
  match m with
  | [] => [(k, v)]
  | (k', v') :: rest =>
      if decide (k' = k) then (k, v) :: rest else (k', v') :: set k v rest
  end.

(** [m.delete(k)]: whether the key was present, and the map without it. *)
Definition delete (k : Z) (m : t) : bool * t :=
  (has k m, filter (fun e => fst e <> k) m).

(** [Array.from(m.values())] *)
Definition values (m : t) : list V := map snd m.

Definition keys (m : t) : list Z := map fst m.

End Map.
Arguments t V : clear implicits.
End JsMap.

Module MemStorage.

(** The maps and counters of the plot-structure entities. *)
Record state : Type := mkState {
  plotStructureTemplatesMap : JsMap.t PlotStructureTemplate.t;
  plotStructuresMap : JsMap.t PlotStructure.t;
  plotStructureSectionsMap : JsMap.t PlotStructureSection.t;
  plotStructureTemplateId : Z;
  plotStructureId : Z;
  plotStructureSectionId : Z
}.

(** The constructor: empty maps, counters at 1. *)
Definition new : state := mkState JsMap.empty JsMap.empty JsMap.empty 1 1 1.

(** [s || null] for a string that may be missing or [null]: the empty
    string is falsy. *)
Definition string_or_null (o : option (option string)) : option string :=
  match o with
  | Some (Some s) => if decide (s = EmptyString) then None else Some s
  | _ => None
  end.

(** [n || null] for a number: 0 is falsy. *)
Definition number_or_null (o : option (option Z)) : option Z :=
  match o with
  | Some (Some n) => if decide (n = 0) then None else Some n
  | _ => None
  end.

(** [b || null] for a boolean. *)
Definition bool_or_null (o : option (option bool)) : option bool :=
  match o with
  | Some (Some true) => Some true
  | _ => None
  end.

(** [s || ""] *)
Definition string_or_empty (o : option (option string)) : string :=
  match o with
  | Some (Some s) => s
  | _ => EmptyString
  end.

(** *** Plot structure template methods *)

Definition getPlotStructureTemplate (st : state) (id : Z) : option PlotStructureTemplate.t :=
  JsMap.get id (plotStructureTemplatesMap st).

Definition getAllPlotStructureTemplates (st : state) : list PlotStructureTemplate.t :=
  JsMap.values (plotStructureTemplatesMap st).

Definition createPlotStructureTemplate (template : InsertPlotStructureTemplate.t)
  (now : timestamp) (st : state) : PlotStructureTemplate.t * state :=
  let id := plotStructureTemplateId st in
  let newTemplate :=
    PlotStructureTemplate.mk id
      (InsertPlotStructureTemplate.templateType template)
      (InsertPlotStructureTemplate.name template)
      (string_or_null (InsertPlotStructureTemplate.description template))
      (InsertPlotStructureTemplate.sections template)
      (Some now) (Some now)
      (bool_or_null (InsertPlotStructureTemplate.isDefault template)) in
  (newTemplate,
   mkState (JsMap.set id newTemplate (plotStructureTemplatesMap st))
           (plotStructuresMap st) (plotStructureSectionsMap st)
           (id + 1) (plotStructureId st) (plotStructureSectionId st)).

Definition deletePlotStructureTemplate (id : Z) (st : state) : bool * state :=
  let '(present, m) := JsMap.delete id (plotStructureTemplatesMap st) in
  (present,
   mkState m (plotStructuresMap st) (plotStructureSectionsMap st)
           (plotStructureTemplateId st) (plotStructureId st) (plotStructureSectionId st)).

(** *** Plot structure methods *)

Definition with_structures (st : state) (m : JsMap.t PlotStructure.t) : state :=
  mkState (plotStructureTemplatesMap st) m (plotStructureSectionsMap st)
          (plotStructureTemplateId st) (plotStructureId st) (plotStructureSectionId st).

Definition getPlotStructure (st : state) (id : Z) : option PlotStructure.t :=
  JsMap.get id (plotStructuresMap st).

Definition getProjectPlotStructures (st : state) (projectId : Z) : list PlotStructure.t :=
  filter (fun structure => PlotStructure.projectId structure = projectId)
         (JsMap.values (plotStructuresMap st)).

Definition createPlotStructure (structure : InsertPlotStructure.t)
  (now : timestamp) (st : state) : PlotStructure.t * state :=
  let id := plotStructureId st in
  let newStructure :=
    PlotStructure.mk id
      (InsertPlotStructure.projectId structure)
      (InsertPlotStructure.templateId structure)
      (InsertPlotStructure.name structure)
      (string_or_null (InsertPlotStructure.description structure))
      (number_or_null (InsertPlotStructure.parentId structure))
      (number_or_null (InsertPlotStructure.order structure))
      (Some now) (Some now) in
  (newStructure,
   mkState (plotStructureTemplatesMap st)
           (JsMap.set id newStructure (plotStructuresMap st))
           (plotStructureSectionsMap st)
           (plotStructureTemplateId st) (id + 1) (plotStructureSectionId st)).

Definition updatePlotStructure (id : Z) (structureUpdate : PartialPlotStructure.t)
  (now : timestamp) (st : state) : option PlotStructure.t * state :=
  match getPlotStructure st id with
  | None => (None, st)
  | Some structure =>
      let updatedStructure := DatabaseStorage.set_structure structureUpdate now structure in
      (Some updatedStructure,
       with_structures st (JsMap.set id updatedStructure (plotStructuresMap st)))
  end.

Definition deletePlotStructure (id : Z) (st : state) : bool * state :=
  let '(present, m) := JsMap.delete id (plotStructuresMap st) in
  (present, with_structures st m).

(** *** Plot structure section methods *)

Definition with_sections (st : state) (m : JsMap.t PlotStructureSection.t) : state :=
  mkState (plotStructureTemplatesMap st) (plotStructuresMap st) m
          (plotStructureTemplateId st) (plotStructureId st) (plotStructureSectionId st).

Definition getPlotStructureSection (st : state) (id : Z) : option PlotStructureSection.t :=
  JsMap.get id (plotStructureSectionsMap st).

(** [.filter(...).sort((a, b) => a.order - b.order)]; the sort is
    stable. *)
Definition getPlotStructureSections (st : state) (plotStructureId : Z)
  : list PlotStructureSection.t :=
  merge_sort DatabaseStorage.section_order_le
    (filter (fun section => PlotStructureSection.plotStructureId section = plotStructureId)
            (JsMap.values (plotStructureSectionsMap st))).

Definition createPlotStructureSection (section : InsertPlotStructureSection.t)
  (now : timestamp) (st : state) : PlotStructureSection.t * state :=
  let id := plotStructureSectionId st in
  let newSection :=
    PlotStructureSection.mk id
      (InsertPlotStructureSection.plotStructureId section)
      (InsertPlotStructureSection.sectionKey section)
      (InsertPlotStructureSection.title section)
      (Some (string_or_empty (InsertPlotStructureSection.content section)))
      (InsertPlotStructureSection.order section)
      (Some now) (Some now) in
  (newSection,
   mkState (plotStructureTemplatesMap st) (plotStructuresMap st)
           (JsMap.set id newSection (plotStructureSectionsMap st))
           (plotStructureTemplateId st) (plotStructureId st) (id + 1)).

Definition updatePlotStructureSection (id : Z)
  (sectionUpdate : PartialPlotStructureSection.t) (now : timestamp) (st : state)
  : option PlotStructureSection.t * state :=
  match getPlotStructureSection st id with
  | None => (None, st)
  | Some section =>
      let updatedSection := DatabaseStorage.set_section sectionUpdate now section in
      (Some updatedSection,
       with_sections st (JsMap.set id updatedSection (plotStructureSectionsMap st)))
  end.

Definition deletePlotStructureSection (id : Z) (st : state) : bool * state :=
  let '(present, m) := JsMap.delete id (plotStructureSectionsMap st) in
  (present, with_sections st m).

(** The counters are ahead of the keys of their maps. *)
Definition counters_ahead (st : state) : Prop :=
  Forall (fun k => k < plotStructureTemplateId st) (JsMap.keys (plotStructureTemplatesMap st)) /\
  Forall (fun k => k < plotStructureId st) (JsMap.keys (plotStructuresMap st)) /\
  Forall (fun k => k < plotStructureSectionId st) (JsMap.keys (plotStructureSectionsMap st)).

End MemStorage.

(** ** The user endpoints ([server/auth.ts]) and the token diagnostics
    ([server/routes.ts]) *)

Module Users.
Import Db.

(** [users.$inferSelect] *)
Record User : Type := mkUser {
  id : Z;
  username : string;
  password : string;
  email : string;
  createdAt : option timestamp
}.

(** [DatabaseStorage.getUser] *)
Definition getUser (users : table User) (i : Z) : option User :=
  head (select_by_id id i users).

(** [{ id, username, email }] *)
Record UserInfo : Type := mkUserInfo {
  info_id : Z;
  info_username : string;
  info_email : option string
}.

Inductive answer : Type :=
| Json (info : UserInfo)
| NotAuthenticated
| Fails.

(** The user id of a bearer token: the nested tests of [GET /api/user]
    are those of [isAuthenticated]. *)
Definition token_user_id (authHeader : string) : option Z :=
  Routes.id <$> Routes.token_user authHeader.

(** [GET /api/user]; [NotAuthenticated] is the answer 401, [Json] the
    answer 200. *)
Definition get_user (req : Routes.Request) (users : table User) : answer :=
  if negb (Routes.sessionAuthenticated req) then
    match Routes.authorization req ≫= token_user_id with
    | Some userId =>
        match getUser users userId with
        | Some user => Json (mkUserInfo (id user) (username user) (Some (email user)))
        | None => NotAuthenticated
        end
    | None => NotAuthenticated
    end
  else
    match Routes.user req with
    | Some user =>
        Json (mkUserInfo (Routes.id user) (Routes.username user) (Routes.email user))
    | None => Fails
    end.

End Users.

Module TokenCheck.

(** A value of type [number | null]; [Number None] is [NaN]. *)
Inductive number_or_null : Type :=
| Null
| Number (n : option Z).

(** [tokenInfo]; an optional field that was not set is [None]. *)
Record TokenInfo : Type := mkTokenInfo {
  present : bool;
  format : option string;
  userIdPresent : option bool;
  timestampPresent : option bool;
  userId : option number_or_null;
  isValidUserId : option bool;
  timestamp : option (option string)
}.

(** The [tokenInfo] that [GET /api/token-check] computes from
    [req.headers.authorization]. *)
Definition tokenInfo (authorization : option string) : TokenInfo :=
  match authorization with
  | Some authHeader =>
      if Routes.truthy_string authHeader && Js.startsWith "Bearer " authHeader then
        let token := Js.substring 7 authHeader in
        if Js.startsWith "user-" token then
          let parts := Js.split "-" token in
          let has2 := bool_decide (2 <= length parts)%nat in
          let has3 := bool_decide (3 <= length parts)%nat in
          let parsed := Js.parseInt (default EmptyString (Js.at_index parts 1)) in
          mkTokenInfo true (Some "user-id-timestamp") (Some has2) (Some has3)
            (Some (if has2 then Number parsed else Null))
            (Some (if has2 then bool_decide (is_Some parsed) else false))
            (Some (if has3 then Js.at_index parts 2 else None))
        else mkTokenInfo true (Some "unknown") None None None None None
      else mkTokenInfo false None None None None None None
  | None => mkTokenInfo false None None None None None None
  end.

End TokenCheck.

(** ** Client logic that drives the endpoints *)

(** [chapters.$inferSelect] *)
Module Chapter.
Record t : Type := mk {
  id : Z;
  title : string;
  content : option string;
  projectId : Z;
  order : Z;
  createdAt : option timestamp;
  updatedAt : option timestamp;
  isDraft : option bool
}.
End Chapter.

(** [outlineItems.$inferSelect] *)
Module OutlineItem.
Record t : Type := mk {
  id : Z;
  projectId : Z;
  title : string;
  content : option string;
  parentId : option Z;
  order : Z;
  isCompleted : option bool;
  createdAt : option timestamp;
  updatedAt : option timestamp
}.
End OutlineItem.

Module Client.

(** *** The plot structure view
    ([client/src/components/plot-structure/plot-structure-view.tsx]) *)

(** [[...sections].sort((a, b) => a.order - b.order)] *)
Definition sortedSections (sections : list PlotStructureSection.t)
  : list PlotStructureSection.t :=
  merge_sort DatabaseStorage.section_order_le sections.

(** [sortedSections.findIndex(s => s.sectionKey === activeSection)];
    [None] is [-1]. *)
Fixpoint findIndex (activeSection : string) (sections : list PlotStructureSection.t)
  : option nat :=
  match sections with
  | [] => None
  | s :: rest =>
      if decide (PlotStructureSection.sectionKey s = activeSection) then Some O
      else S <$> findIndex activeSection rest
  end.

Inductive direction : Type := next | prev.

(** [navigateToSection(direction)], as a function from the list shown and
    the state [activeSection] to the new state. *)
Definition navigateToSection (sortedSections : list PlotStructureSection.t)
  (activeSection : option string) (d : direction) : option string :=
  match activeSection with
  | None => activeSection
  | Some active =>
      if negb (Routes.truthy_string active) || bool_decide (length sortedSections = O)
      then activeSection
      else
        match findIndex active sortedSections with
        | None => activeSection
        | Some currentIndex =>
            match d with
            | next =>
                if bool_decide (currentIndex < length sortedSections - 1)%nat
                then PlotStructureSection.sectionKey
                       <$> sortedSections !! (currentIndex + 1)%nat
                else activeSection
            | prev =>
                if bool_decide (0 < currentIndex)%nat
                then PlotStructureSection.sectionKey
                       <$> sortedSections !! (currentIndex - 1)%nat
                else activeSection
            end
        end
  end.

(** *** The chapter sidebar ([client/src/components/chapter-sidebar.tsx]) *)

(** [Math.max(...xs)] of a non-empty list [x :: xs]. *)
Definition Math_max (x : Z) (xs : list Z) : Z := foldl Z.max x xs.

(** [chapters.length ? Math.max(...chapters.map(c => c.order)) + 1 : 0] *)
Definition nextOrder (chapters : list Chapter.t) : Z :=
  match map Chapter.order chapters with
  | [] => 0
  | x :: xs => Js.plus (Math_max x xs) 1
  end.

(** *** The outline item ([client/src/components/outline/outline-item.tsx]) *)

(** [findItemsToDelete(parentId)]: the set [deletedItemIds] is threaded
    through the [forEach] and the recursive calls.  The recursion is
    bounded by [fuel]; [None] is a run that needs more. *)
Fixpoint findItemsToDelete (fuel : nat) (outlineItems : list OutlineItem.t)
  (parentId : Z) (deletedItemIds : list Z) : option (list Z) :=
  match fuel with
  | O => None
  | S fuel' =>
      foldl (fun acc i =>
               deleted ← acc;
               if bool_decide ((OutlineItem.id i = parentId
                                \/ OutlineItem.parentId i = Some parentId)
                               /\ OutlineItem.id i ∉ deleted)
               then findItemsToDelete fuel' outlineItems (OutlineItem.id i)
                                      (OutlineItem.id i :: deleted)
               else Some deleted)
            (Some deletedItemIds) outlineItems
  end.

(** One turn of the [forEach] loop of [findItemsToDelete (S fuel)]. *)
Definition visit (fuel : nat) (outlineItems : list OutlineItem.t) (parentId : Z)
  (acc : option (list Z)) (i : OutlineItem.t) : option (list Z) :=
  deleted ← acc;
  if bool_decide ((OutlineItem.id i = parentId
                   \/ OutlineItem.parentId i = Some parentId)
                  /\ OutlineItem.id i ∉ deleted)
  then findItemsToDelete fuel outlineItems (OutlineItem.id i)
                         (OutlineItem.id i :: deleted)
  else Some deleted.

(** The ids that [deletedItemIds] does not hold yet. *)
Definition unvisited (outlineItems : list OutlineItem.t) (deletedItemIds : list Z)
  : list Z :=
  filter (fun x => x ∉ deletedItemIds) (map OutlineItem.id outlineItems).

(** The cache update of [handleDelete]: the items that are left once the
    item [itemId] and what [findItemsToDelete] collects from it are
    removed.  One level of recursion per item is enough. *)
Definition filteredItems (outlineItems : list OutlineItem.t) (itemId : Z)
  : option (list OutlineItem.t) :=
  deletedItemIds ← findItemsToDelete (S (length outlineItems)) outlineItems itemId [];
  Some (filter (fun i => OutlineItem.id i ∉ deletedItemIds) outlineItems).

(** [x] is [root] or below it in the tree that [parentId] describes. *)
Inductive below (outlineItems : list OutlineItem.t) (root : Z) : Z -> Prop :=
| below_root : below outlineItems root root
| below_child i p :
    below outlineItems root p ->
    i ∈ outlineItems ->
    OutlineItem.parentId i = Some p ->
    below outlineItems root (OutlineItem.id i).

End Client.

(** ** Invariants of the store *)

Module Invariant.
Import Db.

(** The primary key of a table: no two rows have the same id. *)
Definition unique_keys {R : Type} (row_id : R -> Z) (t : table R) : Prop :=
  NoDup (map row_id (rows t)).


(** The constraints of the schema hold in the three tables. *)
Definition store_wf (st : store) : Prop :=
  (unique_keys PlotStructureTemplate.id (plotStructureTemplates st)
   /\ checked template_ok (plotStructureTemplates st)) /\
  (unique_keys PlotStructure.id (plotStructures st)
   /\ checked structure_ok (plotStructures st)) /\
  (unique_keys PlotStructureSection.id (plotStructureSections st)
   /\ checked section_ok (plotStructureSections st)).


End Invariant.

(** ** Data of the examples *)

Module Scenario2.
Import Db.

Definition alice : Routes.User :=
  Routes.mkUser 5 "alice" (Some "alice@example.com") (Some "hash.salt") None.



(** A request without a session that carries the header. *)
Definition bearer (authorization : string) : Routes.Request :=
  Routes.mkRequest false None (Some authorization).

(** The project table after alice created "Novel" and bob "Poems". *)
Definition two_projects : Projects.projects :=
  let st := snd (Projects.createProject (InsertProject.mk "Novel" None 5) 1000
                   empty_table) in
  snd (Projects.createProject (InsertProject.mk "Poems" None 6) 2000 st).

End Scenario2.

Module Scenario3.
Import Db.

(** The user table after alice (id 5) and bob (id 6) registered. *)
Definition two_users : table Users.User :=
  mkTable [Users.mkUser 5 "alice" "hash.salt" "alice@example.com" (Some 1000);
           Users.mkUser 6 "bob" "hash.salt" "bob@example.com" (Some 2000)] 7.

End Scenario3.

Module Scenario4.

Definition item (id : Z) (parentId : option Z) : OutlineItem.t :=
  OutlineItem.mk id 42 "Item" None parentId 0 None None None.

(** An outline with a chain 1 - 2 - 3 and an item 4 beside it. *)
Definition outline : list OutlineItem.t :=
  [item 3 (Some 2); item 1 None; item 4 None; item 2 (Some 1)].

Definition section (id : Z) (key : string) (order : Z) : PlotStructureSection.t :=
  PlotStructureSection.mk id 7 key "Title" (Some "text") order None None.

Definition three_sections : list PlotStructureSection.t :=
  [section 1 "setup" 0; section 2 "confrontation" 1; section 3 "resolution" 2].

Definition chapter (id order : Z) : Chapter.t :=
  Chapter.mk id "Chapter" None 42 order None None None.

End Scenario4.

(** * Properties *)

(** ** Lists *)

Section ListFacts.
Context {A : Type}.

Lemma filter_Forall_id (P : A -> Prop) `{!forall x, Decision (P x)} (l : list A) :
  Forall P l -> filter P l = l.
Proof.
  induction 1 as [|x l Hx _ IH]; [done|].
  rewrite filter_cons, decide_True by done. by rewrite IH.
Qed.

Lemma filter_Forall_nil (P : A -> Prop) `{!forall x, Decision (P x)} (l : list A) :
  Forall (fun x => ~ P x) l -> filter P l = [].
Proof.
  induction 1 as [|x l Hx _ IH]; [done|].
  by rewrite filter_cons, decide_False.
Qed.


End ListFacts.

(** ** Tables *)

Section TableKeys.
Context {R : Type} (row_id : R -> Z).
Implicit Types (t : Db.table R) (r : R) (i : Z).

Lemma id_taken_spec i t :
  Db.id_taken row_id i t = true <-> i ∈ map row_id (Db.rows t).
Proof. unfold Db.id_taken. by rewrite bool_decide_eq_true. Qed.

Lemma select_by_id_nil i t :
  Db.select_by_id row_id i t = [] <-> i ∉ map row_id (Db.rows t).
Proof.
  unfold Db.select_by_id. split.
  - intros Hnil Hin. apply list_elem_of_fmap in Hin as (r & -> & Hr).
    by apply (filter_nil_not_elem_of _ _ r Hnil).
  - intros Hnotin. apply filter_Forall_nil, Forall_forall.
    intros r Hr Heq. apply Hnotin, list_elem_of_fmap. eauto.
Qed.

Lemma head_select_by_id i t r :
  head (Db.select_by_id row_id i t) = Some r -> r ∈ Db.rows t /\ row_id r = i.
Proof.
  intros Hhead. apply head_Some_elem_of in Hhead.
  unfold Db.select_by_id in Hhead. apply list_elem_of_filter in Hhead. tauto.
Qed.

Lemma head_select_by_id_None i t :
  head (Db.select_by_id row_id i t) = None <-> i ∉ map row_id (Db.rows t).
Proof.
  rewrite <- select_by_id_nil. by destruct (Db.select_by_id row_id i t).
Qed.

Lemma update_Ok i set t updated t' :
  Db.update row_id i set t = (Ok updated, t') ->
  updated = map set (Db.select_by_id row_id i t) /\
  Db.rows t' = map (fun r => if decide (row_id r = i) then set r else r) (Db.rows t) /\
  Db.nextId t' = Db.nextId t.
Proof.
  unfold Db.update. intros H.
  destruct (Db.key_conflict row_id i set t); [discriminate|].
  by inversion H.
Qed.

Lemma update_Throw i set t e t' :
  Db.update row_id i set t = (Throw e, t') -> t' = t.
Proof.
  unfold Db.update. intros H.
  destruct (Db.key_conflict row_id i set t); [|discriminate]. by inversion H.
Qed.

(** An update that keeps the key is accepted. *)
Lemma update_accepts i set t :
  (forall r, row_id (set r) = row_id r) ->
  exists t', Db.update row_id i set t
             = (Ok (map set (Db.select_by_id row_id i t)), t').
Proof.
  intros Hkey. unfold Db.update.
  assert (Db.key_conflict row_id i set t = false) as ->.
  { unfold Db.key_conflict. apply not_true_is_false. intros Hex.
    apply existsb_exists in Hex as (r & _ & Hr).
    rewrite Hkey in Hr. destruct (bool_decide (row_id r = i)); simpl in Hr; done. }
  simpl. eauto.
Qed.


(** After an accepted update that gives the rows of key [i] the key [k],
    the rows under [k] are the updated rows, and the other keys hold what
    they held. *)
Lemma update_lookup i k set t updated t' :
  (forall r, row_id r = i -> row_id (set r) = k) ->
  updated <> [] ->
  Db.update row_id i set t = (Ok updated, t') ->
  Db.select_by_id row_id k t' = updated /\
  (k <> i -> Db.select_by_id row_id i t' = []) /\
  forall j, j <> i -> j <> k -> Db.select_by_id row_id j t' = Db.select_by_id row_id j t.
Proof.
  intros Hkey Hne Hupd.
  assert (k <> i -> k ∉ map row_id (Db.rows t)) as Hfree.
  { intros Hki. unfold Db.update in Hupd.
    destruct (Db.key_conflict row_id i set t) eqn:Hc; [discriminate|].
    inversion Hupd; subst; clear Hupd.
    destruct (Db.select_by_id row_id i t) as [|r l] eqn:Hsel; [done|].
    assert (r ∈ Db.rows t /\ row_id r = i) as [Hr Hri].
    { apply (head_select_by_id i t r). by rewrite Hsel. }
    intros Hin. apply not_true_iff_false in Hc. apply Hc.
    unfold Db.key_conflict. apply existsb_exists. exists r.
    split; [by apply list_elem_of_In|].
    rewrite (Hkey r Hri).
    rewrite bool_decide_eq_true_2 by done.
    rewrite bool_decide_eq_false_2 by done. simpl.
    by apply id_taken_spec. }
  apply update_Ok in Hupd as (-> & Hrows & _).
  unfold Db.select_by_id in *. rewrite Hrows. clear Hrows Hne.
  revert Hfree. generalize (Db.rows t) as rows. intros rows Hfree.
  split; [|split].
  - induction rows as [|r rows IH]; [done|].
    assert (k <> i -> k ∉ map row_id rows) as Hfree'.
    { intros Hki Hin. apply (Hfree Hki). rewrite fmap_cons. by right. }
    specialize (IH Hfree').
    rewrite map_cons, !filter_cons, IH.
    destruct (decide (row_id r = i)) as [Hri|Hri].
    + rewrite decide_True by by apply Hkey. done.
    + rewrite decide_False; [done|].
      intros Hrk. destruct (decide (k = i)) as [->|Hki]; [done|].
      apply (Hfree Hki). rewrite fmap_cons, <- Hrk. by left.
  - intros Hki. apply filter_Forall_nil, Forall_forall.
    intros r Hr. apply list_elem_of_fmap in Hr as (r0 & -> & _).
    case_decide as Hr0; [|done]. by rewrite (Hkey r0 Hr0).
  - intros j Hji Hjk. clear Hfree.
    induction rows as [|r rows IH]; [done|].
    rewrite map_cons, !filter_cons, IH.
    destruct (decide (row_id r = i)) as [Hri|Hri]; [|done].
    rewrite (decide_False (P := row_id r = j)) by congruence.
    rewrite decide_False; [done|]. rewrite (Hkey r Hri). congruence.
Qed.

Lemma delete_rows i t :
  Db.rows (snd (Db.delete row_id i t)) = filter (fun r => row_id r <> i) (Db.rows t).
Proof. done. Qed.

Lemma select_by_id_delete i t :
  Db.select_by_id row_id i (snd (Db.delete row_id i t)) = [].
Proof.
  unfold Db.select_by_id, Db.delete. simpl.
  induction (Db.rows t) as [|r l IH]; [done|].
  rewrite filter_cons. case_decide; [|done].
  rewrite filter_cons. by case_decide.
Qed.

(** Deleting a key removes the rows under it and no other. *)
Lemma delete_lookup i t :
  Db.select_by_id row_id i (snd (Db.delete row_id i t)) = [] /\
  forall j, j <> i ->
    Db.select_by_id row_id j (snd (Db.delete row_id i t)) = Db.select_by_id row_id j t.
Proof.
  split; [apply select_by_id_delete|].
  intros j Hj. unfold Db.select_by_id, Db.delete. simpl.
  rewrite list_filter_filter. apply list_filter_iff. intros r. split; [tauto|].
  intros Hr. split; [done|]. congruence.
Qed.

End TableKeys.

Section TableInserts.
Context {R : Type} (row_id : R -> Z) (stored : R -> Db.result R).
Implicit Types (t : Db.table R) (r : R) (i : Z).

(** An accepted insert appends the row it returns, which is the row as the
    columns store it, under a key of the sequence that no row had. *)
Lemma insert_Ok mk t r t' :
  Db.insert row_id stored mk t = (Ok r, t') ->
  stored (mk (Db.nextId t)) = Ok r /\
  (Db.nextId t ∉ map row_id (Db.rows t)) /\
  t' = Db.mkTable (Db.rows t ++ [r]) (Db.nextId t + 1).
Proof.
  unfold Db.insert. intros H.
  destruct (stored (mk (Db.nextId t))) as [r0|e] eqn:Hstored; [|discriminate].
  destruct (Db.id_taken row_id (Db.nextId t) t) eqn:Htaken; [discriminate|].
  inversion H; subst. repeat split; try done.
  rewrite <- id_taken_spec. by rewrite Htaken.
Qed.

(** A rejected insert leaves the rows as they were. *)
Lemma insert_Throw mk t e t' :
  Db.insert row_id stored mk t = (Throw e, t') -> Db.rows t' = Db.rows t.
Proof.
  unfold Db.insert. intros H.
  destruct (stored (mk (Db.nextId t))); simpl in H.
  - destruct (Db.id_taken row_id (Db.nextId t) t); [|discriminate].
    by inversion H.
  - by inversion H.
Qed.


(** An insert is accepted when the columns take the values and the
    sequence is ahead of every key. *)
Lemma insert_accepts mk t r :
  stored (mk (Db.nextId t)) = Ok r ->
  Forall (fun r => row_id r < Db.nextId t) (Db.rows t) ->
  Db.insert row_id stored mk t
  = (Ok r, Db.mkTable (Db.rows t ++ [r]) (Db.nextId t + 1)).
Proof.
  intros Hok Hlt. unfold Db.insert. rewrite Hok.
  destruct (Db.id_taken row_id (Db.nextId t) t) eqn:Htaken; [|done].
  apply id_taken_spec, list_elem_of_fmap in Htaken as (r' & Hr & Hin).
  rewrite Forall_forall in Hlt. specialize (Hlt r' Hin). lia.
Qed.

(** The row an accepted insert returns is found under its key, which was
    free; no other key is affected. *)
Lemma insert_lookup mk t r t' :
  (forall i r, stored (mk i) = Ok r -> row_id r = i) ->
  Db.insert row_id stored mk t = (Ok r, t') ->
  row_id r = Db.nextId t /\
  Db.select_by_id row_id (row_id r) t = [] /\
  Db.select_by_id row_id (row_id r) t' = [r] /\
  forall j, j <> row_id r -> Db.select_by_id row_id j t' = Db.select_by_id row_id j t.
Proof.
  intros Hmk Hins. apply insert_Ok in Hins as (Hstored & Hfresh & ->).
  rewrite (Hmk _ _ Hstored). split; [done|].
  assert (Db.select_by_id row_id (Db.nextId t) t = []) as Hnil
    by by apply select_by_id_nil.
  split; [done|]. unfold Db.select_by_id in *. simpl. split.
  - rewrite filter_app, Hnil. simpl. rewrite filter_cons, decide_True; [done|].
    by eapply Hmk.
  - intros j Hj. rewrite filter_app, filter_cons, decide_False, filter_nil, app_nil_r;
      [done|]. by rewrite (Hmk _ _ Hstored).
Qed.

End TableInserts.

Section TableChecks.
Context {R : Type} (row_id : R -> Z) (row_ok : R -> bool) (stored : R -> Db.result R).
Implicit Types (t : Db.table R) (r : R) (i : Z).

(** Every stored row holds values of its column types, whatever statement
    is run. *)
Lemma insert_checked mk t :
  (forall r r', stored r = Ok r' -> row_ok r' = true) ->
  Db.checked row_ok t -> Db.checked row_ok (snd (Db.insert row_id stored mk t)).
Proof.
  unfold Db.checked, Db.insert. intros Hstored Hall.
  destruct (stored (mk (Db.nextId t))) as [r|e] eqn:Hok; simpl; [|done].
  destruct (Db.id_taken row_id (Db.nextId t) t); simpl; [done|].
  apply Forall_app. split; [done|]. repeat constructor. by eapply Hstored.
Qed.

Lemma update_checked i set t :
  (forall r, row_ok r = true -> row_ok (set r) = true) ->
  Db.checked row_ok t -> Db.checked row_ok (snd (Db.update row_id i set t)).
Proof.
  unfold Db.checked, Db.update. intros Hset Hall.
  destruct (Db.key_conflict row_id i set t); simpl; [done|].
  apply Forall_fmap, Forall_forall. intros r Hr. simpl.
  rewrite Forall_forall in Hall. case_decide as Hid; [|by apply Hall].
  by apply Hset, Hall.
Qed.

Lemma delete_checked i t :
  Db.checked row_ok t -> Db.checked row_ok (snd (Db.delete row_id i t)).
Proof.
  unfold Db.checked, Db.delete. simpl. intros Hall.
  rewrite Forall_forall in Hall. apply Forall_forall. intros r Hr.
  apply list_elem_of_filter in Hr as [_ Hr]. by apply Hall.
Qed.

End TableChecks.

(** ** Column types *)

Section Columns.
Import Db.

Lemma char_length_take_chars (n : nat) (s : string) :
  char_length (take_chars n s) <= Z.of_nat n.
Proof.
  revert n. induction s as [|c s IH]; intros n; simpl; [lia|].
  unfold continuation.
  destruct ((128 <=? Z.of_nat (nat_of_ascii c)) && (Z.of_nat (nat_of_ascii c) <? 192))
    eqn:Hc; simpl.
  - rewrite Hc. specialize (IH n). lia.
  - destruct n as [|n]; simpl; [lia|]. rewrite Hc. specialize (IH n). lia.
Qed.

(** What [varchar(n)] stores is a value that fits, and a value that fits
    is stored as it is. *)
Lemma varchar_fits (n : Z) (s k : string) :
  0 <= n -> varchar n s = Some k -> fits_varchar n k = true.
Proof.
  intros Hn. unfold varchar.
  destruct (fits_varchar n s) eqn:Hfits; [by intros [= <-]|].
  destruct (all_spaces _); [|done]. intros [= <-].
  unfold fits_varchar. apply Z.leb_le.
  pose proof (char_length_take_chars (Z.to_nat n) s). lia.
Qed.

Lemma varchar_id (n : Z) (s : string) :
  fits_varchar n s = true -> varchar n s = Some s.
Proof. intros Hfits. unfold varchar. by rewrite Hfits. Qed.

Lemma stored_structure_Ok (r r' : PlotStructure.t) :
  stored_structure r = Ok r' <-> r' = r /\ structure_ok r = true.
Proof.
  unfold stored_structure. destruct (structure_ok r); split; try done.
  - by intros [= <-].
  - by intros [-> _].
  - by intros [_ ?].
Qed.

Lemma stored_section_Ok (r r' : PlotStructureSection.t) :
  stored_section r = Ok r' ->
  PlotStructureSection.id r' = PlotStructureSection.id r /\
  PlotStructureSection.plotStructureId r' = PlotStructureSection.plotStructureId r /\
  varchar 100 (PlotStructureSection.sectionKey r)
  = Some (PlotStructureSection.sectionKey r') /\
  PlotStructureSection.title r' = PlotStructureSection.title r /\
  PlotStructureSection.content r' = PlotStructureSection.content r /\
  PlotStructureSection.order r' = PlotStructureSection.order r /\
  PlotStructureSection.createdAt r' = PlotStructureSection.createdAt r /\
  PlotStructureSection.updatedAt r' = PlotStructureSection.updatedAt r /\
  section_ok r' = true.
Proof.
  unfold stored_section, section_ok.
  destruct (int4 _ && int4 _) eqn:Hint; [|done].
  destruct (varchar 100 _) as [k|] eqn:Hkey; [|done].
  intros [= <-]. simpl. repeat split; try done.
  apply andb_prop in Hint as [-> ->].
  by rewrite (varchar_fits 100 _ k ltac:(lia) Hkey).
Qed.

(** A section whose values the columns hold is stored as it is. *)
Lemma stored_section_id (r : PlotStructureSection.t) :
  section_ok r = true -> stored_section r = Ok r.
Proof.
  unfold stored_section, section_ok. intros Hok.
  apply andb_prop in Hok as [Hok Horder]. apply andb_prop in Hok as [Hkey Hid].
  rewrite Hid, Horder, (varchar_id _ _ Hkey). simpl. by destruct r.
Qed.

Lemma stored_template_Ok (r r' : PlotStructureTemplate.t) :
  stored_template r = Ok r' ->
  PlotStructureTemplate.id r' = PlotStructureTemplate.id r /\
  varchar 50 (PlotStructureTemplate.templateType r)
  = Some (PlotStructureTemplate.templateType r') /\
  template_ok r' = true.
Proof.
  unfold stored_template, template_ok.
  destruct (varchar 50 _) as [k|] eqn:Hkey; [|done].
  intros [= <-]. simpl. repeat split; try done.
  by apply (varchar_fits 50 _ k ltac:(lia) Hkey).
Qed.

Lemma stored_template_id (r : PlotStructureTemplate.t) :
  template_ok r = true -> stored_template r = Ok r.
Proof.
  unfold stored_template, template_ok. intros Hok.
  rewrite (varchar_id _ _ Hok). by destruct r.
Qed.

(** The values of an update that the columns take keep a row within its
    column types. *)
Lemma stored_structure_update_Ok (p p' : PartialPlotStructure.t) :
  stored_structure_update p = Ok p' <->
  p' = p /\
  int4_set (PartialPlotStructure.id p) = true /\
  int4_set (PartialPlotStructure.projectId p) = true /\
  int4_set (PartialPlotStructure.templateId p) = true /\
  int4_set_null (PartialPlotStructure.parentId p) = true /\
  int4_set_null (PartialPlotStructure.order p) = true.
Proof.
  unfold stored_structure_update.
  destruct (int4_set (PartialPlotStructure.id p)),
    (int4_set (PartialPlotStructure.projectId p)),
    (int4_set (PartialPlotStructure.templateId p)),
    (int4_set_null (PartialPlotStructure.parentId p)),
    (int4_set_null (PartialPlotStructure.order p)); simpl;
    (split; [intros Heq; try discriminate; injection Heq as <-; by repeat split
            |intros (-> & ? & ? & ? & ? & ?); done]).
Qed.

Lemma set_structure_ok (p : PartialPlotStructure.t) (now : timestamp)
  (r : PlotStructure.t) :
  stored_structure_update p = Ok p ->
  structure_ok r = true ->
  structure_ok (DatabaseStorage.set_structure p now r) = true.
Proof.
  rewrite stored_structure_update_Ok. intros (_ & _ & Hproject & Htemplate & Hparent & Horder).
  unfold structure_ok. rewrite !andb_true_iff. intros [[[Hp Ht] Hpa] Ho]. simpl.
  destruct p as [pid pproject ptemplate pname pdesc pparent porder pc pu]. simpl in *.
  repeat split.
  - by destruct pproject.
  - by destruct ptemplate.
  - by destruct pparent.
  - by destruct porder.
Qed.

Lemma stored_section_update_Ok (p p' : PartialPlotStructureSection.t) :
  stored_section_update p = Ok p' ->
  PartialPlotStructureSection.id p' = PartialPlotStructureSection.id p /\
  PartialPlotStructureSection.plotStructureId p'
  = PartialPlotStructureSection.plotStructureId p /\
  PartialPlotStructureSection.sectionKey p'
  = PartialPlotStructureSection.sectionKey p ≫= varchar 100 /\
  (PartialPlotStructureSection.sectionKey p = None
   <-> PartialPlotStructureSection.sectionKey p' = None) /\
  PartialPlotStructureSection.title p' = PartialPlotStructureSection.title p /\
  PartialPlotStructureSection.content p' = PartialPlotStructureSection.content p /\
  PartialPlotStructureSection.order p' = PartialPlotStructureSection.order p /\
  PartialPlotStructureSection.createdAt p' = PartialPlotStructureSection.createdAt p /\
  PartialPlotStructureSection.updatedAt p' = PartialPlotStructureSection.updatedAt p /\
  int4_set (PartialPlotStructureSection.id p) = true /\
  int4_set (PartialPlotStructureSection.plotStructureId p) = true /\
  int4_set (PartialPlotStructureSection.order p) = true.
Proof.
  unfold stored_section_update.
  destruct (_ && _) eqn:Hint; [|done].
  apply andb_prop in Hint as [Hint Horder]. apply andb_prop in Hint as [Hid Hstructure].
  destruct (PartialPlotStructureSection.sectionKey p) as [k|] eqn:Hkey.
  - destruct (varchar 100 k) as [k'|] eqn:Hk; [|done].
    intros [= <-]. simpl. rewrite Hk. repeat split; try done.
  - intros [= <-]. rewrite Hkey. repeat split; try done.
Qed.

(** A payload without a section key whose numbers are in range is stored
    as it is. *)
Lemma stored_section_update_id (p : PartialPlotStructureSection.t) :
  PartialPlotStructureSection.sectionKey p = None ->
  int4_set (PartialPlotStructureSection.id p) = true ->
  int4_set (PartialPlotStructureSection.plotStructureId p) = true ->
  int4_set (PartialPlotStructureSection.order p) = true ->
  stored_section_update p = Ok p.
Proof.
  intros Hkey Hid Hstructure Horder. unfold stored_section_update.
  by rewrite Hid, Hstructure, Horder, Hkey.
Qed.

Lemma set_section_ok (p p' : PartialPlotStructureSection.t) (now : timestamp)
  (r : PlotStructureSection.t) :
  stored_section_update p = Ok p' ->
  section_ok r = true ->
  section_ok (DatabaseStorage.set_section p' now r) = true.
Proof.
  intros Hp. unfold stored_section_update in Hp.
  destruct (_ && _) eqn:Hint; [|done].
  apply andb_prop in Hint as [Hint Horder]. apply andb_prop in Hint as [Hid Hstructure].
  unfold section_ok. rewrite !andb_true_iff. intros [[Hk Hs] Ho].
  destruct p as [pid pstructure pkey ptitle pcontent porder pc pu]. simpl in *.
  destruct pkey as [k|].
  - destruct (varchar 100 k) as [k'|] eqn:Hvar; [|done]. injection Hp as <-. simpl.
    repeat split.
    + by apply (varchar_fits 100 k k' ltac:(lia)).
    + by destruct pstructure.
    + by destruct porder.
  - injection Hp as <-. simpl. repeat split.
    + done.
    + by destruct pstructure.
    + by destruct porder.
Qed.

End Columns.

(** ** Deleting an instance *)

Section DeleteInstance.
Import Db DatabaseStorage.

(** The double negation of the statement's result is [true] whatever the
    statement deleted. *)
Lemma deletePlotStructure_true (id : Z) (st : store) :
  fst (deletePlotStructure id st) = true.
Proof. done. Qed.

Lemma deletePlotStructure_structures (id : Z) (st : store) :
  rows (plotStructures (snd (deletePlotStructure id st)))
  = filter (fun r => PlotStructure.id r <> id) (rows (plotStructures st)).
Proof. done. Qed.

(** C9, at the failing input: no structure has id 999 in the empty store,
    and [DELETE /api/plot-structures/999] answers 204, not 404. *)
Theorem delete_plot_structure_missing_204 :
  getPlotStructure empty_store 999 = None /\
  fst (deletePlotStructure 999 empty_store) = true /\
  Routes.status (fst (Routes.delete_plot_structure "999" empty_store)) = 204.
Proof. by vm_compute. Qed.

(** The endpoint answers 204 for every id of the [integer] range, whether
    or not a structure has it, and 500 for a number outside the range. *)
Lemma delete_plot_structure_status (param : string) (id : Z) (st : store) :
  Js.parseInt param = Some id ->
  Routes.status (fst (Routes.delete_plot_structure param st))
  = if int4 id then 204 else 500.
Proof.
  intros Hid. unfold Routes.delete_plot_structure, Routes.with_id. rewrite Hid.
  by destruct (int4 id).
Qed.

(** C3 as stated fails: after the structure of [structure_with_sections]
    is deleted, its two sections are still listed. *)
Lemma cascade_delete_counterexample :
  let st' := snd (deletePlotStructure 1 Scenario.structure_with_sections) in
  getPlotStructure st' 1 = None /\
  length (getPlotStructureSections Scenario.structure_with_sections 1) = 2%nat /\
  length (getPlotStructureSections st' 1) = 2%nat /\
  ~ (getPlotStructureSections st' 1 = []).
Proof. by vm_compute. Qed.

(** C3, amended: deleting an instance removes the rows of the structure
    table with that id and nothing else; the section table is left as it
    was, so the sections that reference the deleted instance are all still
    listed. *)
Theorem deletePlotStructure_keeps_sections (id : Z) (st : store) :
  let st' := snd (deletePlotStructure id st) in
  getPlotStructure st' id = None /\
  rows (plotStructures st')
  = filter (fun r => PlotStructure.id r <> id) (rows (plotStructures st)) /\
  plotStructureSections st' = plotStructureSections st /\
  plotStructureTemplates st' = plotStructureTemplates st /\
  forall plotStructureId,
    getPlotStructureSections st' plotStructureId
    = getPlotStructureSections st plotStructureId.
Proof.
  simpl. repeat split.
  unfold getPlotStructure, deletePlotStructure. simpl.
  change (mkTable _ _) with (snd (delete PlotStructure.id id (plotStructures st))).
  by rewrite select_by_id_delete.
Qed.

End DeleteInstance.

(** ** Listing and updating instances *)

Section Instances.
Import Db DatabaseStorage.

(** The listing is the selection of the project's rows, in storage
    order. *)
Lemma getProjectPlotStructures_elem (st : store) (projectId : Z) (r : PlotStructure.t) :
  r ∈ getProjectPlotStructures st projectId
  <-> r ∈ rows (plotStructures st) /\ PlotStructure.projectId r = projectId.
Proof. unfold getProjectPlotStructures. rewrite list_elem_of_filter. tauto. Qed.

(** C8, at the failing input: project 42 holds two structures, created
    with orders 2 and 1; the listing and the endpoint return them in the
    order of creation (orders 2, 1), which is not ascending. *)
Theorem getProjectPlotStructures_unsorted :
  map PlotStructure.order (getProjectPlotStructures Scenario.two_structures 42)
  = [Some 2; Some 1] /\
  ~ Sorted structure_order_le (getProjectPlotStructures Scenario.two_structures 42) /\
  fst (Routes.get_project_plot_structures "42" Scenario.two_structures)
  = Routes.json (Routes.Structures (getProjectPlotStructures Scenario.two_structures 42)).
Proof.
  split; [by vm_compute|]. split; [|by vm_compute].
  intros Hsorted. vm_compute in Hsorted.
  inversion Hsorted as [|? ? _ Hhd]; subst.
  inversion Hhd as [|? ? Hle]; subst.
  vm_compute in Hle. by apply Hle.
Qed.







End Instances.

(** ** Listing and updating sections *)

Section Sections.
Import Db DatabaseStorage.

#[local] Instance section_order_le_total : Total section_order_le.
Proof. intros a b. unfold section_order_le. lia. Qed.

#[local] Instance section_order_le_trans : Transitive section_order_le.
Proof. intros a b c. unfold section_order_le. lia. Qed.

(** C7: the sections listed for an instance are the rows of the section
    table that reference it, each once, in ascending [order]; the endpoint
    answers 200 with that list (and 500 for a number that is outside the
    [integer] range, which no instance has as its id). *)
Theorem getPlotStructureSections_sorted (st : store) (plotStructureId : Z) :
  let listed := getPlotStructureSections st plotStructureId in
  Sorted section_order_le listed /\
  StronglySorted section_order_le listed /\
  listed ≡ₚ filter (fun r => PlotStructureSection.plotStructureId r = plotStructureId)
                   (rows (plotStructureSections st)) /\
  (forall r, r ∈ listed <->
             r ∈ rows (plotStructureSections st)
             /\ PlotStructureSection.plotStructureId r = plotStructureId) /\
  (forall param, Js.parseInt param = Some plotStructureId ->
     Routes.get_plot_structure_sections param st
     = (if int4 plotStructureId then Routes.json (Routes.Sections listed)
        else Routes.mkResponse 500
               (Routes.Message "Failed to fetch plot structure sections"),
        st)).
Proof.
  simpl. unfold getPlotStructureSections.
  split; [apply Sorted_merge_sort, _|].
  split; [apply StronglySorted_merge_sort; apply _|].
  split; [apply merge_sort_Permutation|].
  split.
  - intros r. rewrite merge_sort_Permutation, list_elem_of_filter. tauto.
  - intros param Hparam.
    unfold Routes.get_plot_structure_sections, Routes.with_id. rewrite Hparam.
    by destruct (int4 plotStructureId).
Qed.

Lemma getPlotStructureSections_sorted_witness :
  map PlotStructureSection.order
      (getPlotStructureSections Scenario.structure_with_sections 1) = [1; 2] /\
  Routes.status
    (fst (Routes.get_plot_structure_sections "1" Scenario.structure_with_sections)) = 200.
Proof.
  split; [reflexivity|].
  destruct (getPlotStructureSections_sorted Scenario.structure_with_sections 1)
    as (_ & _ & _ & _ & Hroute).
  rewrite (Hroute "1" eq_refl). reflexivity.
Defined.

(** The row an accepted update returns is the stored row with the fields
    of the payload set, as the columns store them, and it is what the
    table holds in its place. *)
Lemma updatePlotStructureSection_returns (st : store) (id : Z)
  (p : PartialPlotStructureSection.t) (now : timestamp)
  (s s' : PlotStructureSection.t) (st' : store) :
  getPlotStructureSection st id = Some s ->
  updatePlotStructureSection id p now st = (Ok (Some s'), st') ->
  exists p',
    stored_section_update p = Ok p' /\
    s' = set_section p' now s /\
    rows (plotStructureSections st')
    = map (fun r => if decide (PlotStructureSection.id r = id)
                    then set_section p' now r else r)
          (rows (plotStructureSections st)) /\
    plotStructures st' = plotStructures st /\
    plotStructureTemplates st' = plotStructureTemplates st.
Proof.
  unfold getPlotStructureSection, updatePlotStructureSection. intros Hget Hupd.
  destruct (stored_section_update p) as [p'|e] eqn:Hp; [|discriminate].
  destruct (update _ _ _ _) as [[updated|e] t] eqn:Hu; [|discriminate].
  apply update_Ok in Hu as (-> & Hrows & _).
  inversion Hupd; subst; clear Hupd.
  destruct (select_by_id PlotStructureSection.id id (plotStructureSections st))
    as [|r l]; [discriminate|].
  simpl in *. exists p'. by simplify_eq.
Qed.

(** After an accepted update the row returned is found under the id it
    has; when the payload moved it, the old id holds nothing; every other
    id holds what it held. *)
Lemma updatePlotStructureSection_found (st : store) (id : Z)
  (p : PartialPlotStructureSection.t) (now : timestamp)
  (s s' : PlotStructureSection.t) (st' : store) :
  getPlotStructureSection st id = Some s ->
  updatePlotStructureSection id p now st = (Ok (Some s'), st') ->
  PlotStructureSection.id s' = default id (PartialPlotStructureSection.id p) /\
  getPlotStructureSection st' (PlotStructureSection.id s') = Some s' /\
  (PlotStructureSection.id s' <> id -> getPlotStructureSection st' id = None) /\
  (forall j, j <> id -> j <> PlotStructureSection.id s' ->
     getPlotStructureSection st' j = getPlotStructureSection st j).
Proof.
  intros Hget Hupd.
  destruct (updatePlotStructureSection_returns _ _ _ _ _ _ _ Hget Hupd)
    as (p' & Hp & Hs' & _).
  destruct (stored_section_update_Ok _ _ Hp) as (Hpid & _).
  apply head_select_by_id in Hget as Hs. destruct Hs as [_ Hid].
  unfold getPlotStructureSection in *. unfold updatePlotStructureSection in Hupd.
  rewrite Hp in Hupd.
  destruct (update _ _ _ _) as [[updated|e] t] eqn:Hu; [|discriminate].
  inversion Hupd as [[Hhead Hst]]; subst st'. simpl.
  assert (updated <> []) as Hne by (by destruct updated).
  assert (forall r, PlotStructureSection.id r = id ->
            PlotStructureSection.id (set_section p' now r)
            = default id (PartialPlotStructureSection.id p)) as Hkey.
  { intros r Hr. simpl. by rewrite Hr, Hpid. }
  destruct (update_lookup PlotStructureSection.id id
              (default id (PartialPlotStructureSection.id p))
              (set_section p' now) _ _ _ Hkey Hne Hu)
    as (Hfound & Hold & Hothers).
  assert (PlotStructureSection.id s'
          = default id (PartialPlotStructureSection.id p)) as Hid'.
  { rewrite Hs'. simpl. by rewrite Hid, Hpid. }
  rewrite Hid'. split; [done|]. split; [by rewrite Hfound|].
  split; [by intros Hne'; rewrite Hold|].
  intros j Hj Hj'. by rewrite Hothers.
Qed.




End Sections.

(** ** The authentication middleware *)

Section Authentication.
Import Routes.

Lemma startsWith_app (p s : string) : Js.startsWith p (p +:+ s) = true.
Proof. induction p as [|a p IH]; simpl; [done|]. by case_decide. Qed.

Lemma substring_app (p s : string) : Js.substring (String.length p) (p +:+ s) = s.
Proof. induction p as [|a p IH]; simpl; done. Qed.

Lemma split_nonempty (sep : ascii) (s : string) : Js.split sep s <> [].
Proof.
  induction s as [|c s IH]; simpl; [done|].
  case_decide; [done|]. by destruct (Js.split sep s).
Qed.

(** The first part of a split is the text before the first separator. *)
Lemma split_app (sep : ascii) (n rest : string) :
  Js.includes sep n = false ->
  Js.split sep (n +:+ String sep rest) = n :: Js.split sep rest.
Proof.
  induction n as [|c n IH]; simpl; intros Hn.
  - by case_decide.
  - case_decide; [done|]. by rewrite IH.
Qed.

(** The parts of a token [user-<n>-<rest>]. *)
Lemma token_parts (n rest : string) :
  Js.includes "-" n = false ->
  Js.split "-" ("user-" +:+ n +:+ "-" +:+ rest) = "user" :: n :: Js.split "-" rest.
Proof.
  intros Hn.
  change ("user-" +:+ n +:+ "-" +:+ rest)
    with ("user" +:+ String "-" (n +:+ String "-" rest)).
  rewrite (split_app "-" "user") by done.
  by rewrite (split_app "-" n).
Qed.

(** The user of the header [Bearer user-<n>-<rest>]. *)
Lemma token_user_bearer (n rest : string) (k : Z) :
  Js.includes "-" n = false ->
  Js.parseInt n = Some k ->
  token_user ("Bearer user-" +:+ n +:+ "-" +:+ rest)
  = Some (mkUser k "TokenUser" None None None).
Proof.
  intros Hn Hk.
  set (token := "user-" +:+ n +:+ "-" +:+ rest).
  assert (Js.substring 7 ("Bearer " +:+ token) = token) as Htoken by done.
  assert (truthy_string ("Bearer " +:+ token)
          && Js.startsWith "Bearer " ("Bearer " +:+ token) = true) as Hbearer by done.
  assert (truthy_string token && Js.startsWith "user-" token = true) as Huser by done.
  change ("Bearer user-" +:+ n +:+ "-" +:+ rest) with ("Bearer " +:+ token).
  unfold token_user. rewrite Hbearer, Htoken, Huser.
  unfold token. rewrite token_parts by done.
  rewrite bool_decide_eq_true_2 by (simpl; lia).
  simpl. by rewrite Hk.
Qed.

(** C10 as stated fails: a request that is authenticated through its
    session as user 5 and carries [Bearer user-7-1700000000] reaches the
    handler as user 5, not as user 7. *)
Lemma token_bypass_counterexample :
  let alice := mkUser 5 "alice" (Some "alice@example.com") (Some "hash.salt") None in
  let req := mkRequest true (Some alice) (Some "Bearer user-7-1700000000") in
  Js.parseInt "7" = Some 7 /\
  isAuthenticated req = Next req /\
  id <$> user req = Some 5 /\
  id <$> user req <> Some 7.
Proof. by vm_compute. Qed.

(** A token whose number is written with a minus sign is not accepted: the
    split at ['-'] leaves an empty second part. *)
Example token_negative_number :
  Js.parseInt "-5" = Some (-5) /\
  isAuthenticated (mkRequest false None (Some "Bearer user--5-x"))
  = Respond (mkResponse 401 (Message "Unauthorized")).
Proof. by vm_compute. Qed.

(** C10, amended: a request that is not authenticated through its session
    and carries [Authorization: Bearer user-<n>-<rest>], where [<n>] has
    no ['-'] and [parseInt] reads the integer [k] from it, leaves the
    middleware through [next()] with [req.user] set to
    [{ id: k, username: "TokenUser" }], so that every protected handler
    runs on it; nothing but the header is consulted.  A request that is
    authenticated through its session reaches the handler as its session
    user, whatever its header. *)
Theorem isAuthenticated_token (req : Request) :
  (forall n rest k,
     sessionAuthenticated req && bool_decide (is_Some (user req)) = false ->
     authorization req = Some ("Bearer user-" +:+ n +:+ "-" +:+ rest) ->
     Js.includes "-" n = false ->
     Js.parseInt n = Some k ->
     let req' := set_user req (mkUser k "TokenUser" None None None) in
     isAuthenticated req = Next req' /\
     forall (A : Type) (handler : Request -> A -> Response * A) (st : A),
       protected handler req st = handler req' st) /\
  (forall u,
     sessionAuthenticated req = true ->
     user req = Some u ->
     isAuthenticated req = Next req /\
     forall (A : Type) (handler : Request -> A -> Response * A) (st : A),
       protected handler req st = handler req st).
Proof.
  split.
  - intros n rest k Hsession Hheader Hn Hk req'.
    assert (isAuthenticated req = Next req') as Hnext.
    { unfold isAuthenticated. rewrite Hsession, Hheader. simpl negb. cbv iota.
      by rewrite (token_user_bearer n rest k). }
    split; [done|]. intros A handler st. unfold protected. by rewrite Hnext.
  - intros u Hsession Huser.
    assert (isAuthenticated req = Next req) as Hnext.
    { unfold isAuthenticated. rewrite Hsession.
      rewrite bool_decide_eq_true_2 by (rewrite Huser; eauto). done. }
    split; [done|]. intros A handler st. unfold protected. by rewrite Hnext.
Qed.

Lemma isAuthenticated_token_witness :
  isAuthenticated (mkRequest false None (Some "Bearer user-7-1700000000"))
  = Next (mkRequest true (Some (mkUser 7 "TokenUser" None None None))
                    (Some "Bearer user-7-1700000000")).
Proof.
  destruct (isAuthenticated_token
              (mkRequest false None (Some "Bearer user-7-1700000000")))
    as [Htoken _].
  destruct (Htoken "7" "1700000000" 7) as [Hnext _].
  - reflexivity.
  - reflexivity.
  - reflexivity.
  - reflexivity.
  - exact Hnext.
Defined.

End Authentication.

(** ** Seeding the template catalog *)

Section Seeding.
Import Db DatabaseStorage Seed.
Variable JSON_stringify : Js.json -> string.

#[local] Abbreviation builtins := (PlotTemplates.plotTemplates JSON_stringify).

Lemma seeded_rows_length templates now first :
  length (seeded_rows templates now first) = length templates.
Proof. revert first. induction templates; intros; simpl; auto. Qed.

Lemma seeded_rows_values templates now first :
  Forall (fun v => is_Some (InsertPlotStructureTemplate.description v)
                   /\ is_Some (InsertPlotStructureTemplate.isDefault v)) templates ->
  map inserted_values (seeded_rows templates now first) = templates.
Proof.
  revert first. induction templates as [|v rest IH]; intros first Hall; simpl; [done|].
  apply Forall_cons in Hall as [[[d Hd] [b Hb]] Hrest].
  rewrite IH by done. f_equal.
  destruct v as [tt nm ds sc df]. simpl in *. by subst.
Qed.

(** The loop of inserts goes through when every template passes the
    column check and the sequence is ahead of the keys in use. *)
Lemma insert_templates_accepts templates now (t : table PlotStructureTemplate.t) :
  Forall (fun v => fits_varchar 50 (InsertPlotStructureTemplate.templateType v) = true)
         templates ->
  Forall (fun r => PlotStructureTemplate.id r < nextId t) (rows t) ->
  insert_templates templates now t
  = (Ok tt, mkTable (rows t ++ seeded_rows templates now (nextId t))
                    (nextId t + Z.of_nat (length templates))).
Proof.
  revert t. induction templates as [|v rest IH]; intros t Hok Hlt; simpl.
  - rewrite app_nil_r, Z.add_0_r. by destruct t.
  - apply Forall_cons in Hok as [Hv Hrest].
    rewrite (insert_accepts PlotStructureTemplate.id stored_template _ t
               (template_row v now (nextId t)));
      [|by apply stored_template_id|done].
    rewrite IH; simpl.
    + f_equal. f_equal; [by rewrite <- app_assoc | lia].
    + done.
    + apply Forall_app. split.
      * eapply Forall_impl; [exact Hlt|]. simpl. intros; lia.
      * repeat constructor. simpl. lia.
Qed.

Lemma builtins_fit :
  Forall (fun v => fits_varchar 50 (InsertPlotStructureTemplate.templateType v) = true)
         builtins.
Proof. repeat constructor. Qed.

Lemma builtins_given :
  Forall (fun v => is_Some (InsertPlotStructureTemplate.description v)
                   /\ is_Some (InsertPlotStructureTemplate.isDefault v)) builtins.
Proof. repeat constructor; simpl; eauto. Qed.

Lemma builtins_distinct :
  NoDup (map InsertPlotStructureTemplate.templateType builtins).
Proof. apply (bool_decide_unpack _). by vm_compute. Qed.

Lemma filter_key_length {A : Type} (f : A -> string) (x : string) (l : list A) :
  NoDup (map f l) -> (length (filter (fun r => f r = x) l) <= 1)%nat.
Proof.
  induction l as [|a l IH]; simpl; intros Hnd; [lia|].
  apply NoDup_cons in Hnd as [Hnotin Hnd].
  rewrite filter_cons. case_decide as Ha; [|by apply IH].
  destruct (filter (fun r => f r = x) l) as [|b l'] eqn:Hfilter; [simpl; lia|].
  exfalso. assert (b ∈ filter (fun r => f r = x) l) as Hb by (rewrite Hfilter; left).
  apply list_elem_of_filter in Hb as [Hfb Hb].
  apply Hnotin. rewrite Ha, <- Hfb. apply list_elem_of_fmap. eauto.
Qed.

(** A run on an empty catalog writes the built-in templates, in order. *)
Lemma initPlotTemplates_empty now st :
  rows (plotStructureTemplates st) = [] ->
  rows (plotStructureTemplates (initPlotTemplates JSON_stringify now st))
  = seeded_rows builtins now (nextId (plotStructureTemplates st)) /\
  plotStructures (initPlotTemplates JSON_stringify now st) = plotStructures st /\
  plotStructureSections (initPlotTemplates JSON_stringify now st)
  = plotStructureSections st.
Proof.
  intros Hempty. unfold initPlotTemplates. rewrite Hempty. simpl length.
  rewrite bool_decide_eq_true_2 by done.
  rewrite insert_templates_accepts.
  - simpl. by rewrite Hempty.
  - apply builtins_fit.
  - by rewrite Hempty.
Qed.

(** A run on a catalog that holds a row changes nothing. *)
Lemma initPlotTemplates_nonempty now st :
  rows (plotStructureTemplates st) <> [] ->
  initPlotTemplates JSON_stringify now st = st.
Proof.
  intros Hne. unfold initPlotTemplates.
  rewrite bool_decide_eq_false_2; [done|].
  by destruct (rows (plotStructureTemplates st)).
Qed.

Lemma run_seed_nonempty clock st :
  rows (plotStructureTemplates st) <> [] -> run_seed JSON_stringify clock st = st.
Proof.
  revert st. induction clock as [|now clock IH]; intros st Hne; simpl; [done|].
  rewrite initPlotTemplates_nonempty by done. by apply IH.
Qed.

(** C6: a run of the seed routine on an empty catalog inserts the eight
    built-in templates, each once and in order; a run on a catalog that
    already holds a template changes nothing; so after any number of runs
    in a row from an empty catalog no built-in template has more than one
    row, and after at least one run the catalog is the built-in set. *)
Theorem initPlotTemplates_idempotent (st : store) (now : timestamp)
  (clock : list timestamp) :
  length builtins = 8%nat /\
  (rows (plotStructureTemplates st) = [] ->
   map inserted_values
       (rows (plotStructureTemplates (initPlotTemplates JSON_stringify now st)))
   = builtins /\
   length (rows (plotStructureTemplates (initPlotTemplates JSON_stringify now st)))
   = 8%nat) /\
  (rows (plotStructureTemplates st) <> [] ->
   initPlotTemplates JSON_stringify now st = st) /\
  (rows (plotStructureTemplates st) = [] ->
   (forall b, b ∈ builtins ->
      (length (rows_of_builtin b (run_seed JSON_stringify clock st)) <= 1)%nat) /\
   (clock <> [] ->
    map inserted_values
        (rows (plotStructureTemplates (run_seed JSON_stringify clock st)))
    = builtins)).
Proof.
  split; [done|]. split; [|split].
  - intros Hempty.
    destruct (initPlotTemplates_empty now st Hempty) as (-> & _).
    split; [apply seeded_rows_values, builtins_given|].
    by rewrite seeded_rows_length.
  - apply initPlotTemplates_nonempty.
  - intros Hempty.
    assert (forall first t0,
              map PlotStructureTemplate.templateType (seeded_rows builtins t0 first)
              = map InsertPlotStructureTemplate.templateType builtins) as Htypes.
    { intros first t0.
      rewrite <- (seeded_rows_values builtins t0 first builtins_given) at 2.
      rewrite <- list_fmap_compose. done. }
    destruct clock as [|t0 clock].
    + split; [|done]. intros b _. simpl.
      unfold rows_of_builtin. rewrite Hempty. simpl. lia.
    + simpl.
      destruct (initPlotTemplates_empty t0 st Hempty) as (Hrows & _).
      rewrite run_seed_nonempty by (rewrite Hrows; discriminate).
      split.
      * intros b _. unfold rows_of_builtin. rewrite Hrows.
        apply filter_key_length. rewrite Htypes. apply builtins_distinct.
      * intros _. rewrite Hrows. apply seeded_rows_values, builtins_given.
Qed.

End Seeding.

Lemma initPlotTemplates_idempotent_witness :
  map PlotStructureTemplate.templateType
      (Db.rows (Db.plotStructureTemplates
                  (Seed.run_seed (fun _ => EmptyString) [1000; 2000] Db.empty_store)))
  = ["freytag"; "hero_journey"; "three_act"; "story_circle"; "fichtean_curve";
     "save_the_cat"; "seven_point"; "freeform"].
Proof.
  destruct (initPlotTemplates_idempotent (fun _ => EmptyString) Db.empty_store 1000
              [1000; 2000]) as (_ & _ & _ & Hruns).
  destruct (Hruns eq_refl) as [_ Hcatalog].
  assert ([1000; 2000] <> []) as Hclock by discriminate.
  specialize (Hcatalog Hclock).
  apply (f_equal (map InsertPlotStructureTemplate.templateType)) in Hcatalog.
  rewrite <- list_fmap_compose in Hcatalog. exact Hcatalog.
Defined.

(** ** Materializing a template *)


Section Materialization.
Import Db DatabaseStorage Materializer.
Variable JSON_parse : string -> option Js.json.

#[local] Instance entry_order_le_total : Total entry_order_le.
Proof. intros a b. unfold entry_order_le. lia. Qed.

Lemma createPlotStructureSection_Ok v now st s st' :
  createPlotStructureSection v now st = (Ok s, st') ->
  stored_section (section_row v now (nextId (plotStructureSections st))) = Ok s /\
  PlotStructureSection.id s = nextId (plotStructureSections st) /\
  (PlotStructureSection.id s
   ∉ map PlotStructureSection.id (rows (plotStructureSections st))) /\
  st' = with_sections st
          (mkTable (rows (plotStructureSections st) ++ [s])
                   (nextId (plotStructureSections st) + 1)).
Proof.
  unfold createPlotStructureSection. intros H.
  destruct (insert _ _ _ _) as [r t] eqn:Hins. inversion H; subst; clear H.
  apply insert_Ok in Hins as (Hs & Hfresh & ->).
  destruct (stored_section_Ok _ _ Hs) as (Hid & _). simpl in Hid.
  split; [done|]. split; [done|]. split; [|done]. by rewrite Hid.
Qed.

Lemma createPlotStructureSection_Throw v now st e st' :
  createPlotStructureSection v now st = (Throw e, st') ->
  rows (plotStructureSections st') = rows (plotStructureSections st) /\
  plotStructures st' = plotStructures st /\
  plotStructureTemplates st' = plotStructureTemplates st.
Proof.
  unfold createPlotStructureSection. intros H.
  destruct (insert _ _ _ _) as [r t] eqn:Hins. inversion H; subst; clear H.
  apply insert_Throw in Hins. done.
Qed.

Lemma createPlotStructure_Ok v now st s st' :
  createPlotStructure v now st = (Ok s, st') ->
  s = structure_row v now (nextId (plotStructures st)) /\
  structure_ok s = true /\
  (PlotStructure.id s ∉ map PlotStructure.id (rows (plotStructures st))) /\
  st' = with_structures st
          (mkTable (rows (plotStructures st) ++ [s]) (nextId (plotStructures st) + 1)).
Proof.
  unfold createPlotStructure. intros H.
  destruct (insert _ _ _ _) as [r t] eqn:Hins. inversion H; subst; clear H.
  apply insert_Ok in Hins as (Hs & Hfresh & ->).
  apply stored_structure_Ok in Hs as [-> Hok].
  split; [done|]. split; [done|]. split; [|done]. done.
Qed.

Lemma createPlotStructure_Throw v now st e st' :
  createPlotStructure v now st = (Throw e, st') ->
  rows (plotStructures st') = rows (plotStructures st) /\
  plotStructureSections st' = plotStructureSections st /\
  plotStructureTemplates st' = plotStructureTemplates st.
Proof.
  unfold createPlotStructure. intros H.
  destruct (insert _ _ _ _) as [r t] eqn:Hins. inversion H; subst; clear H.
  apply insert_Throw in Hins. done.
Qed.

(** The loop appends the rows it returns to the section table, under keys
    that no earlier row has, and touches no other table.  The rows hold
    a prefix of the entries as the columns store them, all of them when
    nothing failed. *)
Lemma create_sections_spec plotStructureId entries now st created failure st' :
  create_sections plotStructureId entries now st = (created, failure, st') ->
  rows (plotStructureSections st') = rows (plotStructureSections st) ++ created /\
  plotStructures st' = plotStructures st /\
  plotStructureTemplates st' = plotStructureTemplates st /\
  Forall (fun s => PlotStructureSection.id s
                   ∉ map PlotStructureSection.id (rows (plotStructureSections st)))
         created /\
  Forall2 (stored_entry plotStructureId) created (take (length created) entries) /\
  (failure = None -> length created = length entries).
Proof.
  revert st created failure st'.
  induction entries as [|e rest IH]; intros st created failure st' H; simpl in H.
  - inversion H; subst. rewrite app_nil_r. repeat split; by constructor.
  - destruct (createPlotStructureSection _ now st) as [[s|err] st1] eqn:Hcreate.
    + destruct (create_sections plotStructureId rest now st1)
        as [[created1 failure1] st2] eqn:Hrest.
      inversion H; subst; clear H.
      apply createPlotStructureSection_Ok in Hcreate as (Hs & _ & Hfresh & ->).
      apply IH in Hrest as (Hrows & Hstructures & Htemplates & Hkeys & Hall & Hlen).
      destruct (stored_section_Ok _ _ Hs)
        as (_ & Hstructure & Hkey & Htitle & Hcontent & Horder & _).
      simpl in *. rewrite Hrows, <- app_assoc. repeat split; try done.
      * constructor; [done|].
        eapply Forall_impl; [exact Hkeys|]. simpl. intros x Hx Hin. apply Hx.
        rewrite fmap_app. apply elem_of_app. by left.
      * constructor; [|done]. by repeat split.
      * intros Hnone. f_equal. by apply Hlen.
    + inversion H; subst; clear H.
      apply createPlotStructureSection_Throw in Hcreate as (Hrows & ? & ?).
      rewrite Hrows, app_nil_r. simpl. repeat split; try done; by constructor.
Qed.

(** Deleting the created sections one by one removes the rows that have
    one of their keys. *)
Lemma delete_created_sections created st :
  let st' :=
    foldl (fun st s =>
             snd (deletePlotStructureSection (PlotStructureSection.id s) st))
          st created in
  rows (plotStructureSections st')
  = filter (fun r => PlotStructureSection.id r ∉ map PlotStructureSection.id created)
           (rows (plotStructureSections st)) /\
  plotStructures st' = plotStructures st /\
  plotStructureTemplates st' = plotStructureTemplates st.
Proof.
  revert st. induction created as [|c cs IH]; intros st; simpl.
  - split; [|done]. symmetry. apply filter_Forall_id.
    apply Forall_forall. intros r _. apply not_elem_of_nil.
  - destruct (IH (snd (deletePlotStructureSection (PlotStructureSection.id c) st)))
      as (Hrows & Hstructures & Htemplates).
    simpl in *. rewrite Hrows. split; [|done].
    rewrite list_filter_filter. apply list_filter_iff.
    intros r. rewrite not_elem_of_cons. tauto.
Qed.

(** The roll-back undoes an attempt: it removes the instance and the
    sections that the attempt appended. *)
Lemma roll_back_restores st0 instance created st2 :
  rows (plotStructures st2) = rows (plotStructures st0) ++ [instance] ->
  (PlotStructure.id instance ∉ map PlotStructure.id (rows (plotStructures st0))) ->
  rows (plotStructureSections st2) = rows (plotStructureSections st0) ++ created ->
  Forall (fun s => PlotStructureSection.id s
                   ∉ map PlotStructureSection.id (rows (plotStructureSections st0)))
         created ->
  plotStructureTemplates st2 = plotStructureTemplates st0 ->
  rows (plotStructures (roll_back instance created st2)) = rows (plotStructures st0) /\
  rows (plotStructureSections (roll_back instance created st2))
  = rows (plotStructureSections st0) /\
  plotStructureTemplates (roll_back instance created st2) = plotStructureTemplates st0.
Proof.
  intros Hstructures Hfresh Hsections Hkeys Htemplates. unfold roll_back.
  destruct (delete_created_sections created st2) as (Hrows & Hs & Ht).
  simpl in *. rewrite Hs, Ht, Hrows, Hstructures, Hsections. repeat split; [| |done].
  - rewrite filter_app, filter_Forall_id.
    + rewrite filter_cons, decide_False, filter_nil, app_nil_r; [done|]. by intros [].
    + apply Forall_forall. intros r Hr Heq. apply Hfresh. rewrite <- Heq.
      apply list_elem_of_fmap. eauto.
  - rewrite filter_app, filter_Forall_id, filter_Forall_nil, app_nil_r; [done| |].
    + apply Forall_forall. intros c Hc Hnot. apply Hnot.
      apply list_elem_of_fmap. eauto.
    + apply Forall_forall. intros r Hr Hin.
      apply list_elem_of_fmap in Hin as (c & Hid & Hc).
      rewrite Forall_forall in Hkeys. apply (Hkeys c Hc).
      rewrite <- Hid. apply list_elem_of_fmap. eauto.
Qed.

(** C2: whenever [instantiate] fails (the template is missing or
    malformed, or the store rejects the instance or one of the sections),
    the rows of the instance table and of the section table are those
    from before the attempt: no instance and no section of the attempt
    persists. *)
Theorem instantiate_atomic (st : store) (projectId templateId : Z) (now : timestamp)
  (err : error) (st' : store) :
  instantiate JSON_parse projectId templateId now st = (Throw err, st') ->
  rows (plotStructures st') = rows (plotStructures st) /\
  rows (plotStructureSections st') = rows (plotStructureSections st) /\
  plotStructureTemplates st' = plotStructureTemplates st.
Proof.
  unfold instantiate. intros H.
  destruct (getPlotStructureTemplate st templateId) as [template|];
    [|by inversion H].
  destruct (parseSections JSON_parse _) as [entries|]; [|by inversion H].
  destruct (createPlotStructure _ now st) as [[instance|e1] st1] eqn:Hcreate.
  - destruct (create_sections _ _ now st1) as [[created failure] st2] eqn:Hloop.
    destruct failure as [e2|]; [|discriminate].
    inversion H; subst; clear H.
    apply createPlotStructure_Ok in Hcreate as (_ & _ & Hfresh & ->).
    apply create_sections_spec in Hloop as (Hrows & Hstructures & Htemplates & Hkeys & _).
    simpl in *. apply roll_back_restores; try done. by rewrite Hstructures.
  - inversion H; subst; clear H.
    by apply createPlotStructure_Throw in Hcreate as (? & -> & ?).
Qed.

(** Where the materializer reads a section list, the template selector
    reads the same list of entries. *)
Lemma parseSections_selector template entries :
  parseSections JSON_parse (PlotStructureTemplate.sections template) = Some entries ->
  exists items,
    parseTemplateSections JSON_parse template = Js.JArr items /\
    mapM entry_of_json items = Some entries.
Proof.
  unfold parseSections, parseTemplateSections.
  destruct (PlotStructureTemplate.sections template) as [| | |text|items|]; simpl;
    try discriminate.
  - destruct (JSON_parse text) as [[| | | |items|]|]; try discriminate. eauto.
  - eauto.
Qed.






End Materialization.


(** The scenario of the specification: the Three Act Structure applied to
    project 42 gives an instance bound to the template and nine sections,
    listed in the orders 1 to 9, all with empty content; after the section
    with key [act1_setup] is edited, it alone has content. *)
Example three_act_scenario :
  exists instance st',
    Materializer.instantiate Scenario.no_parse 42 1 2000 Scenario.three_act_catalog
    = (Ok instance, st') /\
    PlotStructure.templateId instance = 1 /\
    map (fun s => (PlotStructureSection.order s, PlotStructureSection.content s))
        (DatabaseStorage.getPlotStructureSections st' (PlotStructure.id instance))
    = map (fun o => (o, Some EmptyString)) [1; 2; 3; 4; 5; 6; 7; 8; 9] /\
    exists edited st'',
      DatabaseStorage.updatePlotStructureSection 1
        (PartialPlotStructureSection.mk None None None None
           (Some (Some "Opening scene.")) None None None) 3000 st'
      = (Ok (Some edited), st'') /\
      PlotStructureSection.sectionKey edited = "act1_setup" /\
      map PlotStructureSection.content
          (DatabaseStorage.getPlotStructureSections st'' (PlotStructure.id instance))
      = Some "Opening scene." :: replicate 8 (Some EmptyString).
Proof.
  eexists _, _. split; [by vm_compute|]. split; [by vm_compute|].
  split; [by vm_compute|].
  eexists _, _. split; [by vm_compute|]. by vm_compute.
Qed.

Lemma instantiate_atomic_witness :
  exists st',
    Materializer.instantiate Scenario.no_parse 42 1 2000 Scenario.overlong_key_catalog
    = (Throw Db.ValueTooLong, st') /\
    Db.rows (Db.plotStructures st') = [] /\
    Db.rows (Db.plotStructureSections st') = [].
Proof.
  eexists. split; [vm_compute; reflexivity|].
  destruct (instantiate_atomic Scenario.no_parse Scenario.overlong_key_catalog 42 1 2000
              Db.ValueTooLong
              (snd (Materializer.instantiate Scenario.no_parse 42 1 2000
                      Scenario.overlong_key_catalog)))
    as (Hstructures & Hsections & _).
  - vm_compute. reflexivity.
  - split; [exact Hstructures | exact Hsections].
Defined.

(** * Further properties *)

(** ** Creating, fetching, updating and deleting rows *)

Section StorageRoundTrips.
Import Db DatabaseStorage.



Lemma stored_structure_row_id (v : InsertPlotStructure.t) (now : timestamp) (i : Z)
  (r : PlotStructure.t) :
  stored_structure (structure_row v now i) = Ok r -> PlotStructure.id r = i.
Proof. intros Hr. by apply stored_structure_Ok in Hr as [-> _]. Qed.

Lemma stored_section_row_id (v : InsertPlotStructureSection.t) (now : timestamp) (i : Z)
  (r : PlotStructureSection.t) :
  stored_section (section_row v now i) = Ok r -> PlotStructureSection.id r = i.
Proof. intros Hr. by apply stored_section_Ok in Hr as (-> & _). Qed.

(** X1: a created structure is stored under a key that was free, with the
    values it was created with ([order] 0 when none was given); it can be
    fetched at once, it comes last in the listing of its project, and no
    other structure, listing or table changes.  The endpoint answers 201
    with it for a body that passes the schema. *)
Theorem createPlotStructure_lookup (st : store) (v : InsertPlotStructure.t)
  (now : timestamp) (s : PlotStructure.t) (st' : store) :
  createPlotStructure v now st = (Ok s, st') ->
  getPlotStructure st (PlotStructure.id s) = None /\
  getPlotStructure st' (PlotStructure.id s) = Some s /\
  (forall j, j <> PlotStructure.id s -> getPlotStructure st' j = getPlotStructure st j) /\
  s = structure_row v now (PlotStructure.id s) /\
  PlotStructure.order s = default (Some 0) (InsertPlotStructure.order v) /\
  getProjectPlotStructures st' (InsertPlotStructure.projectId v)
  = getProjectPlotStructures st (InsertPlotStructure.projectId v) ++ [s] /\
  (forall projectId, projectId <> InsertPlotStructure.projectId v ->
     getProjectPlotStructures st' projectId = getProjectPlotStructures st projectId) /\
  plotStructureSections st' = plotStructureSections st /\
  plotStructureTemplates st' = plotStructureTemplates st /\
  (forall reqBody, Zod.insertPlotStructureSchema reqBody = Some v ->
     PlotRoutes.post_plot_structure reqBody now st
     = (PlotRoutes.mkResponse 201 (PlotRoutes.Plain (Routes.Structure s)), st')).
Proof.
  intros Hcreate.
  assert (Hcreate' := Hcreate).
  unfold createPlotStructure in Hcreate'.
  destruct (insert _ _ _ _) as [r t] eqn:Hins. inversion Hcreate'; subst; clear Hcreate'.
  pose proof (insert_lookup PlotStructure.id stored_structure (structure_row v now)
                _ _ _ (stored_structure_row_id v now) Hins)
    as (Hid & Hfree & Hfound & Hothers).
  apply insert_Ok in Hins as (Hs & _ & ->).
  apply stored_structure_Ok in Hs as [Hs _].
  unfold getPlotStructure, getProjectPlotStructures. simpl.
  rewrite Hfree, Hfound. repeat split; try done.
  - intros j Hj. by rewrite Hothers.
  - by rewrite Hs at 1; rewrite Hid.
  - by rewrite Hs.
  - rewrite filter_app, filter_cons, decide_True; [done|]. by rewrite Hs.
  - intros projectId Hp.
    rewrite filter_app, filter_cons, decide_False, filter_nil, app_nil_r; [done|].
    by rewrite Hs.
  - intros reqBody Hbody. unfold PlotRoutes.post_plot_structure.
    by rewrite Hbody, Hcreate.
Qed.

Lemma createPlotStructure_lookup_witness :
  exists s st',
    createPlotStructure
      (InsertPlotStructure.mk 42 99 "Loose plot" None None None) 3000
      Scenario.two_structures = (Ok s, st') /\
    getPlotStructure st' 3 = Some s /\
    map PlotStructure.id (getProjectPlotStructures st' 42) = [1; 2; 3].
Proof.
  eexists _, _. split; [vm_compute; reflexivity|].
  destruct (createPlotStructure_lookup Scenario.two_structures
              (InsertPlotStructure.mk 42 99 "Loose plot" None None None) 3000
              (structure_row (InsertPlotStructure.mk 42 99 "Loose plot" None None None)
                 3000 3)
              (snd (createPlotStructure
                      (InsertPlotStructure.mk 42 99 "Loose plot" None None None) 3000
                      Scenario.two_structures)))
    as (_ & Hfound & _ & _ & _ & Hlisting & _).
  - vm_compute. reflexivity.
  - split; [exact Hfound|]. vm_compute. reflexivity.
Defined.

(** X2: a created section is stored under a key that was free, with the
    values it was created with, the empty content when none was given,
    and the section key as [section_key varchar(100)] stores it: as it is
    when it has at most 100 characters, cut to 100 characters when what
    exceeds them is spaces.  It can be fetched at once and is listed for
    its instance beside the sections that were listed before; nothing
    checks that the instance exists, and nothing else changes. *)
Theorem createPlotStructureSection_lookup (st : store) (v : InsertPlotStructureSection.t)
  (now : timestamp) (s : PlotStructureSection.t) (st' : store) :
  createPlotStructureSection v now st = (Ok s, st') ->
  getPlotStructureSection st (PlotStructureSection.id s) = None /\
  getPlotStructureSection st' (PlotStructureSection.id s) = Some s /\
  (forall j, j <> PlotStructureSection.id s ->
     getPlotStructureSection st' j = getPlotStructureSection st j) /\
  stored_section (section_row v now (PlotStructureSection.id s)) = Ok s /\
  varchar 100 (InsertPlotStructureSection.sectionKey v)
  = Some (PlotStructureSection.sectionKey s) /\
  (fits_varchar 100 (InsertPlotStructureSection.sectionKey v) = true ->
   s = section_row v now (PlotStructureSection.id s)) /\
  PlotStructureSection.plotStructureId s = InsertPlotStructureSection.plotStructureId v /\
  PlotStructureSection.title s = InsertPlotStructureSection.title v /\
  PlotStructureSection.order s = InsertPlotStructureSection.order v /\
  PlotStructureSection.content s
  = default (Some EmptyString) (InsertPlotStructureSection.content v) /\
  (forall plotStructureId r,
     r ∈ getPlotStructureSections st' plotStructureId <->
     r ∈ getPlotStructureSections st plotStructureId
     \/ (r = s /\ plotStructureId = InsertPlotStructureSection.plotStructureId v)) /\
  plotStructures st' = plotStructures st /\
  plotStructureTemplates st' = plotStructureTemplates st.
Proof.
  intros Hcreate. unfold createPlotStructureSection in Hcreate.
  destruct (insert _ _ _ _) as [r t] eqn:Hins. inversion Hcreate; subst; clear Hcreate.
  pose proof (insert_lookup PlotStructureSection.id stored_section (section_row v now)
                _ _ _ (stored_section_row_id v now) Hins)
    as (Hid & Hfree & Hfound & Hothers).
  apply insert_Ok in Hins as (Hs & _ & ->).
  destruct (stored_section_Ok _ _ Hs)
    as (_ & Hstructure & Hkey & Htitle & Hcontent & Horder & Hcreated & Hupdated & _).
  simpl in Hstructure, Hkey, Htitle, Hcontent, Horder, Hcreated, Hupdated.
  unfold getPlotStructureSection, getPlotStructureSections. simpl.
  rewrite Hfree, Hfound. repeat split; try done.
  - intros j Hj. by rewrite Hothers.
  - by rewrite Hid.
  - intros Hfits. rewrite (varchar_id _ _ Hfits) in Hkey. injection Hkey as Hkey.
    destruct s. simpl in *. unfold section_row. by subst.
  - rewrite !merge_sort_Permutation, !list_elem_of_filter, elem_of_app,
      list_elem_of_singleton.
    intros [Hp [Hr| ->]]; [by left|right]. split; [done|]. by rewrite Hstructure in Hp.
  - rewrite !merge_sort_Permutation, !list_elem_of_filter, elem_of_app,
      list_elem_of_singleton.
    intros [[Hp Hr]|[-> ->]]; [tauto|]. split; [done|tauto].
Qed.

Lemma createPlotStructureSection_lookup_witness :
  exists s st',
    createPlotStructureSection
      (InsertPlotStructureSection.mk 77 "stray" "Stray" None 1) 3000
      Scenario.structure_with_sections = (Ok s, st') /\
    getPlotStructure st' 77 = None /\
    getPlotStructureSections st' 77 = [s].
Proof.
  eexists _, _. split; [vm_compute; reflexivity|].
  destruct (createPlotStructureSection_lookup Scenario.structure_with_sections
              (InsertPlotStructureSection.mk 77 "stray" "Stray" None 1) 3000
              (section_row (InsertPlotStructureSection.mk 77 "stray" "Stray" None 1)
                 3000 3)
              (snd (createPlotStructureSection
                      (InsertPlotStructureSection.mk 77 "stray" "Stray" None 1) 3000
                      Scenario.structure_with_sections)))
    as (_ & Hfound & _).
  - vm_compute. reflexivity.
  - split; vm_compute; reflexivity.
Defined.



(** X4: after an accepted update of a stored section, a fetch by the id
    the section now has returns the row the update returned; when the
    payload moved the section to another id, the old id holds nothing;
    every other id holds what it held.  So an edit is read back as it was
    written. *)
Theorem updatePlotStructureSection_lookup (st : store) (id : Z)
  (p : PartialPlotStructureSection.t) (now : timestamp)
  (s s' : PlotStructureSection.t) (st' : store) :
  getPlotStructureSection st id = Some s ->
  updatePlotStructureSection id p now st = (Ok (Some s'), st') ->
  PlotStructureSection.id s' = default id (PartialPlotStructureSection.id p) /\
  getPlotStructureSection st' (PlotStructureSection.id s') = Some s' /\
  (PlotStructureSection.id s' <> id -> getPlotStructureSection st' id = None) /\
  (forall j, j <> id -> j <> PlotStructureSection.id s' ->
     getPlotStructureSection st' j = getPlotStructureSection st j).
Proof. apply updatePlotStructureSection_found. Qed.

Lemma updatePlotStructureSection_lookup_witness :
  exists s' st',
    updatePlotStructureSection 1
      (PartialPlotStructureSection.mk None None None None
         (Some (Some "Opening scene.")) None None None)
      5000 Scenario.structure_with_sections = (Ok (Some s'), st') /\
    PlotStructureSection.content <$> getPlotStructureSection st' 1
    = Some (Some "Opening scene.").
Proof.
  eexists _, _. split; [vm_compute; reflexivity|].
  destruct (updatePlotStructureSection_lookup Scenario.structure_with_sections 1
              (PartialPlotStructureSection.mk None None None None
                 (Some (Some "Opening scene.")) None None None) 5000
              (PlotStructureSection.mk 1 1 "act1_setup" "Setup" (Some EmptyString) 1
                 (Some 1001) (Some 1001))
              (PlotStructureSection.mk 1 1 "act1_setup" "Setup"
                 (Some "Opening scene.") 1 (Some 1001) (Some 5000))
              (snd (updatePlotStructureSection 1
                      (PartialPlotStructureSection.mk None None None None
                         (Some (Some "Opening scene.")) None None None)
                      5000 Scenario.structure_with_sections)))
    as (_ & Hfound & _).
  - vm_compute. reflexivity.
  - vm_compute. reflexivity.
  - exact (f_equal (fmap PlotStructureSection.content) Hfound).
Defined.

(** X5: deleting a section under an id of the [integer] range removes
    the rows with that id and nothing else: the id holds nothing
    afterwards, every other id holds what it held, a listing loses exactly
    the rows with that id, and the other tables are untouched; the method
    returns [true] whether or not a row was there.  The endpoint answers
    204 in both cases, and 500, with the store as it was, for a number
    outside the range. *)
Theorem deletePlotStructureSection_frame (st : store) (id : Z) :
  let st' := snd (deletePlotStructureSection id st) in
  (int4 id = true ->
   fst (deletePlotStructureSection id st) = true /\
   getPlotStructureSection st' id = None /\
   (forall j, j <> id -> getPlotStructureSection st' j = getPlotStructureSection st j) /\
   (forall plotStructureId r,
      r ∈ getPlotStructureSections st' plotStructureId <->
      r ∈ getPlotStructureSections st plotStructureId
      /\ PlotStructureSection.id r <> id) /\
   plotStructures st' = plotStructures st /\
   plotStructureTemplates st' = plotStructureTemplates st) /\
  (forall param, Js.parseInt param = Some id ->
     PlotRoutes.delete_plot_structure_section param st
     = if int4 id then (Routes.mkResponse 204 Routes.NoBody, st')
       else (Routes.mkResponse 500
               (Routes.Message "Failed to delete plot structure section"), st)).
Proof.
  destruct (delete_lookup PlotStructureSection.id id (plotStructureSections st))
    as [Hgone Hothers].
  simpl. split.
  - intros _. unfold getPlotStructureSection, getPlotStructureSections. simpl.
    change (mkTable _ _)
      with (snd (delete PlotStructureSection.id id (plotStructureSections st))).
    rewrite Hgone. split; [done|]. split; [done|].
    split; [intros j Hj; by rewrite Hothers|].
    split; [|done].
    intros plotStructureId r.
    rewrite !merge_sort_Permutation, !list_elem_of_filter. tauto.
  - intros param Hparam.
    unfold PlotRoutes.delete_plot_structure_section, Routes.with_id.
    rewrite Hparam. by destruct (int4 id).
Qed.

Lemma deletePlotStructureSection_frame_witness :
  Routes.status
    (fst (PlotRoutes.delete_plot_structure_section "999"
            Scenario.structure_with_sections)) = 204 /\
  getPlotStructureSection
    (snd (deletePlotStructureSection 1 Scenario.structure_with_sections)) 1 = None.
Proof.
  split.
  - destruct (deletePlotStructureSection_frame Scenario.structure_with_sections 999)
      as (_ & Hroute).
    rewrite (Hroute "999" eq_refl). reflexivity.
  - destruct (deletePlotStructureSection_frame Scenario.structure_with_sections 1)
      as (Hstorage & _).
    destruct (Hstorage eq_refl) as (_ & Hgone & _). exact Hgone.
Defined.

End StorageRoundTrips.

(** ** Fetching by id *)

Section FetchById.
Import Db DatabaseStorage.

(** X6: for an id of the [integer] range, [GET /api/plot-structures/:id]
    answers 404 exactly when no structure has the id and 200 with a stored
    structure of that id otherwise, and [GET /api/plot-templates/:id] does
    the same for templates.  A number outside the range is answered with
    500, and so is a parameter of ASCII characters in which [parseInt]
    reads no number.  The store is never changed. *)
Theorem get_by_id_status (st : store) (param : string) :
  (forall id, Js.parseInt param = Some id -> int4 id = true ->
     (id ∉ map PlotStructure.id (rows (plotStructures st)) ->
      PlotRoutes.get_plot_structure param st
      = (Routes.mkResponse 404 (Routes.Message "Plot structure not found"), st)) /\
     (id ∈ map PlotStructure.id (rows (plotStructures st)) ->
      exists s, s ∈ rows (plotStructures st) /\ PlotStructure.id s = id /\
        PlotRoutes.get_plot_structure param st
        = (Routes.json (Routes.Structure s), st)) /\
     (id ∉ map PlotStructureTemplate.id (rows (plotStructureTemplates st)) ->
      PlotRoutes.get_plot_template param st
      = (PlotRoutes.mkResponse 404
           (PlotRoutes.Plain (Routes.Message "Plot structure template not found")), st)) /\
     (id ∈ map PlotStructureTemplate.id (rows (plotStructureTemplates st)) ->
      exists t, t ∈ rows (plotStructureTemplates st) /\ PlotStructureTemplate.id t = id /\
        PlotRoutes.get_plot_template param st
        = (PlotRoutes.mkResponse 200 (PlotRoutes.Template t), st))) /\
  (forall id, Js.parseInt param = Some id -> int4 id = false ->
     PlotRoutes.get_plot_structure param st
     = (Routes.mkResponse 500 (Routes.Message "Failed to fetch plot structure"), st) /\
     PlotRoutes.get_plot_template param st
     = (PlotRoutes.mkResponse 500
          (PlotRoutes.Plain (Routes.Message "Failed to fetch plot structure template")),
        st)) /\
  (Js.is_ascii param = true -> Js.parseInt param = None ->
   PlotRoutes.get_plot_structure param st
   = (Routes.mkResponse 500 (Routes.Message "Failed to fetch plot structure"), st) /\
   PlotRoutes.get_plot_template param st
   = (PlotRoutes.mkResponse 500
        (PlotRoutes.Plain (Routes.Message "Failed to fetch plot structure template")),
      st)).
Proof.
  split; [|split].
  - intros id Hparam Hrange.
    unfold PlotRoutes.get_plot_structure, PlotRoutes.get_plot_template, Routes.with_id.
    rewrite Hparam, Hrange. unfold getPlotStructure, getPlotStructureTemplate.
    split; [|split; [|split]].
    + intros Hnotin. apply head_select_by_id_None in Hnotin. by rewrite Hnotin.
    + intros Hin.
      destruct (head (select_by_id PlotStructure.id id (plotStructures st)))
        as [s|] eqn:Hhead.
      * apply head_select_by_id in Hhead as [Hs Hid]. eauto.
      * by apply head_select_by_id_None in Hhead.
    + intros Hnotin. apply head_select_by_id_None in Hnotin. by rewrite Hnotin.
    + intros Hin.
      destruct (head (select_by_id PlotStructureTemplate.id id
                        (plotStructureTemplates st))) as [t|] eqn:Hhead.
      * apply head_select_by_id in Hhead as [Ht Hid]. eauto.
      * by apply head_select_by_id_None in Hhead.
  - intros id Hparam Hrange.
    unfold PlotRoutes.get_plot_structure, PlotRoutes.get_plot_template, Routes.with_id.
    by rewrite Hparam, Hrange.
  - intros _ Hparam.
    unfold PlotRoutes.get_plot_structure, PlotRoutes.get_plot_template, Routes.with_id.
    by rewrite Hparam.
Qed.

Lemma get_by_id_status_witness :
  Routes.status (fst (PlotRoutes.get_plot_structure "7" Scenario.two_structures)) = 404 /\
  Routes.status (fst (PlotRoutes.get_plot_structure "2147483648" Scenario.two_structures))
  = 500 /\
  Routes.status (fst (PlotRoutes.get_plot_structure "abc" Scenario.two_structures)) = 500.
Proof.
  destruct (get_by_id_status Scenario.two_structures "7") as (Hnumber & _).
  destruct (Hnumber 7 eq_refl eq_refl) as (Hmissing & _).
  destruct (get_by_id_status Scenario.two_structures "2147483648") as (_ & Hrange & _).
  destruct (Hrange 2147483648 eq_refl eq_refl) as (Hbeyond & _).
  destruct (get_by_id_status Scenario.two_structures "abc") as (_ & _ & Hnan).
  destruct (Hnan eq_refl eq_refl) as (Hstatus & _).
  split; [|split].
  - rewrite Hmissing; [reflexivity|].
    apply (bool_decide_unpack _). vm_compute. exact I.
  - by rewrite Hbeyond.
  - by rewrite Hstatus.
Defined.

End FetchById.

(** ** The constraints of the schema are kept *)

Section TableInvariants.
Context {R : Type} (row_id : R -> Z) (stored : R -> Db.result R).
Implicit Types (t : Db.table R) (r : R) (i : Z).

Lemma insert_unique mk t :
  (forall i r, stored (mk i) = Ok r -> row_id r = i) ->
  Invariant.unique_keys row_id t ->
  Invariant.unique_keys row_id (snd (Db.insert row_id stored mk t)).
Proof.
  unfold Invariant.unique_keys, Db.insert. intros Hmk Hnd.
  destruct (stored (mk (Db.nextId t))) as [r|e] eqn:Hstored; simpl; [|done].
  destruct (Db.id_taken row_id (Db.nextId t) t) eqn:Htaken; simpl; [done|].
  rewrite map_app. simpl. rewrite (Hmk _ _ Hstored).
  apply NoDup_app. split; [done|]. split; [|apply NoDup_singleton].
  intros x Hx Hx'. apply list_elem_of_singleton in Hx'. subst x.
  apply id_taken_spec in Hx. congruence.
Qed.

(** An accepted update moves the rows of key [i] to a key that is free. *)
Lemma update_key_free i k set t updated t' :
  (forall r, row_id r = i -> row_id (set r) = k) ->
  Db.update row_id i set t = (Ok updated, t') ->
  k <> i -> i ∈ map row_id (Db.rows t) -> k ∉ map row_id (Db.rows t).
Proof.
  intros Hkey Hupd Hki Hi Hk. unfold Db.update in Hupd.
  destruct (Db.key_conflict row_id i set t) eqn:Hc; [discriminate|].
  apply list_elem_of_fmap in Hi as (r & Hri & Hr).
  apply not_true_iff_false in Hc. apply Hc.
  unfold Db.key_conflict. apply existsb_exists. exists r.
  split; [by apply list_elem_of_In|].
  rewrite (Hkey r (eq_sym Hri)).
  rewrite bool_decide_eq_true_2 by done.
  rewrite bool_decide_eq_false_2 by done. simpl.
  by apply id_taken_spec.
Qed.

Lemma update_unique i k set t :
  (forall r, row_id r = i -> row_id (set r) = k) ->
  Invariant.unique_keys row_id t ->
  Invariant.unique_keys row_id (snd (Db.update row_id i set t)).
Proof.
  unfold Invariant.unique_keys. intros Hkey Hnd.
  destruct (Db.update row_id i set t) as [[updated|e] t'] eqn:Hupd.
  - pose proof (update_key_free i k set t updated t' Hkey Hupd) as Hfree.
    apply update_Ok in Hupd as (_ & Hrows & _). simpl. rewrite Hrows.
    assert (map row_id
              (map (fun r => if decide (row_id r = i) then set r else r) (Db.rows t))
            = (fun x => if decide (x = i) then k else x) <$> map row_id (Db.rows t))
      as ->.
    { rewrite <- !list_fmap_compose. apply list_fmap_ext. intros n r _. simpl.
      case_decide as Hr; [by apply Hkey|done]. }
    apply NoDup_fmap_2_strong; [|done].
    intros x y Hx Hy. repeat case_decide; subst; try done.
    + intros ->. destruct (decide (y = i)) as [->|Hne]; [done|].
      exfalso. by apply (Hfree Hne).
    + intros <-. destruct (decide (x = i)) as [->|Hne]; [done|].
      exfalso. by apply (Hfree Hne).
  - apply update_Throw in Hupd. by subst.
Qed.

Lemma delete_unique i t :
  Invariant.unique_keys row_id t ->
  Invariant.unique_keys row_id (snd (Db.delete row_id i t)).
Proof.
  unfold Invariant.unique_keys, Db.delete. simpl. intros Hnd.
  induction (Db.rows t) as [|r rows IH]; [done|].
  simpl in Hnd. apply NoDup_cons in Hnd as [Hr Hnd].
  rewrite filter_cons. case_decide; [|by apply IH].
  simpl. apply NoDup_cons. split; [|by apply IH].
  intros Hin. apply Hr. apply list_elem_of_fmap in Hin as (r' & -> & Hr').
  apply list_elem_of_filter in Hr' as [_ Hr']. apply list_elem_of_fmap. eauto.
Qed.

(** With a primary key, a stored row is the one found under its id. *)
Lemma unique_lookup t r :
  Invariant.unique_keys row_id t -> r ∈ Db.rows t ->
  Db.select_by_id row_id (row_id r) t = [r].
Proof.
  unfold Invariant.unique_keys, Db.select_by_id. intros Hnd Hr.
  induction (Db.rows t) as [|r0 rows IH]; [by apply elem_of_nil in Hr|].
  simpl in Hnd. apply NoDup_cons in Hnd as [Hr0 Hnd].
  rewrite filter_cons. apply elem_of_cons in Hr as [->|Hr].
  - rewrite decide_True by done. f_equal.
    apply filter_Forall_nil, Forall_forall. intros x Hx Heq.
    apply Hr0. rewrite <- Heq. apply list_elem_of_fmap. eauto.
  - rewrite decide_False; [by apply IH|].
    intros Heq. apply Hr0. rewrite Heq. apply list_elem_of_fmap. eauto.
Qed.




End TableInvariants.

Section StoreInvariants.
Import Db DatabaseStorage Invariant.

Lemma stored_template_row_id (v : InsertPlotStructureTemplate.t) (now : timestamp)
  (i : Z) (r : PlotStructureTemplate.t) :
  stored_template (template_row v now i) = Ok r -> PlotStructureTemplate.id r = i.
Proof. intros Hr. by apply stored_template_Ok in Hr as (-> & _). Qed.

Lemma snd_createPlotStructureTemplate v now st :
  snd (createPlotStructureTemplate v now st)
  = with_templates st (snd (insert PlotStructureTemplate.id stored_template
                              (template_row v now) (plotStructureTemplates st))).
Proof. unfold createPlotStructureTemplate. by destruct (insert _ _ _ _). Qed.

Lemma snd_createPlotStructure v now st :
  snd (createPlotStructure v now st)
  = with_structures st (snd (insert PlotStructure.id stored_structure
                               (structure_row v now) (plotStructures st))).
Proof. unfold createPlotStructure. by destruct (insert _ _ _ _). Qed.

Lemma snd_createPlotStructureSection v now st :
  snd (createPlotStructureSection v now st)
  = with_sections st (snd (insert PlotStructureSection.id stored_section
                             (section_row v now) (plotStructureSections st))).
Proof. unfold createPlotStructureSection. by destruct (insert _ _ _ _). Qed.

(** An update leaves the store as it was, or runs the statement on the
    values as the columns store them. *)
Lemma snd_updatePlotStructureTemplate i p now st :
  snd (TemplateCatalog.updatePlotStructureTemplate i p now st) = st \/
  exists p',
    TemplateCatalog.stored_template_update p = Ok p' /\
    snd (TemplateCatalog.updatePlotStructureTemplate i p now st)
    = with_templates st (snd (update PlotStructureTemplate.id i
                                (TemplateCatalog.set_template p' now)
                                (plotStructureTemplates st))).
Proof.
  unfold TemplateCatalog.updatePlotStructureTemplate.
  destruct (TemplateCatalog.stored_template_update p) as [p'|e]; [|by left].
  right. exists p'. split; [done|]. by destruct (update _ _ _ _) as [[?|?] ?].
Qed.

Lemma snd_updatePlotStructure i p now st :
  snd (updatePlotStructure i p now st) = st \/
  (stored_structure_update p = Ok p /\
   snd (updatePlotStructure i p now st)
   = with_structures st (snd (update PlotStructure.id i
                                (set_structure p now) (plotStructures st)))).
Proof.
  unfold updatePlotStructure.
  destruct (stored_structure_update p) as [p'|e] eqn:Hp; [|by left].
  apply stored_structure_update_Ok in Hp as Hp'. destruct Hp' as [-> _].
  right. split; [done|]. by destruct (update _ _ _ _) as [[?|?] ?].
Qed.

Lemma snd_updatePlotStructureSection i p now st :
  snd (updatePlotStructureSection i p now st) = st \/
  exists p',
    stored_section_update p = Ok p' /\
    snd (updatePlotStructureSection i p now st)
    = with_sections st (snd (update PlotStructureSection.id i
                               (set_section p' now) (plotStructureSections st))).
Proof.
  unfold updatePlotStructureSection.
  destruct (stored_section_update p) as [p'|e]; [|by left].
  right. exists p'. split; [done|]. by destruct (update _ _ _ _) as [[?|?] ?].
Qed.

Lemma stored_template_update_Ok (p p' : TemplateCatalog.Partial) :
  TemplateCatalog.stored_template_update p = Ok p' ->
  TemplateCatalog.id p' = TemplateCatalog.id p /\
  forall now r, template_ok r = true ->
    template_ok (TemplateCatalog.set_template p' now r) = true.
Proof.
  unfold TemplateCatalog.stored_template_update.
  destruct (int4_set _); [|done].
  destruct (TemplateCatalog.templateType p) as [k|] eqn:Hkey.
  - destruct (varchar 50 k) as [k'|] eqn:Hvar; [|done]. intros [= <-].
    split; [done|]. intros now r _. unfold template_ok. simpl.
    by apply (varchar_fits 50 k k' ltac:(lia)).
  - intros [= <-]. split; [done|]. intros now r Hr.
    unfold template_ok in *. simpl. by rewrite Hkey.
Qed.

Lemma store_wf_empty : store_wf empty_store.
Proof. repeat split; constructor. Qed.

(** X7: the constraints of the schema (unique ids, values that fit their
    columns) are kept by every method of [DatabaseStorage] that writes a
    plot-structure table: creating, updating (also with a payload that
    carries an id) and deleting templates, structures and sections.
    Under them a stored row is the one fetched under its id. *)
Theorem store_wf_preserved (st : store) (now : timestamp) :
  store_wf st ->
  (forall v, store_wf (snd (createPlotStructureTemplate v now st))) /\
  (forall i p, store_wf (snd (TemplateCatalog.updatePlotStructureTemplate i p now st))) /\
  (forall i, store_wf (snd (TemplateCatalog.deletePlotStructureTemplate i st))) /\
  (forall v, store_wf (snd (createPlotStructure v now st))) /\
  (forall i p, store_wf (snd (updatePlotStructure i p now st))) /\
  (forall i, store_wf (snd (deletePlotStructure i st))) /\
  (forall v, store_wf (snd (createPlotStructureSection v now st))) /\
  (forall i p, store_wf (snd (updatePlotStructureSection i p now st))) /\
  (forall i, store_wf (snd (deletePlotStructureSection i st))) /\
  (forall t, t ∈ rows (plotStructureTemplates st) ->
     getPlotStructureTemplate st (PlotStructureTemplate.id t) = Some t) /\
  (forall s, s ∈ rows (plotStructures st) ->
     getPlotStructure st (PlotStructure.id s) = Some s) /\
  (forall s, s ∈ rows (plotStructureSections st) ->
     getPlotStructureSection st (PlotStructureSection.id s) = Some s).
Proof.
  intros ((Ht1 & Ht2) & (Hs1 & Hs2) & (Hc1 & Hc2)).
  repeat match goal with |- _ /\ _ => split end.
  - intros v. rewrite snd_createPlotStructureTemplate. repeat split; try done.
    + apply insert_unique; [|done]. apply stored_template_row_id.
    + apply insert_checked; [|done]. intros r r' Hr.
      by apply stored_template_Ok in Hr as (_ & _ & ?).
  - intros i p.
    destruct (snd_updatePlotStructureTemplate i p now st) as [->|(p' & Hp & ->)];
      [done|].
    destruct (stored_template_update_Ok _ _ Hp) as [Hid Hok].
    repeat split; try done.
    + apply (update_unique _ i (default i (TemplateCatalog.id p))); [|done].
      intros r Hr. simpl. by rewrite Hr, Hid.
    + apply update_checked; [|done]. intros r Hr. by apply Hok.
  - intros i. repeat split; try done.
    + by apply (delete_unique PlotStructureTemplate.id).
    + by apply (delete_checked PlotStructureTemplate.id).
  - intros v. rewrite snd_createPlotStructure. repeat split; try done.
    + apply insert_unique; [|done]. apply stored_structure_row_id.
    + apply insert_checked; [|done]. intros r r' Hr.
      by apply stored_structure_Ok in Hr as [-> ?].
  - intros i p.
    destruct (snd_updatePlotStructure i p now st) as [->|(Hp & ->)]; [done|].
    repeat split; try done.
    + apply (update_unique _ i (default i (PartialPlotStructure.id p))); [|done].
      intros r Hr. simpl. by rewrite Hr.
    + apply update_checked; [|done]. intros r Hr. by apply set_structure_ok.
  - intros i. repeat split; try done.
    + by apply (delete_unique PlotStructure.id).
    + by apply (delete_checked PlotStructure.id).
  - intros v. rewrite snd_createPlotStructureSection. repeat split; try done.
    + apply insert_unique; [|done]. apply stored_section_row_id.
    + apply insert_checked; [|done]. intros r r' Hr.
      by apply stored_section_Ok in Hr as (_ & _ & _ & _ & _ & _ & _ & _ & ?).
  - intros i p.
    destruct (snd_updatePlotStructureSection i p now st) as [->|(p' & Hp & ->)];
      [done|].
    destruct (stored_section_update_Ok _ _ Hp) as (Hid & _).
    repeat split; try done.
    + apply (update_unique _ i (default i (PartialPlotStructureSection.id p)));
        [|done].
      intros r Hr. simpl. by rewrite Hr, Hid.
    + apply update_checked; [|done]. intros r Hr. by eapply set_section_ok.
  - intros i. repeat split; try done.
    + by apply (delete_unique PlotStructureSection.id).
    + by apply (delete_checked PlotStructureSection.id).
  - intros t Ht. unfold getPlotStructureTemplate.
    by rewrite (unique_lookup PlotStructureTemplate.id).
  - intros s Hs. unfold getPlotStructure. by rewrite (unique_lookup PlotStructure.id).
  - intros s Hs. unfold getPlotStructureSection.
    by rewrite (unique_lookup PlotStructureSection.id).
Qed.

Lemma store_wf_preserved_witness :
  store_wf (snd (updatePlotStructure 1
                   (PartialPlotStructure.mk (Some 9) None None None None None None
                      None None) 5000
                   (snd (createPlotStructure
                           (InsertPlotStructure.mk 42 3 "Main plot" None None None)
                           1000 empty_store)))).
Proof.
  destruct (store_wf_preserved empty_store 1000 store_wf_empty)
    as (_ & _ & _ & Hcreate & _).
  destruct (store_wf_preserved _ 5000
              (Hcreate (InsertPlotStructure.mk 42 3 "Main plot" None None None)))
    as (_ & _ & _ & _ & Hupdate & _).
  apply Hupdate.
Defined.

End StoreInvariants.

Section Sequences.
Import Db DatabaseStorage Invariant.






End Sequences.

Section KeyLength.
Import Db DatabaseStorage Invariant.



End KeyLength.

(** ** Projects *)

Section ProjectFacts.
Import Db Projects.

Lemma getProject_None (st : projects) (id : Z) :
  getProject st id = None <-> id ∉ map Project.id (rows st).
Proof. apply head_select_by_id_None. Qed.


End ProjectFacts.


Section ProjectUpdates.
Import Db Projects.

(** An update whose payload carries no id is accepted for a stored
    project; the project is then fetched as updated and every other id
    holds what it held. *)
Lemma updateProject_accepted (st : projects) (id : Z) (payload : PartialProject.t)
  (now : timestamp) (p : Project.t) :
  getProject st id = Some p ->
  PartialProject.id payload = None ->
  stored_project_update payload = Ok payload ->
  exists st',
    updateProject id payload now st = (Ok (Some (set_project payload now p)), st') /\
    getProject st' id = Some (set_project payload now p) /\
    (forall j, j <> id -> getProject st' j = getProject st j) /\
    rows st' = map (fun r => if decide (Project.id r = id)
                             then set_project payload now r else r) (rows st).
Proof.
  intros Hget Hid Hstored.
  assert (forall r, Project.id (set_project payload now r) = Project.id r) as Hkeep.
  { intros r. simpl. by rewrite Hid. }
  destruct (update_accepts Project.id id (set_project payload now) st Hkeep)
    as [st' Hupd].
  assert (Hupd' := Hupd). apply update_Ok in Hupd' as (_ & Hrows & _).
  unfold getProject in *.
  destruct (select_by_id Project.id id st) as [|r l] eqn:Hsel; [discriminate|].
  simpl in Hget. simplify_eq.
  destruct (update_lookup Project.id id id (set_project payload now)
              st (map (set_project payload now) (p :: l)) st')
    as (Hfound & _ & Hothers).
  - intros r Hr. by rewrite Hkeep.
  - done.
  - exact Hupd.
  - exists st'. unfold updateProject. rewrite Hstored, Hupd. simpl.
    split; [done|]. rewrite Hfound. split; [done|]. split; [|done].
    intros j Hj. by rewrite Hothers.
Qed.

(** X11: trashing a stored project sets [isTrashed] and [updatedAt] and
    changes nothing else; the project leaves every listing, and the other
    projects are listed as before.  Restoring it afterwards gives back
    the project with the fields it had, [isTrashed] false, and it is
    listed again for its owner. *)
Theorem trash_then_restore (st : projects) (id : Z) (now later : timestamp)
  (p : Project.t) :
  getProject st id = Some p ->
  let trashed :=
    Project.mk (Project.id p) (Project.title p) (Project.description p)
      (Project.userId p) (Project.createdAt p) (Some now) (Project.isArchived p)
      (Some true) in
  let restored :=
    Project.mk (Project.id p) (Project.title p) (Project.description p)
      (Project.userId p) (Project.createdAt p) (Some later) (Project.isArchived p)
      (Some false) in
  exists st1 st2,
    trashProject id now st = (Ok (Some trashed), st1) /\
    (forall userId r,
       r ∈ getUserProjects st1 userId <->
       r ∈ getUserProjects st userId /\ Project.id r <> id) /\
    restoreProject id later st1 = (Ok (Some restored), st2) /\
    getProject st2 id = Some restored /\
    restored ∈ getUserProjects st2 (Project.userId p) /\
    (forall j, j <> id -> getProject st2 j = getProject st j).
Proof.
  intros Hget trashed restored.
  destruct (updateProject_accepted st id
              (PartialProject.mk None None None None None None None (Some (Some true)))
              now p Hget eq_refl eq_refl) as (st1 & Htrash & Hget1 & Hothers1 & Hrows1).
  destruct (updateProject_accepted st1 id
              (PartialProject.mk None None None None None None None (Some (Some false)))
              later _ Hget1 eq_refl eq_refl)
    as (st2 & Hrestore & Hget2 & Hothers2 & Hrows2).
  exists st1, st2. split; [exact Htrash|]. split.
  { intros userId r. unfold getUserProjects. rewrite Hrows1, !list_elem_of_filter.
    rewrite list_elem_of_fmap. split.
    - intros [[Hu Ht] (r0 & -> & Hr0)].
      case_decide as Hid; [by simpl in Ht|]. tauto.
    - intros [[HP Hr] Hid]. split; [done|]. exists r. by rewrite decide_False. }
  split; [exact Hrestore|]. split; [exact Hget2|]. split.
  - unfold getUserProjects. apply list_elem_of_filter. split; [done|].
    apply head_select_by_id in Hget2. tauto.
  - intros j Hj. by rewrite Hothers2, Hothers1.
Qed.

Lemma trash_then_restore_witness :
  exists st1,
    fst (Projects.trashProject 1 5000 Scenario2.two_projects)
    = Ok (Some (Project.mk 1 "Novel" None 5 (Some 1000) (Some 5000) (Some false)
                  (Some true))) /\
    st1 = snd (Projects.trashProject 1 5000 Scenario2.two_projects) /\
    getUserProjects st1 5 = [].
Proof.
  destruct (trash_then_restore Scenario2.two_projects 1 5000 6000
              (Project.mk 1 "Novel" None 5 (Some 1000) (Some 1000) (Some false)
                 (Some false)))
    as (st1 & st2 & Htrash & _).
  - vm_compute. reflexivity.
  - eexists. split; [by rewrite Htrash|]. split; [reflexivity|].
    vm_compute. reflexivity.
Defined.

End ProjectUpdates.

Section ProjectOwnership.
Import Db Projects.








End ProjectOwnership.

(** ** Tokens *)

Section Tokens.
Import Routes.

Lemma startsWith_inv (p s : string) :
  Js.startsWith p s = true -> s = p +:+ Js.substring (String.length p) s.
Proof.
  revert s. induction p as [|a p IH]; intros s Hs; simpl in *; [done|].
  destruct s as [|b s]; [discriminate|].
  case_decide; [|discriminate]. subst.
  change (String b s = String b (p +:+ Js.substring (String.length p) s)).
  f_equal. by apply IH.
Qed.

Lemma split_no_separator (sep : ascii) (n : string) :
  Js.includes sep n = false -> Js.split sep n = [n].
Proof.
  induction n as [|c n IH]; simpl; [done|].
  intros Hn. case_decide; [done|]. by rewrite IH.
Qed.

(** A string is its first part, followed by nothing or by a separator and
    the rest. *)
Lemma split_first (sep : ascii) (t : string) :
  exists n rest,
    t = n +:+ rest /\ Js.includes sep n = false /\
    (rest = EmptyString \/ exists r, rest = String sep r) /\
    head (Js.split sep t) = Some n.
Proof.
  induction t as [|c t (n & rest & Ht & Hn & Hrest & Hhead)].
  - exists EmptyString, EmptyString. repeat split; auto.
  - simpl. destruct (decide (c = sep)) as [->|Hc].
    + exists EmptyString, (String sep t). repeat split; eauto.
    + exists (String c n), rest. simpl. rewrite decide_False by done.
      split; [by rewrite Ht at 1|]. split; [done|]. split; [done|].
      destruct (Js.split sep t) as [|q qs]; [discriminate|].
      simpl in *. by simplify_eq.
Qed.

(** The header [Bearer user-<n>] without a timestamp. *)
Lemma token_user_short (n : string) (k : Z) :
  Js.includes "-" n = false ->
  Js.parseInt n = Some k ->
  token_user ("Bearer user-" +:+ n) = Some (mkUser k "TokenUser" None None None).
Proof.
  intros Hn Hk.
  set (token := "user-" +:+ n).
  assert (Js.substring 7 ("Bearer " +:+ token) = token) as Htoken by done.
  assert (truthy_string ("Bearer " +:+ token)
          && Js.startsWith "Bearer " ("Bearer " +:+ token) = true) as Hbearer by done.
  assert (truthy_string token && Js.startsWith "user-" token = true) as Huser by done.
  change ("Bearer user-" +:+ n) with ("Bearer " +:+ token).
  unfold token_user. rewrite Hbearer, Htoken, Huser. unfold token.
  change ("user-" +:+ n) with ("user" +:+ String "-" n).
  rewrite (split_app "-" "user") by done.
  rewrite split_no_separator by done.
  rewrite bool_decide_eq_true_2 by (simpl; lia).
  simpl. by rewrite Hk.
Qed.

(** X14: the headers that the token branch accepts are exactly those of
    the form [Bearer user-<n>] or [Bearer user-<n>-<rest>], where [<n>]
    has no ['-'] and [parseInt] reads a number from it; the user it makes
    has that number as id and the name "TokenUser".  The timestamp part
    is neither required nor looked at. *)
Theorem token_user_spec (authHeader : string) (u : User) :
  token_user authHeader = Some u <->
  exists n rest k,
    authHeader = "Bearer user-" +:+ n +:+ rest /\
    Js.includes "-" n = false /\
    (rest = EmptyString \/ exists r, rest = String "-" r) /\
    Js.parseInt n = Some k /\
    u = mkUser k "TokenUser" None None None.
Proof.
  split.
  - unfold token_user. intros H.
    destruct (truthy_string authHeader && Js.startsWith "Bearer " authHeader)
      eqn:Hbearer; [|discriminate].
    apply andb_prop in Hbearer as [_ Hbearer]. apply startsWith_inv in Hbearer.
    simpl String.length in Hbearer.
    set (token := Js.substring 7 authHeader) in *.
    destruct (truthy_string token && Js.startsWith "user-" token) eqn:Huser;
      [|discriminate].
    apply andb_prop in Huser as [_ Huser]. apply startsWith_inv in Huser.
    simpl String.length in Huser.
    set (t := Js.substring 5 token) in *.
    destruct (split_first "-" t) as (n & rest & Ht & Hn & Hrest & Hhead).
    assert (Js.split "-" token = "user" :: Js.split "-" t) as Hparts.
    { rewrite Huser. change ("user-" +:+ t) with ("user" +:+ String "-" t).
      by rewrite (split_app "-" "user"). }
    rewrite Hparts in H.
    destruct (Js.split "-" t) as [|q qs]; [discriminate|].
    simpl in Hhead. simplify_eq.
    change (Js.at_index ("user" :: n :: qs) 1) with (Some n) in H.
    rewrite bool_decide_eq_true_2 in H by (simpl; lia).
    simpl default in H.
    destruct (Js.parseInt n) as [k|] eqn:Hk; [|discriminate].
    exists n, rest, k. split; [|by simplify_eq].
    rewrite Hbearer, Huser, Ht. done.
  - intros (n & rest & k & -> & Hn & [->|[r ->]] & Hk & ->).
    + assert ("Bearer user-" +:+ n +:+ EmptyString = "Bearer user-" +:+ n) as ->.
      { f_equal. clear. induction n as [|c n IH]; [done|].
        change (String c (n +:+ EmptyString) = String c n). by f_equal. }
      by apply token_user_short.
    + by apply (token_user_bearer n r k).
Qed.

Lemma token_user_spec_witness :
  token_user "Bearer user-7" = Some (mkUser 7 "TokenUser" None None None).
Proof.
  apply token_user_spec. exists "7", EmptyString, 7.
  repeat split; auto.
Defined.

End Tokens.

Section Middleware.
Import Routes.

Lemma isAuthenticated_token_next (req : Request) (u : User) :
  sessionAuthenticated req && bool_decide (is_Some (user req)) = false ->
  authorization req ≫= token_user = Some u ->
  isAuthenticated req = Next (set_user req u).
Proof.
  intros Hsession Htoken. unfold isAuthenticated. rewrite Hsession. simpl.
  destruct (authorization req) as [authHeader|]; simpl in *; [|done].
  by rewrite Htoken.
Qed.

(** X15: the middleware either answers 401 "Unauthorized" or calls
    [next()] with a request whose user is set.  It calls [next()] with
    the request unchanged when the session is authenticated, with the
    user of the token when it is not and the header carries an accepted
    token, and it answers 401 exactly in the remaining case; the header
    is never changed, and for the request that goes on
    [req.isAuthenticated()], which is computed from [req.user], is
    true. *)
Theorem isAuthenticated_outcome (req : Request) :
  let session := sessionAuthenticated req && bool_decide (is_Some (user req)) in
  (session = true -> isAuthenticated req = Next req) /\
  (session = false ->
   forall u, authorization req ≫= token_user = Some u ->
     isAuthenticated req = Next (set_user req u)) /\
  (session = false ->
   authorization req ≫= token_user = None ->
   isAuthenticated req = Respond (mkResponse 401 (Message "Unauthorized"))) /\
  (forall req', isAuthenticated req = Next req' ->
     is_Some (user req') /\
     sessionAuthenticated req' = true /\
     authorization req' = authorization req).
Proof.
  simpl. unfold isAuthenticated.
  destruct (sessionAuthenticated req && bool_decide (is_Some (user req))) eqn:Hsession;
    simpl.
  - split; [done|]. split; [done|]. split; [done|].
    intros req' Hnext. inversion Hnext; subst.
    apply andb_prop in Hsession as [Hflag Huser].
    split; [by apply bool_decide_eq_true in Huser|done].
  - split; [done|].
    destruct (authorization req) as [authHeader|] eqn:Hauth; simpl.
    + destruct (token_user authHeader) as [u|]; simpl.
      * split; [by intros _ ? [= <-]|]. split; [done|].
        intros req' Hnext. inversion Hnext; subst. simpl. repeat split; eauto.
      * split; [done|]. split; [done|]. done.
    + split; [done|]. split; [done|]. done.
Qed.

Lemma isAuthenticated_outcome_witness :
  isAuthenticated (Scenario2.bearer "Basic dXNlcjpwYXNz")
  = Respond (mkResponse 401 (Message "Unauthorized")).
Proof.
  destruct (isAuthenticated_outcome (Scenario2.bearer "Basic dXNlcjpwYXNz"))
    as (_ & _ & Hrefused & _).
  apply Hrefused; reflexivity.
Defined.

Lemma startsWith_truthy (p s : string) :
  truthy_string p = true -> Js.startsWith p s = true -> truthy_string s = true.
Proof. destruct p, s; simpl; intros; done. Qed.

(** X16: the diagnostics of [GET /api/token-check] agree with the
    middleware: [isValidUserId] is [true] exactly for the headers whose
    token the middleware accepts, and [userId] is then the id the
    middleware gives the user; a header that is missing or does not start
    with [Bearer ] is reported as not present. *)
Theorem tokenInfo_agrees (authHeader : string) :
  (TokenCheck.isValidUserId (TokenCheck.tokenInfo (Some authHeader)) = Some true
   <-> is_Some (token_user authHeader)) /\
  (forall u, token_user authHeader = Some u ->
     TokenCheck.userId (TokenCheck.tokenInfo (Some authHeader))
     = Some (TokenCheck.Number (Some (id u))) /\
     TokenCheck.format (TokenCheck.tokenInfo (Some authHeader))
     = Some "user-id-timestamp") /\
  (TokenCheck.present (TokenCheck.tokenInfo (Some authHeader)) = true
   <-> Js.startsWith "Bearer " authHeader = true) /\
  TokenCheck.present (TokenCheck.tokenInfo None) = false.
Proof.
  unfold TokenCheck.tokenInfo, token_user.
  destruct (truthy_string authHeader && Js.startsWith "Bearer " authHeader) eqn:Hbearer.
  - apply andb_prop in Hbearer as Hb. destruct Hb as [_ Hb]. rewrite Hb.
    set (token := Js.substring 7 authHeader).
    destruct (Js.startsWith "user-" token) eqn:Huser.
    + rewrite (startsWith_truthy "user-" token) by done. simpl andb. cbv iota.
      destruct (bool_decide (2 <= length (Js.split "-" token))%nat) eqn:Hlen; simpl.
      * destruct (Js.parseInt _) as [k|]; simpl.
        -- split; [split; eauto|]. split; [by intros ? [= <-]|]. done.
        -- split; [split; [done|by intros []]|]. done.
      * split; [split; [done|by intros []]|]. done.
    + rewrite andb_false_r. simpl.
      split; [split; [done|by intros []]|]. done.
  - split; [split; [done|by intros []]|]. split; [done|]. split; [|done].
    split; [done|]. intros Hb. exfalso. rewrite Hb, andb_true_r in Hbearer.
    destruct authHeader; [discriminate Hb | discriminate Hbearer].
Qed.

End Middleware.

Lemma tokenInfo_agrees_witness :
  TokenCheck.userId (TokenCheck.tokenInfo (Some "Bearer user-7-1700000000"))
  = Some (TokenCheck.Number (Some 7)).
Proof.
  destruct (tokenInfo_agrees "Bearer user-7-1700000000") as (_ & Huser & _).
  destruct (Huser (Routes.mkUser 7 "TokenUser" None None None) eq_refl) as [Hid _].
  exact Hid.
Defined.

Section CurrentUser.
Import Db Routes.

(** X17: for a request without an authenticated session,
    [GET /api/user] answers with a user exactly when the header carries
    an accepted token and a user with the token's id is stored, and the
    answer then shows the stored name and email; in every other case it
    answers 401.  So a token for an id that no user has passes the
    middleware of the protected endpoints and is refused here. *)
Theorem get_user_token (req : Request) (users : table Users.User) :
  sessionAuthenticated req = false ->
  (forall info,
     Users.get_user req users = Users.Json info <->
     exists authHeader u row,
       authorization req = Some authHeader /\
       token_user authHeader = Some u /\
       Users.getUser users (id u) = Some row /\
       info = Users.mkUserInfo (Users.id row) (Users.username row)
                (Some (Users.email row))) /\
  (Users.get_user req users <> Users.Fails) /\
  (forall authHeader u,
     authorization req = Some authHeader ->
     token_user authHeader = Some u ->
     Users.getUser users (id u) = None ->
     isAuthenticated req = Next (set_user req u) /\
     Users.get_user req users = Users.NotAuthenticated).
Proof.
  intros Hsession. unfold Users.get_user, Users.token_user_id. rewrite Hsession. simpl.
  split; [|split].
  - intros info. split.
    + intros Hjson.
      destruct (authorization req) as [authHeader|]; simpl in Hjson; [|discriminate].
      destruct (token_user authHeader) as [u|] eqn:Htoken; simpl in Hjson;
        [|discriminate].
      destruct (Users.getUser users (id u)) as [row|] eqn:Hrow; [|discriminate].
      inversion Hjson; subst. by exists authHeader, u, row.
    + intros (authHeader & u & row & -> & Htoken & Hrow & ->). simpl.
      by rewrite Htoken; simpl; rewrite Hrow.
  - destruct (authorization req) as [authHeader|]; simpl; [|done].
    destruct (token_user authHeader) as [u|]; simpl; [|done].
    by destruct (Users.getUser users (id u)).
  - intros authHeader u Hheader Htoken Hrow. split.
    + apply isAuthenticated_token_next; [by rewrite Hsession|]. by rewrite Hheader.
    + rewrite Hheader. simpl. rewrite Htoken. simpl. by rewrite Hrow.
Qed.

Lemma get_user_token_witness :
  isAuthenticated (Scenario2.bearer "Bearer user-7-1700000000")
  = Next (set_user (Scenario2.bearer "Bearer user-7-1700000000")
            (mkUser 7 "TokenUser" None None None)) /\
  Users.get_user (Scenario2.bearer "Bearer user-7-1700000000") Scenario3.two_users
  = Users.NotAuthenticated.
Proof.
  destruct (get_user_token (Scenario2.bearer "Bearer user-7-1700000000")
              Scenario3.two_users eq_refl) as (_ & _ & Hunknown).
  apply (Hunknown "Bearer user-7-1700000000"); reflexivity.
Defined.



End CurrentUser.

(** ** [MemStorage] *)

Section JsMapFacts.
Context {V : Type}.
Implicit Types (m : JsMap.t V) (k j : Z) (v : V).

Lemma get_None k m : JsMap.get k m = None <-> k ∉ JsMap.keys m.
Proof.
  induction m as [|[k' v'] m IH]; simpl.
  - split; [intros _; apply not_elem_of_nil|done].
  - rewrite not_elem_of_cons. case_decide; [split; [done|intros []; congruence]|].
    rewrite IH. split; [intros; split; congruence|tauto].
Qed.

Lemma get_set_eq k v m : JsMap.get k (JsMap.set k v m) = Some v.
Proof.
  induction m as [|[k' v'] m IH]; simpl.
  - by rewrite decide_True.
  - case_decide; simpl; [by rewrite decide_True|by rewrite decide_False].
Qed.

Lemma get_set_ne k j v m : j <> k -> JsMap.get j (JsMap.set k v m) = JsMap.get j m.
Proof.
  intros Hj. induction m as [|[k' v'] m IH]; simpl.
  - by rewrite decide_False.
  - case_decide; simpl.
    + subst. by rewrite !decide_False.
    + by rewrite IH.
Qed.

(** [set] on a key that is present keeps the keys and their order. *)
Lemma keys_set_present k v m :
  is_Some (JsMap.get k m) -> JsMap.keys (JsMap.set k v m) = JsMap.keys m.
Proof.
  induction m as [|[k' v'] m IH]; simpl; [by intros []|].
  case_decide; simpl; [by subst|]. intros Hk. f_equal. by apply IH.
Qed.

(** [set] on a key that is absent adds the entry at the end. *)
Lemma set_absent k v m : JsMap.get k m = None -> JsMap.set k v m = m ++ [(k, v)].
Proof.
  induction m as [|[k' v'] m IH]; simpl; [done|].
  case_decide; [done|]. intros Hk. f_equal. by apply IH.
Qed.

Lemma get_delete_eq k m : JsMap.get k (snd (JsMap.delete k m)) = None.
Proof.
  apply get_None. unfold JsMap.delete, JsMap.keys. simpl. intros Hin.
  apply list_elem_of_fmap in Hin as (e & -> & He).
  by apply list_elem_of_filter in He as [He _].
Qed.

Lemma get_delete_ne k j m : j <> k -> JsMap.get j (snd (JsMap.delete k m)) = JsMap.get j m.
Proof.
  intros Hj. unfold JsMap.delete, JsMap.t in *. cbn [snd].
  induction m as [|[k' v'] m IH]; [done|].
  rewrite filter_cons. cbn [fst].
  destruct (decide (k' <> k)) as [Hk|Hk]; cbn [JsMap.get].
  - by rewrite IH.
  - apply dec_stable in Hk. subst. by rewrite decide_False.
Qed.

Lemma delete_present k m : fst (JsMap.delete k m) = true <-> is_Some (JsMap.get k m).
Proof. unfold JsMap.delete, JsMap.has. simpl. by rewrite bool_decide_eq_true. Qed.

End JsMapFacts.

Section MemStorageFacts.
Import MemStorage.

(** X19: [MemStorage.deletePlotStructure] returns [true] exactly when a
    structure with the id was stored; afterwards the id holds nothing,
    every other id holds what it held, and the sections are untouched.
    The same holds of [MemStorage.deletePlotStructureSection]. *)
Theorem MemStorage_delete (st : state) (id : Z) :
  (fst (deletePlotStructure id st) = true <-> is_Some (getPlotStructure st id)) /\
  getPlotStructure (snd (deletePlotStructure id st)) id = None /\
  (forall j, j <> id ->
     getPlotStructure (snd (deletePlotStructure id st)) j = getPlotStructure st j) /\
  plotStructureSectionsMap (snd (deletePlotStructure id st))
  = plotStructureSectionsMap st /\
  (fst (deletePlotStructureSection id st) = true
   <-> is_Some (getPlotStructureSection st id)) /\
  getPlotStructureSection (snd (deletePlotStructureSection id st)) id = None /\
  (forall j, j <> id ->
     getPlotStructureSection (snd (deletePlotStructureSection id st)) j
     = getPlotStructureSection st j).
Proof.
  unfold deletePlotStructure, deletePlotStructureSection, getPlotStructure,
    getPlotStructureSection.
  repeat split; simpl; try apply delete_present; try apply get_delete_eq.
  - intros j Hj. by apply get_delete_ne.
  - intros j Hj. by apply get_delete_ne.
Qed.

Lemma MemStorage_delete_witness :
  fst (deletePlotStructure 999 new) = false.
Proof.
  destruct (MemStorage_delete new 999) as ([Hpresent _] & _).
  destruct (fst (deletePlotStructure 999 new)) eqn:Hdeleted; [|reflexivity].
  destruct (Hpresent eq_refl) as [s Hs]. discriminate Hs.
Defined.

Lemma counters_ahead_new : counters_ahead new.
Proof. repeat split; constructor. Qed.

Lemma keys_ahead_get {V : Type} (m : JsMap.t V) (n : Z) :
  Forall (fun k => k < n) (JsMap.keys m) -> JsMap.get n m = None.
Proof.
  intros Hall. apply get_None. intros Hin.
  rewrite Forall_forall in Hall. specialize (Hall n Hin). lia.
Qed.

Lemma keys_ahead_set {V : Type} (m : JsMap.t V) (n : Z) (v : V) :
  Forall (fun k => k < n) (JsMap.keys m) ->
  Forall (fun k => k < n + 1) (JsMap.keys (JsMap.set n v m)).
Proof.
  intros Hall. rewrite set_absent by by apply keys_ahead_get.
  unfold JsMap.keys. rewrite map_app. apply Forall_app. split.
  - eapply Forall_impl; [exact Hall|]. simpl. intros; lia.
  - repeat constructor. simpl. lia.
Qed.

(** X20: the counters of a [MemStorage] start ahead of the keys and stay
    ahead under every method; so a create never overwrites an entry: the
    created structure gets a key that was free, can be fetched at once,
    comes last in the listing of its project, and every other entry is
    as it was. *)
Theorem MemStorage_create (st : state) (now : timestamp) :
  counters_ahead st ->
  (forall v,
     let s := fst (createPlotStructure v now st) in
     let st' := snd (createPlotStructure v now st) in
     PlotStructure.id s = plotStructureId st /\
     getPlotStructure st (PlotStructure.id s) = None /\
     getPlotStructure st' (PlotStructure.id s) = Some s /\
     (forall j, j <> PlotStructure.id s -> getPlotStructure st' j = getPlotStructure st j) /\
     getProjectPlotStructures st' (InsertPlotStructure.projectId v)
     = getProjectPlotStructures st (InsertPlotStructure.projectId v) ++ [s] /\
     counters_ahead st') /\
  (forall v, counters_ahead (snd (createPlotStructureTemplate v now st))) /\
  (forall v, counters_ahead (snd (createPlotStructureSection v now st))) /\
  (forall i p, counters_ahead (snd (updatePlotStructure i p now st))) /\
  (forall i p, counters_ahead (snd (updatePlotStructureSection i p now st))) /\
  (forall i, counters_ahead (snd (deletePlotStructureTemplate i st))) /\
  (forall i, counters_ahead (snd (deletePlotStructure i st))) /\
  (forall i, counters_ahead (snd (deletePlotStructureSection i st))).
Proof.
  intros (Ht & Hs & Hc).
  assert (forall {V} (m : JsMap.t V) n i,
            Forall (fun k => k < n) (JsMap.keys m) ->
            Forall (fun k => k < n) (JsMap.keys (snd (JsMap.delete i m)))) as Hdelete.
  { intros V m n i Hall. unfold JsMap.delete, JsMap.keys, JsMap.t in *. simpl.
    rewrite Forall_forall in Hall. apply Forall_forall. intros k Hk.
    apply list_elem_of_fmap in Hk as (e & -> & He).
    apply list_elem_of_filter in He as [_ He]. apply Hall, list_elem_of_fmap. eauto. }
  repeat match goal with |- _ /\ _ => split end.
  - intros v. simpl. unfold getPlotStructure, getProjectPlotStructures. simpl.
    pose proof (keys_ahead_get _ _ Hs) as Hfree.
    rewrite Hfree, get_set_eq. repeat split; try done.
    + intros j Hj. by apply get_set_ne.
    + rewrite set_absent by done. unfold JsMap.values.
      rewrite map_app, filter_app. simpl. by rewrite filter_cons, decide_True.
    + by apply keys_ahead_set.
  - intros v. repeat split; try done. by apply keys_ahead_set.
  - intros v. repeat split; try done. by apply keys_ahead_set.
  - intros i p. unfold updatePlotStructure.
    destruct (getPlotStructure st i) as [s|] eqn:Hget; [|done].
    repeat split; try done. simpl. rewrite keys_set_present; [done|].
    unfold getPlotStructure in Hget. by rewrite Hget.
  - intros i p. unfold updatePlotStructureSection.
    destruct (getPlotStructureSection st i) as [s|] eqn:Hget; [|done].
    repeat split; try done. simpl. rewrite keys_set_present; [done|].
    unfold getPlotStructureSection in Hget. by rewrite Hget.
  - intros i. repeat split; try done. by apply Hdelete.
  - intros i. repeat split; try done. by apply Hdelete.
  - intros i. repeat split; try done. by apply Hdelete.
Qed.

Lemma MemStorage_create_witness :
  getPlotStructure
    (snd (createPlotStructure (InsertPlotStructure.mk 42 3 "Main plot" None None None)
            1000 new)) 1
  = Some (PlotStructure.mk 1 42 3 "Main plot" None None None (Some 1000) (Some 1000)).
Proof.
  destruct (MemStorage_create new 1000 counters_ahead_new) as (Hcreate & _).
  destruct (Hcreate (InsertPlotStructure.mk 42 3 "Main plot" None None None))
    as (_ & _ & Hfound & _).
  exact Hfound.
Defined.



(** X22: [MemStorage.updatePlotStructure] keeps an entry under its key
    whatever the payload: the stored structure with the fields of the
    payload set is returned and is what the key holds afterwards, also
    when the payload carries another id; the keys and every other entry
    are as they were.  For an id that is not stored it returns
    [undefined] and changes nothing. *)
Theorem MemStorage_update (st : state) (id : Z) (p : PartialPlotStructure.t)
  (now : timestamp) :
  (forall s, getPlotStructure st id = Some s ->
     let updated := DatabaseStorage.set_structure p now s in
     fst (updatePlotStructure id p now st) = Some updated /\
     getPlotStructure (snd (updatePlotStructure id p now st)) id = Some updated /\
     (forall j, j <> id ->
        getPlotStructure (snd (updatePlotStructure id p now st)) j
        = getPlotStructure st j) /\
     JsMap.keys (plotStructuresMap (snd (updatePlotStructure id p now st)))
     = JsMap.keys (plotStructuresMap st)) /\
  (getPlotStructure st id = None -> updatePlotStructure id p now st = (None, st)).
Proof.
  unfold updatePlotStructure. split.
  - intros s Hget. rewrite Hget. simpl. unfold getPlotStructure in *. simpl.
    rewrite get_set_eq. repeat split; try done.
    + intros j Hj. by apply get_set_ne.
    + apply keys_set_present. by rewrite Hget.
  - intros Hget. by rewrite Hget.
Qed.

Lemma MemStorage_update_witness :
  let st := snd (createPlotStructure
                   (InsertPlotStructure.mk 42 3 "Main plot" None None None) 1000 new) in
  let st' := snd (updatePlotStructure 1
                    (PartialPlotStructure.mk (Some 9) None None None None None None None
                       None) 5000 st) in
  PlotStructure.id <$> getPlotStructure st' 1 = Some 9 /\
  getPlotStructure st' 9 = None.
Proof.
  cbv zeta.
  destruct (MemStorage_update
              (snd (createPlotStructure
                      (InsertPlotStructure.mk 42 3 "Main plot" None None None) 1000 new))
              1 (PartialPlotStructure.mk (Some 9) None None None None None None None None)
              5000) as [Hstored _].
  destruct (Hstored (PlotStructure.mk 1 42 3 "Main plot" None None None (Some 1000)
                       (Some 1000)) eq_refl) as (_ & Hfound & Hothers & _).
  split.
  - exact (f_equal (fun found : option PlotStructure.t => PlotStructure.id <$> found) Hfound).
  - rewrite (Hothers 9); [reflexivity|discriminate].
Defined.

End MemStorageFacts.

Section PlotStructureView.
Import Client.

Lemma findIndex_lookup (l : list PlotStructureSection.t) (a : string) (i : nat) :
  findIndex a l = Some i ->
  exists s, l !! i = Some s /\ PlotStructureSection.sectionKey s = a.
Proof.
  revert i. induction l as [|s l IH]; intros i Hi; simpl in Hi; [done|].
  case_decide as Hkey.
  - injection Hi as <-. by exists s.
  - destruct (findIndex a l) as [j|]; [|done]. injection Hi as <-.
    destruct (IH j eq_refl) as (t & Ht & Hkey'). by exists t.
Qed.

Lemma findIndex_NoDup (l : list PlotStructureSection.t) (i : nat)
  (s : PlotStructureSection.t) :
  NoDup (map PlotStructureSection.sectionKey l) ->
  l !! i = Some s ->
  findIndex (PlotStructureSection.sectionKey s) l = Some i.
Proof.
  revert i. induction l as [|t l IH]; intros i Hnodup Hi; [done|].
  rewrite map_cons in Hnodup. apply NoDup_cons in Hnodup as [Hfresh Hnodup].
  destruct i as [|i]; simpl in *.
  - injection Hi as ->. by rewrite decide_True.
  - rewrite decide_False.
    + by rewrite (IH i Hnodup Hi).
    + intros Hkey. apply Hfresh. rewrite Hkey.
      apply list_elem_of_fmap. exists s. split; [done|]. by eapply list_elem_of_lookup_2.
Qed.

Lemma truthy_string_nonempty (s : string) :
  s <> EmptyString -> Routes.truthy_string s = true.
Proof. by destruct s. Qed.

(** X23: [navigateToSection] never leaves the list shown: the new active
    section is the old one or the key of a section of the list.  When the
    keys of the list are distinct, [next] moves from a section to the one
    after it and [prev] back, so the two undo each other; [next] on the
    last section and [prev] on the first change nothing. *)
Theorem navigateToSection_moves (sections : list PlotStructureSection.t) :
  (forall active d,
     exists k, navigateToSection sections (Some active) d = Some k /\
               (k = active \/ k ∈ map PlotStructureSection.sectionKey sections)) /\
  (NoDup (map PlotStructureSection.sectionKey sections) ->
   forall i s t,
     sections !! i = Some s -> sections !! S i = Some t ->
     PlotStructureSection.sectionKey s <> EmptyString ->
     PlotStructureSection.sectionKey t <> EmptyString ->
     navigateToSection sections (Some (PlotStructureSection.sectionKey s)) next
     = Some (PlotStructureSection.sectionKey t) /\
     navigateToSection sections (Some (PlotStructureSection.sectionKey t)) prev
     = Some (PlotStructureSection.sectionKey s)) /\
  (NoDup (map PlotStructureSection.sectionKey sections) ->
   forall s, last sections = Some s ->
     navigateToSection sections (Some (PlotStructureSection.sectionKey s)) next
     = Some (PlotStructureSection.sectionKey s)) /\
  (forall s, head sections = Some s ->
     navigateToSection sections (Some (PlotStructureSection.sectionKey s)) prev
     = Some (PlotStructureSection.sectionKey s)).
Proof.
  repeat match goal with |- _ /\ _ => split end.
  - intros active d. unfold navigateToSection.
    destruct (negb _ || _); [by eauto|].
    destruct (findIndex active sections) as [i|] eqn:Hi; [|by eauto].
    apply findIndex_lookup in Hi as (s & Hs & Hkey).
    pose proof (lookup_lt_Some _ _ _ Hs) as Hlt.
    destruct d; case_bool_decide as Hbound; try by eauto.
    + destruct (lookup_lt_is_Some_2 sections (i + 1)) as [t Ht]; [lia|].
      rewrite Ht. simpl. eexists. split; [done|]. right.
      apply list_elem_of_fmap. exists t. split; [done|]. by eapply list_elem_of_lookup_2.
    + destruct (lookup_lt_is_Some_2 sections (i - 1)) as [t Ht]; [lia|].
      rewrite Ht. simpl. eexists. split; [done|]. right.
      apply list_elem_of_fmap. exists t. split; [done|]. by eapply list_elem_of_lookup_2.
  - intros Hnodup i s t Hs Ht Hkeys Hkeyt.
    pose proof (lookup_lt_Some _ _ _ Ht) as Hlt.
    unfold navigateToSection.
    rewrite !truthy_string_nonempty by done.
    rewrite bool_decide_eq_false_2 by lia. simpl.
    rewrite (findIndex_NoDup _ _ _ Hnodup Hs), (findIndex_NoDup _ _ _ Hnodup Ht).
    rewrite !bool_decide_eq_true_2 by lia.
    replace (i + 1)%nat with (S i) by lia. replace (S i - 1)%nat with i by lia.
    by rewrite Hs, Ht.
  - intros Hnodup s Hlast. rewrite last_lookup in Hlast.
    unfold navigateToSection.
    destruct (negb _ || _); [done|].
    rewrite (findIndex_NoDup _ _ _ Hnodup Hlast).
    rewrite bool_decide_eq_false_2; [done|]. lia.
  - intros s Hhead. destruct sections as [|s' rest]; [done|]. injection Hhead as ->.
    unfold navigateToSection.
    destruct (negb _ || _); [done|].
    simpl. by rewrite decide_True.
Qed.

Lemma navigateToSection_moves_witness :
  navigateToSection Scenario4.three_sections (Some "setup") next = Some "confrontation" /\
  navigateToSection Scenario4.three_sections (Some "confrontation") prev = Some "setup".
Proof.
  destruct (navigateToSection_moves Scenario4.three_sections) as (_ & Hmoves & _).
  assert (NoDup (map PlotStructureSection.sectionKey Scenario4.three_sections))
    as Hnodup by (apply (bool_decide_unpack _); vm_compute; exact I).
  apply (Hmoves Hnodup O
           (Scenario4.section 1 "setup" 0) (Scenario4.section 2 "confrontation" 1));
    [reflexivity|reflexivity|discriminate|discriminate].
Defined.

End PlotStructureView.

Section ChapterSidebar.
Import Client.

Lemma Math_max_spec (x : Z) (xs : list Z) :
  x <= Math_max x xs /\
  Forall (fun y => y <= Math_max x xs) xs /\
  (Math_max x xs = x \/ Math_max x xs ∈ xs).
Proof.
  unfold Math_max. revert x. induction xs as [|y ys IH]; intros x; simpl.
  - split; [lia|]. split; [constructor|by left].
  - destruct (IH (Z.max x y)) as (Hle & Hall & Hin). split; [lia|]. split.
    + constructor; [lia|done].
    + destruct Hin as [Heq|Hin]; [|right; by right]. rewrite Heq.
      destruct (Z.max_spec x y) as [[_ ->]|[_ ->]]; [right; by left|by left].
Qed.

Lemma nextOrder_cons (c : Chapter.t) (chapters : list Chapter.t) :
  nextOrder (c :: chapters)
  = Js.plus (Math_max (Chapter.order c) (map Chapter.order chapters)) 1.
Proof. reflexivity. Qed.

(** The integers up to 2^53 are doubles. *)
Lemma round_double_exact (z : Z) :
  -9007199254740992 <= z <= 9007199254740992 -> Js.round_double z = z.
Proof.
  intros Hz.
  destruct (decide (Z.abs z = 9007199254740992)) as [Hmax|Hless].
  - assert (z = 9007199254740992 \/ z = -9007199254740992) as [->| ->] by lia;
      reflexivity.
  - unfold Js.round_double.
    assert (Z.log2 (Z.abs z) + 1 <= 53) as Hbits.
    { destruct (decide (Z.abs z = 0)) as [->|Hpos]; [simpl; lia|].
      assert (Z.log2 (Z.abs z) < 53); [|lia].
      apply Z.log2_lt_pow2; [lia|]. change (2 ^ 53) with 9007199254740992. lia. }
    cbv zeta. by rewrite (proj2 (Z.leb_le _ _) Hbits).
Qed.

(** X24: the order [handleCreateChapter] gives a new chapter is 0 for an
    empty list.  For chapters whose orders are integers between -2^53 and
    2^53 - 1, the range in which adding 1 to a number is exact, it is one
    more than the order of one of the chapters and greater than the order
    of every chapter of the list, so the new chapter comes after all of
    them.  When the largest order is 2^53, the sum is rounded back to
    2^53: the new chapter gets the largest order again. *)
Theorem nextOrder_above (chapters : list Chapter.t) :
  (chapters = [] -> nextOrder chapters = 0) /\
  (Forall (fun c => -9007199254740992 <= Chapter.order c < 9007199254740992) chapters ->
   Forall (fun c => Chapter.order c < nextOrder chapters) chapters /\
   (chapters <> [] ->
    exists c, c ∈ chapters /\ nextOrder chapters = Chapter.order c + 1)) /\
  (forall c,
     c ∈ chapters -> Chapter.order c = 9007199254740992 ->
     Forall (fun d => Chapter.order d <= 9007199254740992) chapters ->
     nextOrder chapters = Chapter.order c).
Proof.
  destruct chapters as [|c chapters].
  - split; [done|]. split.
    + intros _. split; [constructor|]. by intros [].
    + intros c Hc. by apply elem_of_nil in Hc.
  - rewrite nextOrder_cons.
    destruct (Math_max_spec (Chapter.order c) (map Chapter.order chapters))
      as (Hle & Hall & Hin).
    set (m := Math_max (Chapter.order c) (map Chapter.order chapters)) in *.
    assert (exists d, d ∈ c :: chapters /\ m = Chapter.order d) as (top & Htop & Hm).
    { destruct Hin as [->|Hin].
      - exists c. split; [by left|done].
      - apply list_elem_of_fmap in Hin as (d & -> & Hd). exists d.
        split; [by right|done]. }
    split; [done|]. split.
    + intros Hrange.
      assert (Js.plus m 1 = m + 1) as ->.
      { unfold Js.plus. apply round_double_exact.
        rewrite Forall_forall in Hrange. specialize (Hrange top Htop). lia. }
      split.
      * constructor; [lia|]. rewrite Forall_forall in Hall. apply Forall_forall.
        intros d Hd. assert (Chapter.order d <= m); [|lia].
        apply Hall, list_elem_of_fmap. by exists d.
      * intros _. exists top. split; [done|]. by rewrite Hm.
    + intros d Hd Horder Hbound.
      assert (m = 9007199254740992) as ->.
      { rewrite Forall_forall in Hbound. specialize (Hbound top Htop).
        assert (Chapter.order d <= m); [|lia].
        apply elem_of_cons in Hd as [->|Hd]; [done|].
        rewrite Forall_forall in Hall. apply Hall, list_elem_of_fmap. by exists d. }
      rewrite Horder. reflexivity.
Qed.

Lemma nextOrder_above_witness :
  (exists c,
     c ∈ [Scenario4.chapter 1 0; Scenario4.chapter 2 5; Scenario4.chapter 3 2] /\
     nextOrder [Scenario4.chapter 1 0; Scenario4.chapter 2 5; Scenario4.chapter 3 2]
     = Chapter.order c + 1) /\
  nextOrder [Scenario4.chapter 1 0; Scenario4.chapter 2 9007199254740992]
  = 9007199254740992.
Proof.
  split.
  - apply (proj1 (proj2 (nextOrder_above
                           [Scenario4.chapter 1 0; Scenario4.chapter 2 5;
                            Scenario4.chapter 3 2]))).
    + repeat constructor; simpl; lia.
    + discriminate.
  - apply (proj2 (proj2 (nextOrder_above
                           [Scenario4.chapter 1 0;
                            Scenario4.chapter 2 9007199254740992]))
             (Scenario4.chapter 2 9007199254740992)).
    + apply elem_of_cons. right. apply elem_of_cons. by left.
    + reflexivity.
    + repeat constructor; simpl; lia.
Defined.

End ChapterSidebar.

Section OutlineDelete.
Import Client.

Lemma findItemsToDelete_S (fuel : nat) (items : list OutlineItem.t) (p : Z)
  (deleted : list Z) :
  findItemsToDelete (S fuel) items p deleted
  = foldl (visit fuel items p) (Some deleted) items.
Proof. reflexivity. Qed.

Lemma below_trans (items : list OutlineItem.t) (r p x : Z) :
  below items r p -> below items p x -> below items r x.
Proof. intros Hp Hx. induction Hx; [done|]. by eapply below_child. Qed.

Lemma filter_length_mono (P Q : Z -> Prop) `{!forall x, Decision (P x)}
  `{!forall x, Decision (Q x)} (l : list Z) :
  (forall x, P x -> Q x) ->
  (length (filter P l) <= length (filter Q l))%nat.
Proof.
  intros HPQ. induction l as [|a l IH]; [done|].
  rewrite !filter_cons.
  destruct (decide (P a)) as [HP|HP], (decide (Q a)) as [HQ|HQ]; simpl; try lia.
  by destruct HQ; apply HPQ.
Qed.

Lemma filter_length_lt (P Q : Z -> Prop) `{!forall x, Decision (P x)}
  `{!forall x, Decision (Q x)} (l : list Z) (x : Z) :
  (forall x, P x -> Q x) -> x ∈ l -> Q x -> ~ P x ->
  (length (filter P l) < length (filter Q l))%nat.
Proof.
  intros HPQ Hin HQx HPx. induction l as [|a l IH]; [by inversion Hin|].
  rewrite !filter_cons.
  apply elem_of_cons in Hin as [<-|Hin].
  - rewrite decide_False, decide_True by done. simpl.
    pose proof (filter_length_mono P Q l HPQ). lia.
  - specialize (IH Hin).
    destruct (decide (P a)) as [HP|HP], (decide (Q a)) as [HQ|HQ]; simpl; try lia.
    by destruct HQ; apply HPQ.
Qed.

Lemma unvisited_mono (items : list OutlineItem.t) (D D' : list Z) :
  (forall x, x ∈ D -> x ∈ D') ->
  (length (unvisited items D') <= length (unvisited items D))%nat.
Proof. intros Hsub. apply filter_length_mono. intros x Hx Hin. by apply Hx, Hsub. Qed.

Lemma unvisited_cons (items : list OutlineItem.t) (D : list Z) (i : OutlineItem.t) :
  i ∈ items -> OutlineItem.id i ∉ D ->
  (length (unvisited items (OutlineItem.id i :: D)) < length (unvisited items D))%nat.
Proof.
  intros Hin Hfresh. apply (filter_length_lt _ _ _ (OutlineItem.id i)).
  - intros x Hx. by apply not_elem_of_cons in Hx as [_ Hx].
  - apply list_elem_of_fmap. by exists i.
  - done.
  - intros Hx. apply Hx. by left.
Qed.

(** With fuel for every id not yet in [deleted], the search returns; it only
    adds ids of items at or below [p]; it adds every item whose id or parent
    is [p]; and what it adds is closed under children. *)
Lemma findItemsToDelete_explores (items : list OutlineItem.t) (fuel : nat) :
  forall p D,
    (length (unvisited items D) < fuel)%nat ->
    exists D',
      findItemsToDelete fuel items p D = Some D' /\
      (forall x, x ∈ D -> x ∈ D') /\
      (forall x, x ∈ D' ->
         x ∈ D \/ (x ∈ map OutlineItem.id items /\ below items p x)) /\
      (forall i, i ∈ items ->
         OutlineItem.id i = p \/ OutlineItem.parentId i = Some p ->
         OutlineItem.id i ∈ D') /\
      (forall x, x ∈ D' -> x ∉ D ->
         forall i, i ∈ items -> OutlineItem.parentId i = Some x ->
                   OutlineItem.id i ∈ D').
Proof.
  induction fuel as [|fuel IHfuel]; intros p D Hfuel; [lia|].
  rewrite findItemsToDelete_S.
  assert (forall l Dk,
            (forall i, i ∈ l -> i ∈ items) ->
            (length (unvisited items Dk) <= fuel)%nat ->
            exists D',
              foldl (visit fuel items p) (Some Dk) l = Some D' /\
              (forall x, x ∈ Dk -> x ∈ D') /\
              (forall x, x ∈ D' ->
                 x ∈ Dk \/ (x ∈ map OutlineItem.id items /\ below items p x)) /\
              (forall i, i ∈ l ->
                 OutlineItem.id i = p \/ OutlineItem.parentId i = Some p ->
                 OutlineItem.id i ∈ D') /\
              (forall x, x ∈ D' -> x ∉ Dk ->
                 forall i, i ∈ items -> OutlineItem.parentId i = Some x ->
                           OutlineItem.id i ∈ D')) as Hloop.
  { induction l as [|i l IHl]; intros Dk Hsub Hk.
    - exists Dk. split; [done|]. split; [done|]. split; [by left|].
      split; [by intros i Hi; inversion Hi|done].
    - change (foldl (visit fuel items p) (Some Dk) (i :: l))
        with (foldl (visit fuel items p) (visit fuel items p (Some Dk) i) l).
      assert (i ∈ items) as Hi by (apply Hsub; by left).
      assert (forall j, j ∈ l -> j ∈ items) as Hsub' by (intros j Hj; apply Hsub; by right).
      destruct (decide ((OutlineItem.id i = p \/ OutlineItem.parentId i = Some p)
                        /\ OutlineItem.id i ∉ Dk)) as [[Hmatch Hfresh]|Hno].
      + assert (visit fuel items p (Some Dk) i
                = findItemsToDelete fuel items (OutlineItem.id i) (OutlineItem.id i :: Dk))
          as -> by (unfold visit; simpl; by rewrite bool_decide_eq_true_2).
        pose proof (unvisited_cons items Dk i Hi Hfresh) as Hless.
        destruct (IHfuel (OutlineItem.id i) (OutlineItem.id i :: Dk))
          as (D1 & -> & Hgrow1 & Hsound1 & Hdirect1 & Hclosed1); [lia|].
        assert (forall x, x ∈ Dk -> x ∈ D1) as Hgrow by (intros x Hx; apply Hgrow1; by right).
        pose proof (unvisited_mono items Dk D1 Hgrow) as Hmono.
        destruct (IHl D1 Hsub') as (D' & Heq & Hgrow' & Hsound' & Hdirect' & Hclosed');
          [lia|].
        assert (below items p (OutlineItem.id i)) as Hbelow.
        { destruct Hmatch as [<-|Hparent]; [constructor|].
          eapply below_child; [constructor|done..]. }
        exists D'. split; [done|]. repeat split.
        * intros x Hx. by apply Hgrow', Hgrow.
        * intros x Hx. destruct (Hsound' x Hx) as [Hx1|Hx1]; [|by right].
          destruct (Hsound1 x Hx1) as [Hxk|[Hid Hx2]].
          -- apply elem_of_cons in Hxk as [->|Hxk]; [|by left].
             right. split; [|done]. apply list_elem_of_fmap. by exists i.
          -- right. split; [done|]. by eapply below_trans.
        * intros j Hj Hjmatch. apply elem_of_cons in Hj as [->|Hj].
          -- apply Hgrow', Hgrow1. by left.
          -- by apply Hdirect'.
        * intros x Hx Hxk j Hj Hparent.
          destruct (decide (x ∈ D1)) as [Hx1|Hx1]; [|by eapply Hclosed'].
          apply Hgrow'.
          destruct (decide (x = OutlineItem.id i)) as [->|Hne].
          -- apply Hdirect1; [done|by right].
          -- eapply Hclosed1; [done| |done..].
             rewrite not_elem_of_cons. by split.
      + assert (visit fuel items p (Some Dk) i = Some Dk) as ->
          by (unfold visit; simpl; by rewrite bool_decide_eq_false_2).
        destruct (IHl Dk Hsub' Hk) as (D' & Heq & Hgrow' & Hsound' & Hdirect' & Hclosed').
        exists D'. split; [done|]. repeat split; try done.
        intros j Hj Hjmatch. apply elem_of_cons in Hj as [->|Hj]; [|by apply Hdirect'].
        apply Hgrow'. destruct (decide (OutlineItem.id i ∈ Dk)) as [Hin|Hout]; [done|].
        by destruct Hno. }
  apply Hloop; [done|lia].
Qed.

(** X25: the cache update of [handleDelete] removes the subtree of the
    deleted item and nothing else.  The search [findItemsToDelete] returns
    within one level of recursion per item, whatever the [parentId] links
    are (also on a cycle); the items left are, in their order, those that
    are neither the item nor below it; so no item that is left has a
    removed parent. *)
Theorem handleDelete_removes_subtree (outlineItems : list OutlineItem.t)
  (itemId : Z) :
  exists rest,
    filteredItems outlineItems itemId = Some rest /\
    sublist rest outlineItems /\
    (forall i, i ∈ rest <->
               i ∈ outlineItems /\ ~ below outlineItems itemId (OutlineItem.id i)) /\
    (forall i p, i ∈ rest -> OutlineItem.parentId i = Some p ->
                 ~ below outlineItems itemId p).
Proof.
  destruct (findItemsToDelete_explores outlineItems (S (length outlineItems)) itemId [])
    as (D & Heq & _ & Hsound & Hdirect & Hclosed).
  { unfold unvisited.
    pose proof (length_filter (fun x : Z => x ∉ @nil Z) (map OutlineItem.id outlineItems))
      as Hle.
    rewrite length_map in Hle. lia. }
  assert (forall x, below outlineItems itemId x -> x = itemId \/ x ∈ D) as Hcomplete.
  { intros x Hx. induction Hx as [|i p Hp IH Hi Hparent]; [by left|]. right.
    destruct IH as [->|Hin].
    - apply Hdirect; [done|by right].
    - eapply Hclosed; [done| |done..]. by intros Hnil; inversion Hnil. }
  assert (forall i, i ∈ outlineItems ->
            OutlineItem.id i ∉ D <-> ~ below outlineItems itemId (OutlineItem.id i))
    as Hleft.
  { intros i Hi. split.
    - intros Hout Hbelow. apply Hout.
      destruct (Hcomplete _ Hbelow) as [Hroot|Hin]; [|done].
      apply Hdirect; [done|by left].
    - intros Hnot Hin. apply Hnot.
      destruct (Hsound _ Hin) as [Hnil|[_ Hbelow]]; [by inversion Hnil|done]. }
  assert (forall i, i ∈ filter (fun i => OutlineItem.id i ∉ D) outlineItems <->
                    i ∈ outlineItems /\ ~ below outlineItems itemId (OutlineItem.id i))
    as Hrest.
  { intros i. rewrite list_elem_of_filter. split.
    - intros [Hout Hi]. split; [done|]. by apply Hleft.
    - intros [Hi Hnot]. split; [|done]. by apply Hleft. }
  unfold filteredItems. rewrite Heq. simpl.
  eexists. split; [done|]. split; [apply sublist_filter|]. split; [exact Hrest|].
  intros i p Hi Hparent Hbelow. apply Hrest in Hi as [Hi Hnot].
  apply Hnot. by eapply below_child.
Qed.

Lemma handleDelete_removes_subtree_witness :
  exists rest,
    filteredItems Scenario4.outline 1 = Some rest /\
    Scenario4.item 3 (Some 2) ∉ rest.
Proof.
  destruct (handleDelete_removes_subtree Scenario4.outline 1)
    as (rest & Heq & _ & Hrest & _).
  exists rest. split; [exact Heq|].
  intros Hin. apply Hrest in Hin as [_ Hnot]. apply Hnot.
  apply (below_child Scenario4.outline 1 (Scenario4.item 3 (Some 2)) 2);
    [|repeat constructor|reflexivity].
  apply (below_child Scenario4.outline 1 (Scenario4.item 2 (Some 1)) 1);
    [constructor|repeat constructor|reflexivity].
Defined.

End OutlineDelete.

Section Validation.
Import Db DatabaseStorage.

Lemma insertPlotStructureSchema_fields (fields fields' : list (string * Js.json)) :
  (forall k, k ∈ ["projectId"; "templateId"; "name"; "description"; "parentId"; "order"] ->
             Js.get_field k fields = Js.get_field k fields') ->
  Zod.insertPlotStructureSchema (Js.JObj fields)
  = Zod.insertPlotStructureSchema (Js.JObj fields').
Proof.
  intros Hsame.
  unfold Zod.insertPlotStructureSchema, Zod.required_number, Zod.required_string,
    Zod.optional_string, Zod.optional_number. simpl.
  rewrite !(Hsame _) by (rewrite !elem_of_cons; tauto). done.
Qed.

(** X26: [POST /api/plot-structures] reads six properties of the body and
    nothing else: two bodies that agree on them get the same answer and
    leave the same store, so an [id], [createdAt] or [updatedAt] sent by
    the client has no effect.  A body that is not an object is answered
    with 400 and changes nothing, and whenever the answer is not 201 the
    rows of the three tables are as they were. *)
Theorem post_plot_structure_reads (now : timestamp) (st : store) :
  (forall fields fields',
     (forall k, k ∈ ["projectId"; "templateId"; "name"; "description"; "parentId"; "order"] ->
                Js.get_field k fields = Js.get_field k fields') ->
     PlotRoutes.post_plot_structure (Js.JObj fields) now st
     = PlotRoutes.post_plot_structure (Js.JObj fields') now st) /\
  (forall reqBody, Zod.fields_of reqBody = None ->
     PlotRoutes.post_plot_structure reqBody now st
     = (PlotRoutes.mkResponse 400 (PlotRoutes.Invalid "Invalid plot structure data"), st)) /\
  (forall reqBody,
     PlotRoutes.status (fst (PlotRoutes.post_plot_structure reqBody now st)) <> 201 ->
     let st' := snd (PlotRoutes.post_plot_structure reqBody now st) in
     rows (plotStructures st') = rows (plotStructures st) /\
     plotStructureSections st' = plotStructureSections st /\
     plotStructureTemplates st' = plotStructureTemplates st).
Proof.
  repeat match goal with |- _ /\ _ => split end.
  - intros fields fields' Hsame. unfold PlotRoutes.post_plot_structure.
    by rewrite (insertPlotStructureSchema_fields fields fields' Hsame).
  - intros reqBody Hbody. unfold PlotRoutes.post_plot_structure, Zod.insertPlotStructureSchema.
    by rewrite Hbody.
  - intros reqBody. unfold PlotRoutes.post_plot_structure.
    destruct (Zod.insertPlotStructureSchema reqBody) as [v|]; [|done].
    unfold createPlotStructure.
    destruct (insert PlotStructure.id stored_structure (structure_row v now)
                (plotStructures st))
      as [[s|e] t] eqn:Hinsert; simpl; [done|].
    intros _. apply insert_Throw in Hinsert. done.
Qed.

Lemma post_plot_structure_reads_witness :
  PlotRoutes.post_plot_structure
    (Js.JObj [("id", Js.JNum 99); ("projectId", Js.JNum 42); ("templateId", Js.JNum 3);
              ("name", Js.JStr "Main plot")]) 1000 Scenario.two_structures
  = PlotRoutes.post_plot_structure
      (Js.JObj [("projectId", Js.JNum 42); ("templateId", Js.JNum 3);
                ("name", Js.JStr "Main plot")]) 1000 Scenario.two_structures.
Proof.
  apply (proj1 (post_plot_structure_reads 1000 Scenario.two_structures)).
  intros k Hk. rewrite !elem_of_cons, elem_of_nil in Hk.
  destruct Hk as [->|[->|[->|[->|[->|[->|[]]]]]]]; reflexivity.
Defined.

End Validation.

Section SortedView.
Import Client.

#[local] Instance order_le_total : Total DatabaseStorage.section_order_le.
Proof. intros a b. unfold DatabaseStorage.section_order_le. lia. Qed.

#[local] Instance order_le_trans : Transitive DatabaseStorage.section_order_le.
Proof. intros a b c. unfold DatabaseStorage.section_order_le. lia. Qed.

Lemma StronglySorted_lookup_S {A : Type} (R : A -> A -> Prop) (l : list A) (i : nat)
  (a b : A) :
  StronglySorted R l -> l !! i = Some a -> l !! S i = Some b -> R a b.
Proof.
  intros Hsorted. revert i. induction Hsorted as [|x l Hsorted IH Hall]; intros i Ha Hb.
  - done.
  - destruct i as [|i]; simpl in *.
    + injection Ha as <-. rewrite Forall_forall in Hall.
      apply Hall. by eapply list_elem_of_lookup_2.
    + by eapply IH.
Qed.

(** X27: in the plot structure view, where the list shown is
    [sortedSections], the arrows follow the order of the sections: when
    the section keys are distinct, [next] from a section leads to a
    section of the structure whose [order] is not smaller, and [prev] to
    one whose [order] is not greater. *)
Theorem navigateToSection_order (sections : list PlotStructureSection.t)
  (s : PlotStructureSection.t) :
  NoDup (map PlotStructureSection.sectionKey sections) ->
  s ∈ sections ->
  PlotStructureSection.sectionKey s <> EmptyString ->
  (exists t, t ∈ sections /\
     navigateToSection (sortedSections sections)
                       (Some (PlotStructureSection.sectionKey s)) next
     = Some (PlotStructureSection.sectionKey t) /\
     PlotStructureSection.order s <= PlotStructureSection.order t) /\
  (exists t, t ∈ sections /\
     navigateToSection (sortedSections sections)
                       (Some (PlotStructureSection.sectionKey s)) prev
     = Some (PlotStructureSection.sectionKey t) /\
     PlotStructureSection.order t <= PlotStructureSection.order s).
Proof.
  intros Hnodup Hs Hkey.
  assert (sortedSections sections ≡ₚ sections) as Hperm
    by apply merge_sort_Permutation.
  assert (StronglySorted DatabaseStorage.section_order_le (sortedSections sections))
    as Hsorted by (apply StronglySorted_merge_sort; apply _).
  assert (NoDup (map PlotStructureSection.sectionKey (sortedSections sections)))
    as Hnodup' by by rewrite Hperm.
  assert (forall t, t ∈ sortedSections sections -> t ∈ sections) as Hback
    by (intros t; by rewrite Hperm).
  rewrite <- Hperm in Hs. apply list_elem_of_lookup_1 in Hs as [i Hi].
  pose proof (lookup_lt_Some _ _ _ Hi) as Hlt.
  pose proof (findIndex_NoDup _ _ _ Hnodup' Hi) as Hindex.
  unfold navigateToSection.
  rewrite truthy_string_nonempty by done.
  rewrite bool_decide_eq_false_2 by lia. simpl. rewrite Hindex.
  split.
  - case_bool_decide as Hbound.
    + destruct (lookup_lt_is_Some_2 (sortedSections sections) (i + 1)) as [t Ht]; [lia|].
      exists t. rewrite Ht. split; [|split; [done|]].
      * by eapply Hback, list_elem_of_lookup_2.
      * replace (i + 1)%nat with (S i) in Ht by lia.
        exact (StronglySorted_lookup_S _ _ _ _ _ Hsorted Hi Ht).
    + exists s. split; [|split; [done|lia]]. by eapply Hback, list_elem_of_lookup_2.
  - case_bool_decide as Hbound.
    + destruct (lookup_lt_is_Some_2 (sortedSections sections) (i - 1)) as [t Ht]; [lia|].
      exists t. rewrite Ht. split; [|split; [done|]].
      * by eapply Hback, list_elem_of_lookup_2.
      * replace i with (S (i - 1)) in Hi by lia.
        exact (StronglySorted_lookup_S _ _ _ _ _ Hsorted Ht Hi).
    + exists s. split; [|split; [done|lia]]. by eapply Hback, list_elem_of_lookup_2.
Qed.

Lemma navigateToSection_order_witness :
  exists t, t ∈ [Scenario4.section 3 "resolution" 2; Scenario4.section 1 "setup" 0;
                 Scenario4.section 2 "confrontation" 1] /\
    navigateToSection
      (sortedSections [Scenario4.section 3 "resolution" 2; Scenario4.section 1 "setup" 0;
                       Scenario4.section 2 "confrontation" 1])
      (Some "setup") next
    = Some (PlotStructureSection.sectionKey t) /\
    0 <= PlotStructureSection.order t.
Proof.
  apply (navigateToSection_order
           [Scenario4.section 3 "resolution" 2; Scenario4.section 1 "setup" 0;
            Scenario4.section 2 "confrontation" 1]
           (Scenario4.section 1 "setup" 0)).
  - apply (bool_decide_unpack _). vm_compute. exact I.
  - right. left.
  - discriminate.
Defined.

End SortedView.

Section MemStorageSections.
Import MemStorage.

#[local] Instance mem_order_le_total : Total DatabaseStorage.section_order_le.
Proof. intros a b. unfold DatabaseStorage.section_order_le. lia. Qed.

#[local] Instance mem_order_le_trans : Transitive DatabaseStorage.section_order_le.
Proof. intros a b c. unfold DatabaseStorage.section_order_le. lia. Qed.

(** X28: [MemStorage] lists the sections of a structure in ascending
    [order].  While the counters are ahead of the keys, creating a section
    never fails, whatever the length of its key; the section stored has a
    content that is not [null], can be fetched at once, joins the listing
    of its structure and leaves the listing of every other structure as
    it was. *)
Theorem MemStorage_sections (st : state) (v : InsertPlotStructureSection.t)
  (now : timestamp) :
  counters_ahead st ->
  let s := fst (createPlotStructureSection v now st) in
  let st' := snd (createPlotStructureSection v now st) in
  PlotStructureSection.sectionKey s = InsertPlotStructureSection.sectionKey v /\
  PlotStructureSection.content s <> None /\
  getPlotStructureSection st' (PlotStructureSection.id s) = Some s /\
  (forall id, Sorted DatabaseStorage.section_order_le (getPlotStructureSections st' id)) /\
  getPlotStructureSections st' (InsertPlotStructureSection.plotStructureId v)
  ≡ₚ s :: getPlotStructureSections st (InsertPlotStructureSection.plotStructureId v) /\
  (forall other, other <> InsertPlotStructureSection.plotStructureId v ->
     getPlotStructureSections st' other = getPlotStructureSections st other).
Proof.
  intros (_ & _ & Hahead). simpl.
  pose proof (keys_ahead_get _ _ Hahead) as Hfree.
  unfold getPlotStructureSection, getPlotStructureSections. simpl.
  rewrite get_set_eq, set_absent by done.
  unfold JsMap.values. rewrite map_app. simpl.
  repeat match goal with |- _ /\ _ => split end; try done.
  - intros id. apply Sorted_merge_sort, _.
  - rewrite !merge_sort_Permutation, filter_app, filter_cons, decide_True by done.
    rewrite filter_nil. by rewrite <- Permutation_cons_append.
  - intros other Hother. rewrite filter_app, filter_cons, decide_False by done.
    by rewrite filter_nil, app_nil_r.
Qed.

Lemma MemStorage_sections_witness :
  getPlotStructureSections
    (snd (createPlotStructureSection
            (InsertPlotStructureSection.mk 7 "setup" "Setup" None 0) 1000 new)) 7
  ≡ₚ [fst (createPlotStructureSection
             (InsertPlotStructureSection.mk 7 "setup" "Setup" None 0) 1000 new)].
Proof.
  destruct (MemStorage_sections new (InsertPlotStructureSection.mk 7 "setup" "Setup" None 0)
              1000 counters_ahead_new) as (_ & _ & _ & _ & Hlisted & _).
  exact Hlisted.
Defined.

End MemStorageSections.
